(** * Tekhunt/mcp_server: the tool server and the autonomous client loop

    A shallow embedding of
    - [src/servers/models/local_models.py]: the Pydantic input models with
      their field validators, and the output models;
    - [src/servers/mcp_tools/local_tools.py]: the six tool handlers,
      [TOOL_HANDLERS] and [call_tool];
    - [src/clients/openai_client.py]: the body of the chat loop of
      [run_autonomous_agent] for one user turn.

    Python values are modelled as the code has them: [str] as [string] (one
    [ascii] per character), [float] as the kernel's binary64 [float], [int]
    as [Z], a [dict] received from JSON as an association list, an exception
    as a value carrying [type(e).__name__] and [str(e)], the JSON text of
    an output model as the fields it prints, and the effects (clock, files,
    model endpoint, tool host, printed lines) by explicit state passing. *)

From Stdlib Require Import ZArith List String Ascii Bool Lia DecimalString.
From Corelib Require Import PrimFloat SpecFloat FloatOps.
Import ListNotations.
Open Scope string_scope.
Open Scope nat_scope.

Set Implicit Arguments.
Set Warnings "-register-all".

(** ** Python [str] operations used by the source *)

Definition chars (s : string) : list ascii := list_ascii_of_string s.
Definition of_chars (l : list ascii) : string := string_of_list_ascii l.

(** [c in s] for a one-character [c]. *)
Definition char_in (c : ascii) (s : string) : bool :=
  existsb (Ascii.eqb c) (chars s).

(** ["".join(c for c in v if p c)] *)
Definition str_filter (p : ascii -> bool) (s : string) : string :=
  of_chars (filter p (chars s)).

(** [str.isspace] on the code points below 256. *)
Definition py_isspace (c : ascii) : bool :=
  let n := nat_of_ascii c in
  ((9 <=? n) && (n <=? 13)) || ((28 <=? n) && (n <=? 32))
  || (n =? 133) || (n =? 160).

Fixpoint drop_while (p : ascii -> bool) (l : list ascii) : list ascii :=
  match l with
  | [] => []
  | c :: l' => if p c then drop_while p l' else l
  end.

Definition lstrip_chars (l : list ascii) : list ascii := drop_while py_isspace l.
Definition rstrip_chars (l : list ascii) : list ascii :=
  rev (drop_while py_isspace (rev l)).

(** [s.strip()] *)
Definition strip (s : string) : string :=
  of_chars (rstrip_chars (lstrip_chars (chars s))).

(** [s.replace(old, new)] for one-character [old] and [new]. *)
Definition replace_char (old new : ascii) (s : string) : string :=
  of_chars (map (fun c => if Ascii.eqb c old then new else c) (chars s)).

(** [str.lower] on the code points below 256: the ASCII capitals and the
    Latin-1 capitals (all of 192..222 but the multiplication sign). *)
Definition lower_char (c : ascii) : ascii :=
  let n := nat_of_ascii c in
  if ((65 <=? n) && (n <=? 90))
     || ((192 <=? n) && (n <=? 222) && negb (n =? 215))
  then ascii_of_nat (n + 32) else c.

(** [s.lower()] *)
Definition lower (s : string) : string := of_chars (map lower_char (chars s)).

(** [sep.join(l)] *)
Fixpoint join (sep : string) (l : list string) : string :=
  match l with
  | [] => ""
  | [x] => x
  | x :: rest => x ++ sep ++ join sep rest
  end.

(** [s.split(sep)] for a one-character separator, on the characters. *)
Fixpoint split_chars (sep : ascii) (l : list ascii) : list (list ascii) :=
  match l with
  | [] => [[]]
  | c :: l' =>
      if Ascii.eqb c sep then [] :: split_chars sep l'
      else match split_chars sep l' with
           | [] => [[c]]
           | w :: ws => (c :: w) :: ws
           end
  end.

(** [str(n)] for a Python [int]. *)
Definition str_of_Z (z : Z) : string := NilZero.string_of_int (Z.to_int z).
Definition str_of_nat (n : nat) : string := str_of_Z (Z.of_nat n).

(** ["%0<width>d" % n] *)
Definition zero_pad (width n : nat) : string :=
  let s := str_of_nat n in
  of_chars (repeat "0"%char (width - String.length s)) ++ s.

Definition newline : string := String (ascii_of_nat 10) "".

(** What [read()] returns for the characters of a file opened in text
    mode with the default [newline=None]: universal newlines, where
    ["\r\n"] and a ["\r"] alone are both read as ["\n"]. *)
Fixpoint universal_newlines_chars (l : list ascii) : list ascii :=
  match l with
  | [] => []
  | c :: l' =>
      if Ascii.eqb c (ascii_of_nat 13)
      then ascii_of_nat 10
           :: match l' with
              | c' :: l'' =>
                  if Ascii.eqb c' (ascii_of_nat 10)
                  then universal_newlines_chars l''
                  else universal_newlines_chars l'
              | [] => []
              end
      else c :: universal_newlines_chars l'
  end.

Definition universal_newlines (s : string) : string :=
  of_chars (universal_newlines_chars (chars s)).

(** ** [pathlib.Path(v).name] on a POSIX host

    The path is cut at ['/'], empty and ['.'] components are dropped, and
    the name is the last component left, or [''] when there is none. *)
Definition path_parts (v : string) : list string :=
  filter (fun p => negb (String.eqb p "" || String.eqb p "."))
         (map of_chars (split_chars "/"%char (chars v))).

Definition path_name (v : string) : string := last (path_parts v) "".

(** ** Python [float] *)

(** [float(z)] for an [int]: the nearest float, ties to even, or an
    [OverflowError] ([None]) when that is beyond the largest float, which
    is so from [2^1024 - 2^970] on in magnitude. *)
Definition float_of_Z (z : Z) : option float :=
  let f := SF2Prim (binary_normalize prec emax z 0 false) in
  if is_infinity f then None else Some f.

(** The integer value of a float that holds an integer of magnitude below
    [2^53], with its sign bit. *)
Definition small_integral (f : float) : option (bool * Z) :=
  match Prim2SF f with
  | S754_zero s => Some (s, 0%Z)
  | S754_finite s m e =>
      let v := if (0 <=? e)%Z then Some (Z.pos m * 2 ^ e)%Z
               else if (Z.pos m mod 2 ^ (- e) =? 0)%Z
                    then Some (Z.pos m / 2 ^ (- e))%Z else None in
      match v with
      | Some z => if (z <? 2 ^ 53)%Z then Some (s, z) else None
      | None => None
      end
  | _ => None
  end.

(** ** [datetime.datetime] (naive) *)

Record datetime : Type := mk_datetime {
  year : nat; month : nat; day : nat;
  hour : nat; minute : nat; second : nat; microsecond : nat
}.

(** [datetime.isoformat()] *)
Definition isoformat (d : datetime) : string :=
  zero_pad 4 (year d) ++ "-" ++ zero_pad 2 (month d) ++ "-" ++ zero_pad 2 (day d)
  ++ "T" ++ zero_pad 2 (hour d) ++ ":" ++ zero_pad 2 (minute d) ++ ":"
  ++ zero_pad 2 (second d)
  ++ (if microsecond d =? 0 then "" else "." ++ zero_pad 6 (microsecond d)).

Definition month_name (m : nat) : string :=
  nth (m - 1) ["January"; "February"; "March"; "April"; "May"; "June"; "July";
               "August"; "September"; "October"; "November"; "December"] "".

(** [d.strftime("%B %d, %Y at %I:%M:%S %p")] in the C locale. *)
Definition strftime_human (d : datetime) : string :=
  let h12 := if hour d mod 12 =? 0 then 12 else hour d mod 12 in
  month_name (month d) ++ " " ++ zero_pad 2 (day d) ++ ", "
  ++ str_of_nat (year d) ++ " at " ++ zero_pad 2 h12 ++ ":"
  ++ zero_pad 2 (minute d) ++ ":" ++ zero_pad 2 (second d) ++ " "
  ++ (if hour d <? 12 then "AM" else "PM").

(** ** JSON values as [json.loads] builds them *)

Inductive Json : Type :=
| JNull
| JBool (b : bool)
| JInt (z : Z)
| JFloat (f : float)
| JStr (s : string)
| JList (l : list Json)
| JObj (d : list (string * Json)).

(** A [dict[str, Any]]: the pairs in insertion order. *)
Definition Dict : Type := list (string * Json).

(** [d.get(k)] *)
Fixpoint dict_get (k : string) (d : Dict) : option Json :=
  match d with
  | [] => None
  | (k', v) :: d' => if String.eqb k k' then Some v else dict_get k d'
  end.

(** ** Pydantic validation errors and Python exceptions *)

Inductive LocItem : Type := Key (k : string) | Index (i : nat).

(** One line of a [ValidationError]: the error type, the location and the
    message, as [e.errors()] lists them. *)
Record ErrorDetails : Type := mk_error {
  err_type : string;
  err_loc : list LocItem;
  err_msg : string
}.

Inductive Validated (A : Type) : Type :=
| Valid (x : A)
| Invalid (errors : list ErrorDetails).
Arguments Valid {A} x.
Arguments Invalid {A} errors.

Definition errors_of {A : Type} (r : Validated A) : list ErrorDetails :=
  match r with Valid _ => [] | Invalid es => es end.

(** [str(e)]: plain text, or for a [ValidationError] the report that
    pydantic-core prints from the model's title and its error lines. *)
Inductive Text : Type :=
| Plain (s : string)
| ValidationReport (title : string) (errors : list ErrorDetails).

(** A raised exception [e], by [type(e).__name__] and [str(e)]. *)
Record Exception : Type := mk_exception {
  exc_type : string;
  exc_str : Text
}.

Definition ValidationError (title : string) (errors : list ErrorDetails) : Exception :=
  mk_exception "ValidationError" (ValidationReport title errors).

Definition missing (k : string) : ErrorDetails :=
  mk_error "missing" [Key k] "Field required".
Definition string_type (loc : list LocItem) : ErrorDetails :=
  mk_error "string_type" loc "Input should be a valid string".
Definition string_too_short (k : string) (n : nat) : ErrorDetails :=
  mk_error "string_too_short" [Key k]
    ("String should have at least " ++ str_of_nat n
     ++ (if n =? 1 then " character" else " characters")).
Definition string_too_long (k : string) (n : nat) : ErrorDetails :=
  mk_error "string_too_long" [Key k]
    ("String should have at most " ++ str_of_nat n
     ++ (if n =? 1 then " character" else " characters")).
Definition string_pattern_mismatch (k pattern : string) : ErrorDetails :=
  mk_error "string_pattern_mismatch" [Key k]
    ("String should match pattern '" ++ pattern ++ "'").
Definition float_type (k : string) : ErrorDetails :=
  mk_error "float_type" [Key k] "Input should be a valid number".
Definition float_parsing (k : string) : ErrorDetails :=
  mk_error "float_parsing" [Key k]
    "Input should be a valid number, unable to parse string as a number".
Definition list_type (k : string) : ErrorDetails :=
  mk_error "list_type" [Key k] "Input should be a valid list".
(** A [ValueError(msg)] raised by a field validator. *)
Definition value_error (k msg : string) : ErrorDetails :=
  mk_error "value_error" [Key k] ("Value error, " ++ msg).

(** ** The models of [local_models.py] *)

Module CalculateInput.
Record t : Type := mk { operation : string; a : float; b : float }.
End CalculateInput.

Module WeatherInput.
Record t : Type := mk { city : string }.
End WeatherInput.

Module NoteInput.
Record t : Type := mk { title : string; content : string; tags : option (list string) }.
End NoteInput.

Module TemperatureInput.
Record t : Type := mk { temperature_fahrenheit : float }.
End TemperatureInput.

Module FileReadInput.
Record t : Type := mk { filename : string }.
End FileReadInput.

Module TimeInput.
Record t : Type := mk { format : string }.
End TimeInput.

Module CalculateOutput.
Record t : Type := mk {
  operation : string; operand_a : float; operand_b : float;
  result : float; formatted : string; timestamp : datetime
}.
End CalculateOutput.

Module WeatherOutput.
Record t : Type := mk {
  city : string; temperature : string; temperature_celsius : option float;
  condition : string; humidity : string; wind : string; timestamp : datetime
}.
End WeatherOutput.

Module NoteOutput.
Record t : Type := mk {
  filename : string; title : string; content_length : nat;
  tags : option (list string); created_at : datetime; success : bool;
  message : string
}.
End NoteOutput.

Module TemperatureOutput.
Record t : Type := mk {
  fahrenheit : float; celsius : float; formatted : string; timestamp : datetime
}.
End TemperatureOutput.

Module FileReadOutput.
Record t : Type := mk {
  filename : string; content : string; size_bytes : nat; lines : nat;
  success : bool
}.
End FileReadOutput.

Module TimeOutput.
Record t : Type := mk {
  timestamp : datetime; formatted : string; format_type : string;
  timezone : string
}.
End TimeOutput.

Module ErrorOutput.
Record t : Type := mk {
  success : bool; error_type : string; error_message : Text;
  timestamp : datetime
}.
End ErrorOutput.

(** What a handler serialises: one of the output models. *)
Inductive OutputModel : Type :=
| OCalculate (o : CalculateOutput.t)
| OWeather (o : WeatherOutput.t)
| ONote (o : NoteOutput.t)
| OTemperature (o : TemperatureOutput.t)
| OFileRead (o : FileReadOutput.t)
| OTime (o : TimeOutput.t)
| OError (o : ErrorOutput.t).

(** ** The JSON text of a model

    The value of a field as [model_dump_json] prints it.  A float prints
    as a number when it is finite and as [null] when it is infinite or NaN
    (pydantic's default for [ser_json_inf_nan]); a [None] prints as
    [null]; a [datetime] prints in ISO 8601. *)
Inductive Printed : Type :=
| PNull
| PBool (b : bool)
| PInt (n : nat)
| PNumber (f : float)
| PStr (s : string)
| PText (t : Text)
| PDatetime (d : datetime)
| PList (l : list string).

(** The text, kept as its fields in the order in which they are printed. *)
Definition JsonText : Type := list (string * Printed).

Definition print_float (f : float) : Printed :=
  if is_finite f then PNumber f else PNull.

Definition print_optional {A : Type} (p : A -> Printed) (v : option A) : Printed :=
  match v with
  | Some x => p x
  | None => PNull
  end.

(** [output.model_dump_json(indent=2)]: the fields of the model in the
    order of their declaration. *)
Definition model_dump_json (output : OutputModel) : JsonText :=
  match output with
  | OCalculate o =>
      [ ("operation", PStr (CalculateOutput.operation o));
        ("operand_a", print_float (CalculateOutput.operand_a o));
        ("operand_b", print_float (CalculateOutput.operand_b o));
        ("result", print_float (CalculateOutput.result o));
        ("formatted", PStr (CalculateOutput.formatted o));
        ("timestamp", PDatetime (CalculateOutput.timestamp o)) ]
  | OWeather o =>
      [ ("city", PStr (WeatherOutput.city o));
        ("temperature", PStr (WeatherOutput.temperature o));
        ("temperature_celsius",
         print_optional print_float (WeatherOutput.temperature_celsius o));
        ("condition", PStr (WeatherOutput.condition o));
        ("humidity", PStr (WeatherOutput.humidity o));
        ("wind", PStr (WeatherOutput.wind o));
        ("timestamp", PDatetime (WeatherOutput.timestamp o)) ]
  | ONote o =>
      [ ("filename", PStr (NoteOutput.filename o));
        ("title", PStr (NoteOutput.title o));
        ("content_length", PInt (NoteOutput.content_length o));
        ("tags", print_optional PList (NoteOutput.tags o));
        ("created_at", PDatetime (NoteOutput.created_at o));
        ("success", PBool (NoteOutput.success o));
        ("message", PStr (NoteOutput.message o)) ]
  | OTemperature o =>
      [ ("fahrenheit", print_float (TemperatureOutput.fahrenheit o));
        ("celsius", print_float (TemperatureOutput.celsius o));
        ("formatted", PStr (TemperatureOutput.formatted o));
        ("timestamp", PDatetime (TemperatureOutput.timestamp o)) ]
  | OFileRead o =>
      [ ("filename", PStr (FileReadOutput.filename o));
        ("content", PStr (FileReadOutput.content o));
        ("size_bytes", PInt (FileReadOutput.size_bytes o));
        ("lines", PInt (FileReadOutput.lines o));
        ("success", PBool (FileReadOutput.success o)) ]
  | OTime o =>
      [ ("timestamp", PDatetime (TimeOutput.timestamp o));
        ("formatted", PStr (TimeOutput.formatted o));
        ("format_type", PStr (TimeOutput.format_type o));
        ("timezone", PStr (TimeOutput.timezone o)) ]
  | OError o =>
      [ ("success", PBool (ErrorOutput.success o));
        ("error_type", PStr (ErrorOutput.error_type o));
        ("error_message", PText (ErrorOutput.error_message o));
        ("timestamp", PDatetime (ErrorOutput.timestamp o)) ]
  end.

(** [mcp.types.TextContent] *)
Record TextContent : Type := mk_text { type : string; text : JsonText }.

(** ** What the handlers take from outside the repository *)

Class Runtime : Type := {
  (** pydantic-core's lax reading of a [str] as a float *)
  str_as_float : string -> option float;
  (** [float.__repr__] outside the integers below [2^53] *)
  repr_general : float -> string;
  (** [round(x, 2)] *)
  round2 : float -> float;
  (** [format(x, ".2f")] *)
  format_2f : float -> string;
  (** [int(d.timestamp())] of a naive local time *)
  posix_seconds : datetime -> Z;
  (** [len(s.encode('utf-8'))] and [len(s.splitlines())] *)
  utf8_len : string -> nat;
  count_lines : string -> nat;
  (** [str(v)] of an argument that is not a [str] *)
  str_other : Json -> string;
  (** the time [datetime.now()] returns at its n-th call *)
  clock : nat -> datetime;
  (** the files of the working directory *)
  Files : Type;
  (** [open(name, 'w')]: creates or truncates, or raises *)
  open_w : Files -> string -> Exception + Files;
  (** [f.write(data)] on the file opened as [name] *)
  write_text : Files -> string -> string -> Files * option Exception;
  (** [open(name, 'r')] and [f.read()]: the text of the file, its
      newlines read as [read()] reads them *)
  read_text : Files -> string -> Exception + string
}.

Section Server.
Context {RT : Runtime}.

(** [str(x)] and [f"{x}"] for a float: an integer below [2^53] prints with
    a trailing [.0]. *)
Definition float_str (f : float) : string :=
  match small_integral f with
  | Some (s, z) => (if s then "-" else "") ++ str_of_Z z ++ ".0"
  | None => repr_general f
  end.

(** *** Field validation, in pydantic's order: presence, type, constraints,
    then the model's [field_validator] *)

Definition and_then {A B : Type} (r : Validated A) (k : A -> Validated B) : Validated B :=
  match r with
  | Valid x => k x
  | Invalid es => Invalid es
  end.

(** A field declared with [Field(...)]: required. *)
Definition required {A : Type} (k : string) (arguments : Dict)
    (validate : Json -> Validated A) : Validated A :=
  match dict_get k arguments with
  | None => Invalid [missing k]
  | Some v => validate v
  end.

(** A field declared with [Field(default=d, ...)]: the default is taken
    as it is when the key is absent. *)
Definition with_default {A : Type} (k : string) (d : A) (arguments : Dict)
    (validate : Json -> Validated A) : Validated A :=
  match dict_get k arguments with
  | None => Valid d
  | Some v => validate v
  end.

Definition str_type (loc : list LocItem) (v : Json) : Validated string :=
  match v with
  | JStr s => Valid s
  | _ => Invalid [string_type loc]
  end.

Definition min_length (k : string) (n : nat) (s : string) : Validated string :=
  if String.length s <? n then Invalid [string_too_short k n] else Valid s.

Definition max_length (k : string) (n : nat) (s : string) : Validated string :=
  if n <? String.length s then Invalid [string_too_long k n] else Valid s.

(** [pattern="^(w1|...|wn)$"]: pydantic-core matches with the Rust regex
    engine, where [$] is the end of the text, so the match is equality
    with one of the alternatives. *)
Definition pattern (k : string) (alternatives : list string) (s : string)
  : Validated string :=
  if existsb (String.eqb s) alternatives then Valid s
  else Invalid [string_pattern_mismatch k ("^(" ++ join "|" alternatives ++ ")$")].

(** A [float] field in lax mode.  A [float] is taken as it is, infinite
    or NaN included; an [int] is converted, and one that no float can hold
    is no valid number. *)
Definition float_field (k : string) (v : Json) : Validated float :=
  match v with
  | JFloat f => Valid f
  | JInt z => match float_of_Z z with
              | Some f => Valid f
              | None => Invalid [float_type k]
              end
  | JBool b => Valid (if b then 1%float else 0%float)
  | JStr s => match str_as_float s with
              | Some f => Valid f
              | None => Invalid [float_parsing k]
              end
  | _ => Invalid [float_type k]
  end.

(** The items of a [list[str]] field, each checked at its index. *)
Fixpoint str_items (k : string) (i : nat) (l : list Json) : Validated (list string) :=
  match l with
  | [] => Valid []
  | v :: l' =>
      match str_type [Key k; Index i] v, str_items k (S i) l' with
      | Valid s, Valid ss => Valid (s :: ss)
      | r, rs => Invalid (errors_of r ++ errors_of rs)
      end
  end.

(** An [Optional[list[str]]] field. *)
Definition optional_str_list (k : string) (v : Json) : Validated (option (list string)) :=
  match v with
  | JNull => Valid None
  | JList l => and_then (str_items k 0 l) (fun ss => Valid (Some ss))
  | _ => Invalid [list_type k]
  end.

(** *** [CalculateInput] *)

(** [validate_division(cls, v, info)]; [info.data] holds the fields that
    validated before [b], of which the validator reads ['operation']. *)
Definition validate_division (v : float) (info_data_operation : option string)
  : Validated float :=
  if match info_data_operation with
     | Some op => String.eqb op "divide"
     | None => false
     end && (v =? 0)%float
  then Invalid [value_error "b" "Cannot divide by zero"]
  else Valid v.

Definition validated_value {A : Type} (r : Validated A) : option A :=
  match r with Valid x => Some x | Invalid _ => None end.

Definition CalculateInput_validate (arguments : Dict) : Validated CalculateInput.t :=
  let operation :=
    required "operation" arguments (fun v =>
      and_then (str_type [Key "operation"] v)
        (pattern "operation" ["add"; "subtract"; "multiply"; "divide"])) in
  let a := required "a" arguments (float_field "a") in
  let b :=
    required "b" arguments (fun v =>
      and_then (float_field "b" v)
        (fun x => validate_division x (validated_value operation))) in
  match operation, a, b with
  | Valid o, Valid x, Valid y => Valid (CalculateInput.mk o x y)
  | _, _, _ => Invalid (errors_of operation ++ errors_of a ++ errors_of b)
  end.

(** *** [WeatherInput] *)

Definition validate_city (v : string) : Validated string := Valid (strip v).

Definition WeatherInput_validate (arguments : Dict) : Validated WeatherInput.t :=
  let city :=
    required "city" arguments (fun v =>
      and_then (and_then (and_then (str_type [Key "city"] v)
        (min_length "city" 1)) (max_length "city" 100)) validate_city) in
  match city with
  | Valid c => Valid (WeatherInput.mk c)
  | Invalid es => Invalid es
  end.

(** *** [NoteInput] *)

Definition safe_chars : string :=
  "abcdefghijklmnopqrstuvwxyzABCDEFGHIJKLMNOPQRSTUVWXYZ0123456789-_ ".

Definition sanitize_title (v : string) : Validated string :=
  let sanitized := strip (str_filter (fun c => char_in c safe_chars) v) in
  if String.eqb sanitized ""
  then Invalid [value_error "title"
                  "Title must contain at least one alphanumeric character"]
  else Valid sanitized.

Definition NoteInput_validate (arguments : Dict) : Validated NoteInput.t :=
  let title :=
    required "title" arguments (fun v =>
      and_then (and_then (and_then (str_type [Key "title"] v)
        (min_length "title" 1)) (max_length "title" 100)) sanitize_title) in
  let content :=
    required "content" arguments (fun v =>
      and_then (str_type [Key "content"] v) (min_length "content" 1)) in
  let tags := with_default "tags" None arguments (optional_str_list "tags") in
  match title, content, tags with
  | Valid t, Valid c, Valid g => Valid (NoteInput.mk t c g)
  | _, _, _ => Invalid (errors_of title ++ errors_of content ++ errors_of tags)
  end.

(** *** [TemperatureInput] *)

(** [-459.67] as Python reads it: the nearest binary64 value. *)
Definition absolute_zero_fahrenheit : float := (-0x1.cbab851eb851fp+8)%float.

Definition validate_temperature (v : float) : Validated float :=
  if (v <? absolute_zero_fahrenheit)%float
  then Invalid [value_error "temperature_fahrenheit"
                  "Temperature cannot be below absolute zero (-459.67°F)"]
  else Valid v.

Definition TemperatureInput_validate (arguments : Dict) : Validated TemperatureInput.t :=
  let t :=
    required "temperature_fahrenheit" arguments (fun v =>
      and_then (float_field "temperature_fahrenheit" v) validate_temperature) in
  match t with
  | Valid x => Valid (TemperatureInput.mk x)
  | Invalid es => Invalid es
  end.

(** *** [FileReadInput] *)

Definition validate_filename (v : string) : Validated string :=
  let safe_filename := path_name v in
  if String.eqb safe_filename "" || negb (String.eqb safe_filename v)
  then Invalid [value_error "filename"
                  "Invalid filename - path traversal not allowed"]
  else Valid safe_filename.

Definition FileReadInput_validate (arguments : Dict) : Validated FileReadInput.t :=
  let filename :=
    required "filename" arguments (fun v =>
      and_then (and_then (str_type [Key "filename"] v)
        (min_length "filename" 1)) validate_filename) in
  match filename with
  | Valid f => Valid (FileReadInput.mk f)
  | Invalid es => Invalid es
  end.

(** *** [TimeInput] *)

Definition TimeInput_validate (arguments : Dict) : Validated TimeInput.t :=
  let format :=
    with_default "format" "iso" arguments (fun v =>
      and_then (str_type [Key "format"] v)
        (pattern "format" ["iso"; "human"; "unix"])) in
  match format with
  | Valid f => Valid (TimeInput.mk f)
  | Invalid es => Invalid es
  end.

(** *** The state a handler runs in, and its exceptions *)

Record World : Type := mk_world {
  files : Files;   (** the working directory *)
  ticks : nat      (** how many times the clock has been read *)
}.

(** A computation that returns a value or raises, and leaves a state
    behind either way. *)
Definition M (A : Type) : Type := World -> (Exception + A) * World.

Definition ret {A : Type} (x : A) : M A := fun w => (inr x, w).
Definition raise {A : Type} (e : Exception) : M A := fun w => (inl e, w).
Definition bind {A B : Type} (c : M A) (k : A -> M B) : M B :=
  fun w =>
    match c w with
    | (inr x, w') => k x w'
    | (inl e, w') => (inl e, w')
    end.

Notation "x <- c ;; k" := (bind c (fun x => k))
  (at level 61, c at next level, right associativity).
Notation "c ;;; k" := (bind c (fun _ => k))
  (at level 61, right associativity).

(** [try: body / except Exception as e: handler(e)] *)
Definition try_except {A : Type} (body : M A) (handler : Exception -> World -> A * World)
  : World -> A * World :=
  fun w =>
    match body w with
    | (inr x, w') => (x, w')
    | (inl e, w') => handler e w'
    end.

(** [datetime.now()] *)
Definition datetime_now : M datetime :=
  fun w => (inr (clock (ticks w)), mk_world (files w) (S (ticks w))).

(** A model built from the keyword arguments [arguments]. *)
Definition construct {A : Type} (title : string) (validate : Dict -> Validated A)
    (arguments : Dict) : M A :=
  match validate arguments with
  | Valid x => ret x
  | Invalid es => raise (ValidationError title es)
  end.

Definition fs_open_w (name : string) : M unit :=
  fun w =>
    match open_w (files w) name with
    | inl e => (inl e, w)
    | inr fs => (inr tt, mk_world fs (ticks w))
    end.

Definition fs_write (name data : string) : M unit :=
  fun w =>
    match write_text (files w) name data with
    | (fs, Some e) => (inl e, mk_world fs (ticks w))
    | (fs, None) => (inr tt, mk_world fs (ticks w))
    end.

Definition fs_read (name : string) : M string :=
  fun w =>
    match read_text (files w) name with
    | inl e => (inl e, w)
    | inr data => (inr data, w)
    end.

(** The [except Exception as e] clause every handler ends with:
    [ErrorOutput(error_type=type(e).__name__, error_message=str(e))] as the
    only content; its [timestamp] is read from the clock. *)
Definition error_response (error_type : string) (error_message : Text)
  : World -> list TextContent * World :=
  fun w =>
    ([mk_text "text"
        (model_dump_json
           (OError (ErrorOutput.mk false error_type error_message (clock (ticks w)))))],
     mk_world (files w) (S (ticks w))).

Definition except_Exception (e : Exception) : World -> list TextContent * World :=
  error_response (exc_type e) (exc_str e).

(** ** The handlers of [local_tools.py]

    The calls to [logger] change nothing that a handler returns or
    writes, and are left out. *)

Definition Handler : Type := Dict -> World -> list TextContent * World.

(** The [operations] table of [calculate]; [x / y] raises on a zero
    divisor. *)
Definition operations : list (string * (float -> float -> M float)) :=
  [ ("add", fun x y => ret (x + y)%float);
    ("subtract", fun x y => ret (x - y)%float);
    ("multiply", fun x y => ret (x * y)%float);
    ("divide", fun x y =>
       if (y =? 0)%float
       then raise (mk_exception "ZeroDivisionError" (Plain "float division by zero"))
       else ret (x / y)%float) ].

Fixpoint lookup {A : Type} (k : string) (d : list (string * A)) : option A :=
  match d with
  | [] => None
  | (k', v) :: d' => if String.eqb k k' then Some v else lookup k d'
  end.

(** [operations[key]] *)
Definition operations_item (key : string) : M (float -> float -> M float) :=
  match lookup key operations with
  | Some f => ret f
  | None => raise (mk_exception "KeyError" (Plain ("'" ++ key ++ "'")))
  end.

(** The [try] block of [calculate]. *)
Definition calculate_try (arguments : Dict) : M (list TextContent) :=
  input_data <- construct "CalculateInput" CalculateInput_validate arguments ;;
  f <- operations_item (CalculateInput.operation input_data) ;;
  result <- f (CalculateInput.a input_data) (CalculateInput.b input_data) ;;
  let formatted :=
    float_str (CalculateInput.a input_data) ++ " "
    ++ CalculateInput.operation input_data ++ " "
    ++ float_str (CalculateInput.b input_data) ++ " = " ++ float_str result in
  timestamp <- datetime_now ;;
  ret [mk_text "text"
         (model_dump_json (OCalculate (CalculateOutput.mk
            (CalculateInput.operation input_data)
            (CalculateInput.a input_data) (CalculateInput.b input_data)
            result formatted timestamp)))].

Definition calculate : Handler := fun arguments =>
  try_except (calculate_try arguments) except_Exception.

(** The [try] block of [get_weather]. *)
Definition get_weather_try (arguments : Dict) : M (list TextContent) :=
  input_data <- construct "WeatherInput" WeatherInput_validate arguments ;;
  timestamp <- datetime_now ;;
  ret [mk_text "text"
         (model_dump_json (OWeather (WeatherOutput.mk
            (WeatherInput.city input_data) "72°F"
            (Some 0x1.6333333333333p+4%float) (* 22.2 *)
            "Sunny" "45%" "10 mph" timestamp)))].

Definition get_weather : Handler := fun arguments =>
  try_except (get_weather_try arguments) except_Exception.

(** [bool(tags)] for an [Optional[list[str]]] *)
Definition truthy (tags : option (list string)) : bool :=
  match tags with
  | Some (_ :: _) => true
  | _ => false
  end.

Definition note_filename (input_data : NoteInput.t) : string :=
  "note_" ++ replace_char " " "_" (NoteInput.title input_data) ++ ".txt".

(** The [try] block of [save_note]. *)
Definition save_note_try (arguments : Dict) : M (list TextContent) :=
  input_data <- construct "NoteInput" NoteInput_validate arguments ;;
  let filename := note_filename input_data in
  fs_open_w filename ;;;
  fs_write filename ("Title: " ++ NoteInput.title input_data ++ newline) ;;;
  created <- datetime_now ;;
  fs_write filename ("Created: " ++ isoformat created ++ newline) ;;;
  (if truthy (NoteInput.tags input_data)
   then fs_write filename
          ("Tags: " ++ join ", " (match NoteInput.tags input_data with
                                  | Some l => l
                                  | None => []
                                  end) ++ newline)
   else ret tt) ;;;
  fs_write filename (newline ++ NoteInput.content input_data) ;;;
  created_at <- datetime_now ;;
  ret [mk_text "text"
         (model_dump_json (ONote (NoteOutput.mk filename (NoteInput.title input_data)
            (String.length (NoteInput.content input_data))
            (NoteInput.tags input_data) created_at true
            ("Note successfully saved to " ++ filename))))].

Definition save_note : Handler := fun arguments =>
  try_except (save_note_try arguments) except_Exception.

(** The [try] block of [convert_temperature]. *)
Definition convert_temperature_try (arguments : Dict) : M (list TextContent) :=
  input_data <- construct "TemperatureInput" TemperatureInput_validate arguments ;;
  let f := TemperatureInput.temperature_fahrenheit input_data in
  let celsius := ((f - 32) * 5 / 9)%float in
  timestamp <- datetime_now ;;
  ret [mk_text "text"
         (model_dump_json (OTemperature (TemperatureOutput.mk f (round2 celsius)
            (float_str f ++ "°F = " ++ format_2f celsius ++ "°C")
            timestamp)))].

Definition convert_temperature : Handler := fun arguments =>
  try_except (convert_temperature_try arguments) except_Exception.

(** [f"{arguments.get('filename')}"] *)
Definition fstring_arg (v : option Json) : string :=
  match v with
  | Some (JStr s) => s
  | Some v' => str_other v'
  | None => "None"
  end.

(** The [try] block of [read_file]. *)
Definition read_file_try (arguments : Dict) : M (list TextContent) :=
  input_data <- construct "FileReadInput" FileReadInput_validate arguments ;;
  content <- fs_read (FileReadInput.filename input_data) ;;
  ret [mk_text "text"
         (model_dump_json
            (OFileRead (FileReadOutput.mk (FileReadInput.filename input_data)
            content (utf8_len content) (count_lines content) true)))].

(** The two [except] clauses of [read_file], tried in order. *)
Definition read_file_except (arguments : Dict) (e : Exception)
  : World -> list TextContent * World :=
  if String.eqb (exc_type e) "FileNotFoundError"
  then error_response "FileNotFoundError"
         (Plain ("File '" ++ fstring_arg (dict_get "filename" arguments)
                 ++ "' not found"))
  else except_Exception e.

Definition read_file : Handler := fun arguments =>
  try_except (read_file_try arguments) (read_file_except arguments).

(** The [try] block of [get_time]. *)
Definition get_time_try (arguments : Dict) : M (list TextContent) :=
  input_data <- construct "TimeInput" TimeInput_validate arguments ;;
  now <- datetime_now ;;
  let formatted :=
    if String.eqb (TimeInput.format input_data) "iso" then isoformat now
    else if String.eqb (TimeInput.format input_data) "human"
         then strftime_human now
         else str_of_Z (posix_seconds now) in
  ret [mk_text "text"
         (model_dump_json
            (OTime (TimeOutput.mk now formatted (TimeInput.format input_data) "UTC")))].

Definition get_time : Handler := fun arguments =>
  try_except (get_time_try arguments) except_Exception.

Definition TOOL_HANDLERS : list (string * Handler) :=
  [ ("calculate", calculate);
    ("get_weather", get_weather);
    ("save_note", save_note);
    ("convert_temperature", convert_temperature);
    ("read_file", read_file);
    ("get_time", get_time) ].

(** [call_tool], with the module's table as an argument. *)
Definition call_tool_in (handlers : list (string * Handler)) (name : string)
    (arguments : Dict) : World -> list TextContent * World :=
  match lookup name handlers with
  | Some handler => handler arguments
  | None => error_response "UnknownToolError" (Plain ("Unknown tool: " ++ name))
  end.

Definition call_tool : string -> Dict -> World -> list TextContent * World :=
  call_tool_in TOOL_HANDLERS.

(** A handler's content reports a failure when it is an [ErrorOutput],
    the one model whose [success] is [False]: its text prints
    ["success": false]. *)
Definition is_error (r : list TextContent) : bool :=
  existsb (fun c => match lookup "success" (text c) with
                    | Some (PBool false) => true
                    | _ => false
                    end) r.

End Server.

(** [mcp.types.Tool]; [inputSchema] is the [model_json_schema()] of an
    input model, kept as the model's title. *)
Module Tool.
Record t : Type := mk { name : string; description : string; inputSchema : string }.
End Tool.

Definition list_tools : list Tool.t :=
  [ Tool.mk "calculate"
      "Perform arithmetic calculations with type-safe inputs and structured output"
      "CalculateInput";
    Tool.mk "get_weather"
      "Get weather information with validated city input and structured JSON output"
      "WeatherInput";
    Tool.mk "save_note"
      "Save a note with optional tags, validated inputs, and structured output"
      "NoteInput";
    Tool.mk "convert_temperature"
      "Convert Fahrenheit to Celsius with validation and structured output"
      "TemperatureInput";
    Tool.mk "read_file"
      "Read file contents with path traversal protection and structured output"
      "FileReadInput";
    Tool.mk "get_time"
      "Get current time in various formats with structured output"
      "TimeInput" ].

Section ServerEndpoints.
Context {RT : Runtime}.

(** The ["tools"] entry of [health_check]: [list(TOOL_HANDLERS.keys())]. *)
Definition health_check_tools : list string := map fst TOOL_HANDLERS.

End ServerEndpoints.

(** ** The client of [openai_client.py] *)

Module ToolCall.
Record t : Type := mk {
  id : string;
  name : string;        (** [tool_call.function.name] *)
  arguments : string    (** [tool_call.function.arguments], JSON text *)
}.
End ToolCall.

(** [response.choices[0].message] *)
Module ChatCompletionMessage.
Record t : Type := mk {
  content : option string;
  tool_calls : option (list ToolCall.t)
}.
End ChatCompletionMessage.

Inductive Role : Type := system | user | assistant | tool.

Definition role_eqb (r1 r2 : Role) : bool :=
  match r1, r2 with
  | system, system | user, user | assistant, assistant | tool, tool => true
  | _, _ => false
  end.

(** An entry of [messages]; a key the dict does not have is [None]. *)
Module Message.
Record t : Type := mk {
  role : Role;
  content : option string;
  tool_calls : option (list ToolCall.t);
  tool_call_id : option string
}.
End Message.

(** An item of [result.content]: it has a [text] attribute or not. *)
Inductive Content : Type :=
| WithText (text : string)
| WithoutText.

(** What the client reaches over the network: the model endpoint
    [client.chat.completions.create] and the tool host [session.call_tool],
    each answering or raising and moving the remote state; and
    [json.loads]. *)
Class Endpoints : Type := {
  Remote : Type;
  chat_completions_create :
    list Message.t -> Remote -> (Exception + ChatCompletionMessage.t) * Remote;
  json_loads : string -> Exception + Json;
  session_call_tool :
    string -> Json -> Remote -> (Exception + list Content) * Remote
}.

(** The lines the loop prints. *)
Inductive Line : Type :=
| AssistantLine (content : string)
| ExecutingLine (step : nat)
| ToolLine (tool_name : string)
| ArgsLine (tool_args : Json)
| ResultLine (tool_result : string)
| MaximumIterationsLine
| ErrorLine (e : Exception).

(** The requests that leave the client, in the order they are sent. *)
Inductive Request : Type :=
| Inference (sent : list Message.t)
| Invocation (tool_name : string) (tool_args : Json).

Section Client.
Context {EP : Endpoints}.

Record Session : Type := mk_session {
  remote : Remote;
  messages : list Message.t;
  printed : list Line;
  requests : list Request      (** ghost: the log of requests sent *)
}.

Definition append (m : Message.t) (s : Session) : Session :=
  mk_session (remote s) (messages s ++ [m]) (printed s) (requests s).

Definition print (l : Line) (s : Session) : Session :=
  mk_session (remote s) (messages s) (printed s ++ [l]) (requests s).

Definition send (q : Request) (r : Remote) (s : Session) : Session :=
  mk_session r (messages s) (printed s) (requests s ++ [q]).

(** The text of the items of [result.content] that have one, concatenated. *)
Fixpoint extract_text (content : list Content) : string :=
  match content with
  | [] => ""
  | WithText t :: rest => t ++ extract_text rest
  | WithoutText :: rest => extract_text rest
  end.

Definition tool_message (tool_call : ToolCall.t) (tool_result : string) : Message.t :=
  Message.mk tool (Some tool_result) None (Some (ToolCall.id tool_call)).

(** [for tool_call in assistant_message.tool_calls: ...]: the calls are
    taken from the head of the list; an exception raised by [json.loads] or
    by [session.call_tool] leaves the loop with the calls after it
    untouched. *)
Fixpoint execute_tool_calls (tool_calls : list ToolCall.t) (s : Session)
  : option Exception * Session :=
  match tool_calls with
  | [] => (None, s)
  | tool_call :: rest =>
      let tool_name := ToolCall.name tool_call in
      match json_loads (ToolCall.arguments tool_call) with
      | inl e => (Some e, s)
      | inr tool_args =>
          let s := print (ToolLine tool_name) s in
          let s := print (ArgsLine tool_args) s in
          match session_call_tool tool_name tool_args (remote s) with
          | (inl e, r) => (Some e, send (Invocation tool_name tool_args) r s)
          | (inr content, r) =>
              let s := send (Invocation tool_name tool_args) r s in
              let tool_result := extract_text content in
              let s := print (ResultLine tool_result) s in
              let s := append (tool_message tool_call tool_result) s in
              execute_tool_calls rest s
          end
      end
  end.

Definition max_iterations : nat := 10.

(** How the [while] loop is left. *)
Inductive Exit : Type :=
| Break                     (** the response carried no tool call *)
| ConditionFalse            (** [iteration < max_iterations] failed *)
| Raised (e : Exception)
| OutOfFuel.                (** the bound on unfoldings of this model *)

(** [not assistant_message.tool_calls] *)
Definition no_tool_calls (m : ChatCompletionMessage.t) : bool :=
  match ChatCompletionMessage.tool_calls m with
  | None | Some [] => true
  | Some (_ :: _) => false
  end.

Definition batch (m : ChatCompletionMessage.t) : list ToolCall.t :=
  match ChatCompletionMessage.tool_calls m with
  | Some l => l
  | None => []
  end.

Definition assistant_entry (m : ChatCompletionMessage.t) : Message.t :=
  Message.mk assistant (ChatCompletionMessage.content m)
             (ChatCompletionMessage.tool_calls m) None.

(** [while iteration < max_iterations: ...] *)
Fixpoint while_loop (fuel iteration : nat) (s : Session) : Exit * nat * Session :=
  if iteration <? max_iterations then
    match fuel with
    | 0 => (OutOfFuel, iteration, s)
    | S fuel' =>
        let iteration := iteration + 1 in
        match chat_completions_create (messages s) (remote s) with
        | (inl e, r) => (Raised e, iteration, send (Inference (messages s)) r s)
        | (inr assistant_message, r) =>
            let s := send (Inference (messages s)) r s in
            let s := append (assistant_entry assistant_message) s in
            if no_tool_calls assistant_message then
              let s :=
                match ChatCompletionMessage.content assistant_message with
                | Some c => if String.eqb c "" then s else print (AssistantLine c) s
                | None => s
                end in
              (Break, iteration, s)
            else
              let s := print (ExecutingLine iteration) s in
              match execute_tool_calls (batch assistant_message) s with
              | (Some e, s) => (Raised e, iteration, s)
              | (None, s) => while_loop fuel' iteration s
              end
        end
    end
  else (ConditionFalse, iteration, s).

(** How a user turn ends. *)
Inductive Outcome : Type :=
| Answered                      (** left by [break] *)
| Exhausted                     (** the loop ran out of iterations *)
| Aborted (e : Exception)       (** an exception reached [except Exception] *)
| Escaped (e : Exception)       (** the [except] clause raised itself *)
| Unfinished.                   (** the model of the loop ran out of fuel *)

(** The body of the [try]: the loop from [iteration = 0], then the
    warning when [iteration >= max_iterations]. *)
Definition try_body (s : Session) : Exit * Session :=
  let '(exit, iteration, s) := while_loop max_iterations 0 s in
  match exit with
  | Raised _ | OutOfFuel => (exit, s)
  | _ => (exit, if max_iterations <=? iteration
                then print MaximumIterationsLine s else s)
  end.

(** [if messages[-1]["role"] == "user": messages.pop()]; on an empty list
    [messages[-1]] raises [IndexError]. *)
Definition pop_last_user (l : list Message.t) : Exception + list Message.t :=
  match rev l with
  | [] => inl (mk_exception "IndexError" (Plain "list index out of range"))
  | m :: _ => if role_eqb (Message.role m) user then inr (removelast l) else inr l
  end.

(** The [except Exception as e] clause of the turn. *)
Definition except_clause (e : Exception) (s : Session) : Outcome * Session :=
  let s := print (ErrorLine e) s in
  match pop_last_user (messages s) with
  | inl e' => (Escaped e', s)
  | inr l => (Aborted e, mk_session (remote s) l (printed s) (requests s))
  end.

Definition user_entry (user_input : string) : Message.t :=
  Message.mk user (Some user_input) None None.

(** One pass of the chat loop for a non-empty [user_input] that is not a
    quit word: the message is appended and the [try] statement runs. *)
Definition user_turn (user_input : string) (s : Session) : Outcome * Session :=
  let s := append (user_entry user_input) s in
  match try_body s with
  | (Raised e, s) => except_clause e s
  | (Break, s) => (Answered, s)
  | (ConditionFalse, s) => (Exhausted, s)
  | (OutOfFuel, s) => (Unfinished, s)
  end.

(** How the chat loop is left. *)
Inductive SessionEnd : Type :=
| Goodbye                        (** a quit word: prints "Goodbye!" *)
| Interrupted                    (** [EOFError] or [KeyboardInterrupt] from [input] *)
| UnexpectedError (e : Exception)  (** caught by the outer [except Exception] *)
| Stuck                          (** a turn of the model ran out of fuel *)
| AwaitingInput.                 (** the lines typed so far are all read *)

Definition quit_words : list string := ["quit"; "exit"; "q"].

(** [while True: ...] over what [input("You: ")] returns call after call: a
    line, or [None] when it raises [EOFError] or [KeyboardInterrupt]. *)
Fixpoint chat_loop (inputs : list (option string)) (s : Session)
  : SessionEnd * Session :=
  match inputs with
  | [] => (AwaitingInput, s)
  | None :: _ => (Interrupted, s)
  | Some line :: rest =>
      let user_input := strip line in
      if existsb (String.eqb (lower user_input)) quit_words then (Goodbye, s)
      else if String.eqb user_input "" then chat_loop rest s
      else
        match user_turn user_input s with
        | (Escaped e, s) => (UnexpectedError e, s)
        | (Unfinished, s) => (Stuck, s)
        | (_, s) => chat_loop rest s
        end
  end.

End Client.

(** ** Concrete surroundings, to run the model on examples *)

(** A directory as a list of named text files. *)
Definition sample_open_w (fs : list (string * string)) (name : string)
  : Exception + list (string * string) :=
  if String.eqb name ""
  then inl (mk_exception "FileNotFoundError"
              (Plain "[Errno 2] No such file or directory: ''"))
  else inr ((name, "") :: filter (fun p => negb (String.eqb (fst p) name)) fs).

Definition sample_write_text (fs : list (string * string)) (name data : string)
  : list (string * string) * option Exception :=
  (map (fun p => if String.eqb (fst p) name then (name, snd p ++ data) else p) fs,
   None).

Definition sample_read_text (fs : list (string * string)) (name : string)
  : Exception + string :=
  match lookup name fs with
  | Some data => inr (universal_newlines data)
  | None => inl (mk_exception "FileNotFoundError"
                   (Plain ("[Errno 2] No such file or directory: '" ++ name ++ "'")))
  end.

(** A clock that starts on 2025-01-01 at noon and gains a second a call. *)
Definition sample_clock (n : nat) : datetime := mk_datetime 2025 1 1 12 0 n 0.

(** The renderings of floats that are no small integers, and the sizes of
    a file's content, are stand-ins: the examples do not look at them. *)
Definition sample_runtime : Runtime := {|
  str_as_float := fun _ => None;
  repr_general := fun _ => "<float>";
  round2 := fun x => x;
  format_2f := fun _ => "<float>";
  posix_seconds := fun d => Z.of_nat (second d);
  utf8_len := String.length;
  count_lines := fun _ => 1;
  str_other := fun _ => "<value>";
  clock := sample_clock;
  Files := list (string * string);
  open_w := sample_open_w;
  write_text := sample_write_text;
  read_text := sample_read_text
|}.

Definition sample_world (fs : list (string * string)) : @World sample_runtime :=
  @mk_world sample_runtime fs 0.

(** A note, as the arguments of [save_note] and as they validate. *)
Definition sample_note : Dict :=
  [("title", JStr " Shopping list! "); ("content", JStr "milk");
   ("tags", JList [JStr "home"; JStr "food"])].

Definition sample_note_input : NoteInput.t :=
  NoteInput.mk "Shopping list" "milk" (Some ["home"; "food"]).

(** [json.loads] on the two texts the examples use: the empty object, and
    anything else, taken as malformed. *)
Definition sample_json_loads (text : string) : Exception + Json :=
  if String.eqb text "{}" then inr (JObj [])
  else inl (mk_exception "JSONDecodeError" (Plain "Expecting value")).

(** A scripted model endpoint: the n-th inference is answered by the n-th
    entry of [script], and raises once the script is used up; the tool host
    answers by [host]. *)
Definition scripted (script : list (Exception + ChatCompletionMessage.t))
    (host : string -> Json -> Exception + list Content) : Endpoints := {|
  Remote := nat;
  chat_completions_create := fun _ n =>
    (nth n script (inl (mk_exception "APIConnectionError" (Plain "Connection error."))),
     S n);
  json_loads := sample_json_loads;
  session_call_tool := fun tool_name tool_args n => (host tool_name tool_args, n)
|}.

(** A model that asks for the same tool call at every inference. *)
Definition insistent (tool_call : ToolCall.t) : Endpoints := {|
  Remote := nat;
  chat_completions_create := fun _ n =>
    (inr (ChatCompletionMessage.mk None (Some [tool_call])), S n);
  json_loads := sample_json_loads;
  session_call_tool := fun _ _ n => (inr [WithText "ok"], n)
|}.

Definition sample_system_entry : Message.t :=
  Message.mk system
    (Some "You are a helpful autonomous assistant with access to tools via MCP.")
    None None.

Definition divide_call : ToolCall.t := ToolCall.mk "call_1" "calculate" "{}".
Definition note_call : ToolCall.t := ToolCall.mk "call_2" "save_note" "{}".

(** A tool host that answers every call with one text item. *)
Definition sample_host (tool_name : string) (tool_args : Json)
  : Exception + list Content :=
  inr [WithText ("result of " ++ tool_name)].

(** The model asks for two calls in one batch, then answers. *)
Definition two_calls_then_answer : Endpoints :=
  scripted [inr (ChatCompletionMessage.mk None (Some [divide_call; note_call]));
            inr (ChatCompletionMessage.mk (Some "Done.") None)]
           sample_host.

(** The model asks for one call; the inference after it fails. *)
Definition one_call_then_failure : Endpoints :=
  scripted [inr (ChatCompletionMessage.mk None (Some [divide_call]))] sample_host.



(** The model asks for a call nine times, and answers at the tenth
    inference. *)
Definition answer_at_the_tenth : Endpoints :=
  scripted (repeat (inr (ChatCompletionMessage.mk None (Some [divide_call]))) 9
            ++ [inr (ChatCompletionMessage.mk (Some "Done.") None)])%list
           sample_host.

(** The model endpoint is unreachable. *)
Definition unreachable : Endpoints := scripted [] sample_host.

(** A session that has seen no turn yet. *)
Definition fresh_session (EP : Endpoints) (r : @Remote EP) : @Session EP :=
  @mk_session EP r [sample_system_entry] [] [].

(** ** Notions the statements about the client use *)

Section ClientNotions.
Context {EP : Endpoints}.

(** The tool-role messages of [calls] answered by [results], pairwise. *)
Definition tool_messages (calls : list ToolCall.t) (results : list string)
  : list Message.t :=
  map (fun cr => tool_message (fst cr) (snd cr)) (combine calls results).

(** A run of rounds, each an assistant message that asks for a batch
    followed by one tool message per call of the batch, in the batch's
    order. *)
Inductive answered_rounds : list Message.t -> Prop :=
| no_round : answered_rounds []
| one_more_round : forall rounds m results,
    answered_rounds rounds ->
    no_tool_calls m = false ->
    List.length results = List.length (batch m) ->
    answered_rounds
      (rounds ++ assistant_entry m :: tool_messages (batch m) results).

Definition is_inference (q : Request) : bool :=
  match q with Inference _ => true | Invocation _ _ => false end.

(** How many model inferences a log of requests holds. *)
Definition inferences (log : list Request) : nat :=
  List.length (filter is_inference log).

(** The request that dispatches [tool_call]. *)
Definition dispatches (tool_call : ToolCall.t) (q : Request) : Prop :=
  exists tool_args,
    json_loads (ToolCall.arguments tool_call) = inr tool_args /\
    q = Invocation (ToolCall.name tool_call) tool_args.

(** An input line that strips to nothing. *)
Definition blank (input : option string) : bool :=
  match input with
  | Some line => String.eqb (strip line) ""
  | None => false
  end.

Definition from_the_turn (m : Message.t) : Prop :=
  Message.role m = assistant \/ Message.role m = tool.


End ClientNotions.

(** ** Notions the statements about the server use *)

Section ServerNotions.
Context {RT : Runtime}.

(** The input model of a tool, by its title, and what its validation
    reports on [arguments]: no error when they satisfy the schema. *)
Definition schema_errors (name : string) (arguments : Dict)
  : option (string * list ErrorDetails) :=
  if String.eqb name "calculate"
  then Some ("CalculateInput", errors_of (CalculateInput_validate arguments))
  else if String.eqb name "get_weather"
  then Some ("WeatherInput", errors_of (WeatherInput_validate arguments))
  else if String.eqb name "save_note"
  then Some ("NoteInput", errors_of (NoteInput_validate arguments))
  else if String.eqb name "convert_temperature"
  then Some ("TemperatureInput", errors_of (TemperatureInput_validate arguments))
  else if String.eqb name "read_file"
  then Some ("FileReadInput", errors_of (FileReadInput_validate arguments))
  else if String.eqb name "get_time"
  then Some ("TimeInput", errors_of (TimeInput_validate arguments))
  else None.

(** The fields each tool requires. *)
Definition required_fields (name : string) : list string :=
  if String.eqb name "calculate" then ["operation"; "a"; "b"]
  else if String.eqb name "get_weather" then ["city"]
  else if String.eqb name "save_note" then ["title"; "content"]
  else if String.eqb name "convert_temperature" then ["temperature_fahrenheit"]
  else if String.eqb name "read_file" then ["filename"]
  else [].

(** The float fields and the string fields of each tool. *)
Definition float_fields : list (string * string) :=
  [("calculate", "a"); ("calculate", "b");
   ("convert_temperature", "temperature_fahrenheit")].

Definition str_fields : list (string * string) :=
  [("calculate", "operation"); ("get_weather", "city"); ("save_note", "title");
   ("save_note", "content"); ("read_file", "filename"); ("get_time", "format")].

(** [violation name arguments err]: the payload [arguments] breaks a
    constraint that the input model of the tool [name] declares, and [err]
    is the line that names it in the report.  The constraints are those of
    the [Field] declarations (presence, type, [pattern], [min_length],
    [max_length]) and those the field validators are documented to
    enforce; they are written on the payload, not on what the validators
    compute. *)
Inductive violation : string -> Dict -> ErrorDetails -> Prop :=
| field_is_missing : forall name arguments k,
    In k (required_fields name) ->
    dict_get k arguments = None ->
    violation name arguments (missing k)
| field_is_no_number : forall name arguments k v,
    In (name, k) float_fields ->
    dict_get k arguments = Some v ->
    (v = JNull \/ (exists l, v = JList l) \/ (exists d, v = JObj d)
     \/ (exists z, v = JInt z /\ float_of_Z z = None)) ->
    violation name arguments (float_type k)
| field_is_no_numeric_string : forall name arguments k s,
    In (name, k) float_fields ->
    dict_get k arguments = Some (JStr s) ->
    str_as_float s = None ->
    violation name arguments (float_parsing k)
| field_is_no_string : forall name arguments k v,
    In (name, k) str_fields ->
    dict_get k arguments = Some v ->
    (forall s, v <> JStr s) ->
    violation name arguments (string_type [Key k])
| operation_is_unknown : forall arguments operation,
    dict_get "operation" arguments = Some (JStr operation) ->
    ~ In operation ["add"; "subtract"; "multiply"; "divide"] ->
    violation "calculate" arguments
      (string_pattern_mismatch "operation" "^(add|subtract|multiply|divide)$")
| divisor_is_zero : forall arguments vb fb,
    dict_get "operation" arguments = Some (JStr "divide") ->
    dict_get "b" arguments = Some vb ->
    float_field "b" vb = Valid fb ->
    (fb =? 0)%float = true ->
    violation "calculate" arguments (value_error "b" "Cannot divide by zero")
| city_is_empty : forall arguments,
    dict_get "city" arguments = Some (JStr "") ->
    violation "get_weather" arguments (string_too_short "city" 1)
| city_is_too_long : forall arguments city,
    dict_get "city" arguments = Some (JStr city) ->
    100 < String.length city ->
    violation "get_weather" arguments (string_too_long "city" 100)
| title_is_empty : forall arguments,
    dict_get "title" arguments = Some (JStr "") ->
    violation "save_note" arguments (string_too_short "title" 1)
| title_is_too_long : forall arguments title,
    dict_get "title" arguments = Some (JStr title) ->
    100 < String.length title ->
    violation "save_note" arguments (string_too_long "title" 100)
| title_has_no_safe_character : forall arguments title,
    dict_get "title" arguments = Some (JStr title) ->
    1 <= String.length title <= 100 ->
    forallb (fun c => negb (char_in c safe_chars) || py_isspace c) (chars title)
    = true ->
    violation "save_note" arguments
      (value_error "title" "Title must contain at least one alphanumeric character")
| content_is_empty : forall arguments,
    dict_get "content" arguments = Some (JStr "") ->
    violation "save_note" arguments (string_too_short "content" 1)
| tags_is_no_list : forall arguments v,
    dict_get "tags" arguments = Some v ->
    v <> JNull ->
    (forall l, v <> JList l) ->
    violation "save_note" arguments (list_type "tags")
| tag_is_no_string : forall arguments l i v,
    dict_get "tags" arguments = Some (JList l) ->
    nth_error l i = Some v ->
    (forall s, v <> JStr s) ->
    violation "save_note" arguments (string_type [Key "tags"; Index i])
| temperature_is_below_absolute_zero : forall arguments v f,
    dict_get "temperature_fahrenheit" arguments = Some v ->
    float_field "temperature_fahrenheit" v = Valid f ->
    (f <? absolute_zero_fahrenheit)%float = true ->
    violation "convert_temperature" arguments
      (value_error "temperature_fahrenheit"
         "Temperature cannot be below absolute zero (-459.67°F)")
| filename_is_empty : forall arguments,
    dict_get "filename" arguments = Some (JStr "") ->
    violation "read_file" arguments (string_too_short "filename" 1)
| filename_has_a_path : forall arguments filename,
    dict_get "filename" arguments = Some (JStr filename) ->
    char_in "/" filename = true ->
    violation "read_file" arguments
      (value_error "filename" "Invalid filename - path traversal not allowed")
| format_is_unknown : forall arguments format,
    dict_get "format" arguments = Some (JStr format) ->
    ~ In format ["iso"; "human"; "unix"] ->
    violation "get_time" arguments
      (string_pattern_mismatch "format" "^(iso|human|unix)$").

(** The validated input of a tool. *)
Inductive ToolInput : Type :=
| ICalculate (i : CalculateInput.t)
| IWeather (i : WeatherInput.t)
| INote (i : NoteInput.t)
| ITemperature (i : TemperatureInput.t)
| IFileRead (i : FileReadInput.t)
| ITime (i : TimeInput.t).

Definition valid_as {A : Type} (tag : A -> ToolInput) (r : Validated A)
  : option ToolInput :=
  match r with Valid i => Some (tag i) | Invalid _ => None end.

(** The input that [arguments] validate to under the schema of the tool
    [name], when they satisfy it. *)
Definition validated (name : string) (arguments : Dict) : option ToolInput :=
  if String.eqb name "calculate"
  then valid_as ICalculate (CalculateInput_validate arguments)
  else if String.eqb name "get_weather"
  then valid_as IWeather (WeatherInput_validate arguments)
  else if String.eqb name "save_note"
  then valid_as INote (NoteInput_validate arguments)
  else if String.eqb name "convert_temperature"
  then valid_as ITemperature (TemperatureInput_validate arguments)
  else if String.eqb name "read_file"
  then valid_as IFileRead (FileReadInput_validate arguments)
  else if String.eqb name "get_time"
  then valid_as ITime (TimeInput_validate arguments)
  else None.

(** The [try] block of the handler registered under [name]. *)
Definition tool_try (name : string) : option (Dict -> M (list TextContent)) :=
  lookup name
    [ ("calculate", calculate_try); ("get_weather", get_weather_try);
      ("save_note", save_note_try);
      ("convert_temperature", convert_temperature_try);
      ("read_file", read_file_try); ("get_time", get_time_try) ].

(** [f.write] of each chunk in turn, up to the first that raises. *)
Fixpoint write_chunks (fs : Files) (name : string) (chunks : list string)
  : Files * option Exception :=
  match chunks with
  | [] => (fs, None)
  | c :: rest =>
      match write_text fs name c with
      | (fs', None) => write_chunks fs' name rest
      | (fs', Some e) => (fs', Some e)
      end
  end.

(** What [save_note] writes for a validated note created at [created]. *)
Definition note_chunks (input_data : NoteInput.t) (created : datetime) : list string :=
  ["Title: " ++ NoteInput.title input_data ++ newline;
   "Created: " ++ isoformat created ++ newline]
  ++ (match NoteInput.tags input_data with
      | Some (t :: ts) => ["Tags: " ++ join ", " (t :: ts) ++ newline]
      | _ => []
      end)
  ++ [newline ++ NoteInput.content input_data].

(** Opening the file named [name] for writing and writing [chunks] to it. *)
Definition written_to (name : string) (chunks : list string) (fs : Files)
  : Files * option Exception :=
  match open_w fs name with
  | inl e => (fs, Some e)
  | inr fs' => write_chunks fs' name chunks
  end.

(** The characters a note's file name is made of, between its prefix and
    its extension. *)
Definition is_ascii_alnum (c : ascii) : bool :=
  let n := nat_of_ascii c in
  ((48 <=? n) && (n <=? 57)) || ((65 <=? n) && (n <=? 90))
  || ((97 <=? n) && (n <=? 122)).

Definition filename_char (c : ascii) : bool :=
  is_ascii_alnum c || Ascii.eqb c "-" || Ascii.eqb c "_".

End ServerNotions.

(** * Properties of the client loop *)

Unset Implicit Arguments.

Section ClientProperties.
Context {EP : Endpoints}.

Lemma tool_messages_cons : forall c calls r results,
  tool_messages (c :: calls) (r :: results)
  = tool_message c r :: tool_messages calls results.
Proof. reflexivity. Qed.

Lemma tool_messages_from_the_turn : forall calls results,
  Forall from_the_turn (tool_messages calls results).
Proof.
  intros calls results. unfold tool_messages.
  apply Forall_forall. intros m Hin. apply in_map_iff in Hin.
  destruct Hin as [cr [<- _]]. right. reflexivity.
Qed.

(** What one batch leaves behind, however it ends: tool messages for a
    prefix [answered] of the batch, in order; the whole batch when no
    exception was raised. *)
Lemma execute_tool_calls_effect : forall tool_calls s r s',
  execute_tool_calls tool_calls s = (r, s') ->
  exists answered results sent,
    messages s' = (messages s ++ tool_messages answered results)%list /\
    List.length results = List.length answered /\
    requests s' = (requests s ++ sent)%list /\
    inferences sent = 0 /\
    match r with
    | None => answered = tool_calls /\ Forall2 dispatches tool_calls sent
    | Some _ => exists rest, tool_calls = (answered ++ rest)%list /\ rest <> []
    end.
Proof.
  induction tool_calls as [|tool_call rest IH]; intros s r s' H; simpl in H.
  - inversion H; subst. exists [], [], []. simpl.
    rewrite !app_nil_r. repeat split; constructor.
  - destruct (json_loads (ToolCall.arguments tool_call)) as [e|tool_args] eqn:Hargs.
    + inversion H; subst. exists [], [], []. simpl. rewrite !app_nil_r.
      repeat split. exists (tool_call :: rest). split; [reflexivity | discriminate].
    + simpl in H.
      destruct (session_call_tool (ToolCall.name tool_call) tool_args (remote s))
        as [[e|content] rm] eqn:Hcall.
      * inversion H; subst. simpl.
        exists [], [], [Invocation (ToolCall.name tool_call) tool_args].
        simpl. rewrite app_nil_r. repeat split.
        exists (tool_call :: rest). split; [reflexivity | discriminate].
      * apply IH in H. simpl in H.
        destruct H as [answered [results [sent [Hm [Hlen [Hq [Hinf Hr]]]]]]].
        exists (tool_call :: answered), (extract_text content :: results),
               (Invocation (ToolCall.name tool_call) tool_args :: sent).
        rewrite tool_messages_cons. simpl.
        rewrite Hm, Hq, <- !app_assoc. simpl.
        split; [reflexivity|]. split; [congruence|].
        split; [reflexivity|]. split; [exact Hinf|].
        destruct r as [e|].
        -- destruct Hr as [rest' [Hr Hne]]. exists rest'.
           split; [rewrite Hr; reflexivity | exact Hne].
        -- destruct Hr as [Hr HF]. split; [rewrite Hr; reflexivity|].
           constructor; [|exact HF]. exists tool_args. split; [exact Hargs | reflexivity].
Qed.

Lemma inferences_app : forall l1 l2,
  inferences (l1 ++ l2) = inferences l1 + inferences l2.
Proof.
  intros l1 l2. unfold inferences. rewrite filter_app, length_app. reflexivity.
Qed.

Lemma inferences_cons : forall l sent,
  inferences (Inference l :: sent) = S (inferences sent).
Proof. reflexivity. Qed.

Lemma no_inference_in : forall sent l,
  inferences sent = 0 -> In (Inference l) sent -> False.
Proof.
  intros sent l H Hin. unfold inferences in H.
  apply length_zero_iff_nil in H.
  assert (Hf : In (Inference l) (filter is_inference sent))
    by (apply filter_In; split; [exact Hin | reflexivity]).
  rewrite H in Hf. exact Hf.
Qed.

(** Arithmetic on iteration counts and on the number of inferences. *)
Ltac count :=
  intros; unfold inferences, max_iterations in *; simpl in *; lia.

Lemma while_loop_unfold : forall fuel iteration s,
  while_loop fuel iteration s =
  if iteration <? max_iterations then
    match fuel with
    | 0 => (OutOfFuel, iteration, s)
    | S fuel' =>
        match chat_completions_create (messages s) (remote s) with
        | (inl e, r) => (Raised e, iteration + 1, send (Inference (messages s)) r s)
        | (inr assistant_message, r) =>
            let s1 := append (assistant_entry assistant_message)
                        (send (Inference (messages s)) r s) in
            if no_tool_calls assistant_message then
              (Break, iteration + 1,
               match ChatCompletionMessage.content assistant_message with
               | Some c => if String.eqb c "" then s1 else print (AssistantLine c) s1
               | None => s1
               end)
            else
              match execute_tool_calls (batch assistant_message)
                      (print (ExecutingLine (iteration + 1)) s1) with
              | (Some e, s2) => (Raised e, iteration + 1, s2)
              | (None, s2) => while_loop fuel' (iteration + 1) s2
              end
        end
    end
  else (ConditionFalse, iteration, s).
Proof. intros [|fuel] iteration s; reflexivity. Qed.

Lemma printed_answer_messages : forall (content : option string) s1,
  messages (match content with
            | Some c => if String.eqb c "" then s1 else print (AssistantLine c) s1
            | None => s1
            end) = messages s1
  /\ requests (match content with
               | Some c => if String.eqb c "" then s1 else print (AssistantLine c) s1
               | None => s1
               end) = requests s1.
Proof.
  intros [c|] s1; [destruct (String.eqb c "")|]; split; reflexivity.
Qed.

(** The first request of an iteration is the inference on the current
    messages; the invocations after it are no inferences. *)
Lemma first_inference : forall base rounds (current : list Message.t) sent_b l,
  current = (base ++ rounds)%list ->
  answered_rounds rounds ->
  inferences sent_b = 0 ->
  In (Inference l) (Inference current :: sent_b) ->
  exists rounds', answered_rounds rounds' /\ l = (base ++ rounds')%list.
Proof.
  intros base rounds current sent_b l Hm Hr Hinf [Hl|Hin].
  - inversion Hl; subst. exists rounds. split; [assumption | reflexivity].
  - exfalso. eapply no_inference_in; eassumption.
Qed.

(** The loop, from any iteration count and any state whose messages are
    [base] followed by answered rounds. *)
Lemma while_loop_effect : forall fuel iteration s exit iteration' s' base rounds,
  while_loop fuel iteration s = (exit, iteration', s') ->
  messages s = (base ++ rounds)%list ->
  answered_rounds rounds ->
  exists appended sent,
    messages s' = (messages s ++ appended)%list /\
    Forall from_the_turn appended /\
    requests s' = (requests s ++ sent)%list /\
    (forall l, In (Inference l) sent ->
       exists rounds', answered_rounds rounds' /\ l = (base ++ rounds')%list) /\
    inferences sent = iteration' - iteration /\
    iteration <= iteration' /\
    (iteration <= max_iterations -> iteration' <= max_iterations) /\
    (exit = ConditionFalse ->
       max_iterations <= iteration' /\ answered_rounds (rounds ++ appended)) /\
    (max_iterations <= fuel + iteration -> exit <> OutOfFuel).
Proof.
  induction fuel as [|fuel IH]; intros iteration s exit iteration' s' base rounds H Hm Hr;
    rewrite while_loop_unfold in H;
    destruct (Nat.ltb_spec iteration max_iterations) as [Hlt|Hge].
  - inversion H; subst. exists [], []. rewrite !app_nil_r.
    repeat split; try discriminate; try count; try constructor.
  - inversion H; subst. exists [], []. rewrite !app_nil_r.
    repeat split; try discriminate; try count; try assumption; try constructor.
  - destruct (chat_completions_create (messages s) (remote s))
      as [[e|assistant_message] r] eqn:Hcreate.
    + inversion H; subst. exists [], [Inference (messages s)]. simpl.
      rewrite app_nil_r.
      split; [reflexivity|]. split; [constructor|]. split; [reflexivity|].
      split; [intros l Hin; apply first_inference with (rounds := rounds) (current := messages s) (sent_b := []);
              [exact Hm | exact Hr | reflexivity | exact Hin]|].
      repeat split; try discriminate; count.
    + cbv zeta in H.
      destruct (no_tool_calls assistant_message) eqn:Hno.
      * inversion H; subst.
        exists [assistant_entry assistant_message], [Inference (messages s)].
        destruct (printed_answer_messages
                    (ChatCompletionMessage.content assistant_message)
                    (append (assistant_entry assistant_message)
                       (send (Inference (messages s)) r s))) as [-> ->].
        simpl.
        split; [reflexivity|].
        split; [constructor; [left; reflexivity | constructor]|].
        split; [reflexivity|].
        split; [intros l Hin; apply first_inference with (rounds := rounds) (current := messages s) (sent_b := []);
                [exact Hm | exact Hr | reflexivity | exact Hin]|].
        repeat split; try discriminate; count.
      * destruct (execute_tool_calls (batch assistant_message)
                    (print (ExecutingLine (iteration + 1))
                       (append (assistant_entry assistant_message)
                          (send (Inference (messages s)) r s))))
          as [[e|] s2] eqn:Hexec;
          apply execute_tool_calls_effect in Hexec; simpl in Hexec;
          destruct Hexec as [answered [results [sent_b [Hm2 [Hlen [Hq2 [Hinf Hcase]]]]]]].
        -- inversion H; subst.
           exists (assistant_entry assistant_message :: tool_messages answered results),
                  (Inference (messages s) :: sent_b).
           rewrite Hm2, Hq2, <- !app_assoc. simpl.
           split; [reflexivity|].
           split; [constructor; [left; reflexivity | apply tool_messages_from_the_turn]|].
           split; [reflexivity|].
           split; [intros l Hin; apply first_inference with (rounds := rounds) (current := messages s) (sent_b := sent_b);
                   [exact Hm | exact Hr | exact Hinf | exact Hin]|].
           split; [rewrite inferences_cons, Hinf; count|].
           repeat split; try discriminate; count.
        -- destruct Hcase as [-> Hdisp].
           assert (Hr2 : answered_rounds
                     (rounds ++ assistant_entry assistant_message
                        :: tool_messages (batch assistant_message) results))
             by (apply one_more_round; assumption).
           assert (Hm3 : messages s2 =
                     (base ++ (rounds ++ assistant_entry assistant_message
                        :: tool_messages (batch assistant_message) results))%list).
           { rewrite Hm2, Hm, <- !app_assoc. reflexivity. }
           destruct (IH _ _ _ _ _ _ _ H Hm3 Hr2)
             as [appended [sent [Ha [Hft [Hq [Hall [Hcount [Hle [Hmax [Hcf Hfuel]]]]]]]]]].
           exists (assistant_entry assistant_message
                     :: tool_messages (batch assistant_message) results ++ appended)%list,
                  (Inference (messages s) :: sent_b ++ sent)%list.
           rewrite Ha, Hm2, Hq, Hq2, <- !app_assoc. simpl.
           split; [reflexivity|].
           split.
           { constructor; [left; reflexivity|].
             apply Forall_app. split; [apply tool_messages_from_the_turn | exact Hft]. }
           split; [reflexivity|].
           split.
           { intros l [Hl|Hin].
             - inversion Hl; subst. exists rounds. split; [assumption | congruence].
             - apply in_app_or in Hin. destruct Hin as [Hin|Hin].
               + exfalso. eapply no_inference_in; eassumption.
               + apply Hall. exact Hin. }
           split; [rewrite inferences_cons, inferences_app, Hinf, Hcount; count|].
           split; [count|]. split; [intros; apply Hmax; count|].
           split.
           { intros Hexit. destruct (Hcf Hexit) as [Hge Hrounds]. split; [exact Hge|].
             rewrite <- app_assoc in Hrounds. exact Hrounds. }
           intros Hf. apply Hfuel. count.
  - inversion H; subst. exists [], []. rewrite !app_nil_r.
    repeat split; try discriminate; try count; try assumption; try constructor.
Qed.



Lemma pop_last_user_snoc : forall l m,
  pop_last_user (l ++ [m])
  = inr (if role_eqb (Message.role m) user then l else (l ++ [m])%list).
Proof.
  intros l m. unfold pop_last_user. rewrite rev_unit, removelast_last.
  destruct (role_eqb (Message.role m) user); reflexivity.
Qed.

Lemma from_the_turn_not_user : forall m,
  from_the_turn m -> role_eqb (Message.role m) user = false.
Proof. intros m [H|H]; rewrite H; reflexivity. Qed.

(** What the [try] statement of a turn does to the messages and the
    request log, whatever the outcome. *)
Lemma try_body_effect : forall s exit s' base,
  try_body s = (exit, s') ->
  messages s = base ->
  exists iteration' appended sent,
    messages s' = (base ++ appended)%list /\
    Forall from_the_turn appended /\
    requests s' = (requests s ++ sent)%list /\
    (forall l, In (Inference l) sent ->
       exists rounds, answered_rounds rounds /\ l = (base ++ rounds)%list) /\
    inferences sent = iteration' /\
    iteration' <= max_iterations /\
    exit <> OutOfFuel /\
    (exit = ConditionFalse ->
       iteration' = max_iterations /\ answered_rounds appended /\
       exists p, printed s' = (p ++ [MaximumIterationsLine])%list) /\
    (exit = Break -> max_iterations <= iteration' ->
       exists p, printed s' = (p ++ [MaximumIterationsLine])%list).
Proof.
  intros s exit s' base H Hm. unfold try_body in H.
  destruct (while_loop max_iterations 0 s) as [[exit0 iteration'] s0] eqn:Hloop.
  assert (Hbase : messages s = (base ++ [])%list) by (rewrite app_nil_r; exact Hm).
  destruct (while_loop_effect _ _ _ _ _ _ _ _ Hloop Hbase no_round)
    as [appended [sent [Ha [Hft [Hq [Hall [Hcount [Hle [Hmax [Hcf Hfuel]]]]]]]]]].
  assert (Hnf : exit0 <> OutOfFuel) by (apply Hfuel; count).
  assert (Hbound : iteration' <= max_iterations) by (apply Hmax; count).
  exists iteration', appended, sent.
  rewrite Hm in Ha.
  destruct exit0; try contradiction.
  - (* break *)
    destruct (Nat.leb_spec max_iterations iteration') as [Hge|Hlt];
      inversion H; subst; simpl;
      repeat split; try assumption; try discriminate; try count.
    intros _ _. exists (printed s0). reflexivity.
  - (* the condition failed *)
    destruct (Hcf eq_refl) as [Hge Hrounds].
    assert (Hleb : (max_iterations <=? iteration') = true) by (apply Nat.leb_le; exact Hge).
    rewrite Hleb in H. inversion H; subst. simpl.
    repeat split; try assumption; try discriminate; try count.
    exists (printed s0). reflexivity.
  - (* an exception *)
    inversion H; subst.
    repeat split; try assumption; try discriminate; count.
Qed.



(** The [if] of the [except] clause finds no user message at the end of
    messages that end with messages of the turn. *)
Lemma pop_last_user_from_the_turn : forall l a appended,
  Forall from_the_turn (a :: appended) ->
  pop_last_user (l ++ a :: appended) = inr (l ++ a :: appended)%list.
Proof.
  intros l a appended Hft.
  destruct (@exists_last _ (a :: appended)) as [front [m Hsplit]]; [discriminate|].
  rewrite Hsplit in *. rewrite app_assoc, pop_last_user_snoc.
  apply Forall_app in Hft. destruct Hft as [_ Hlast].
  inversion Hlast as [|? ? Hm' _]; subst.
  rewrite (from_the_turn_not_user _ Hm'). reflexivity.
Qed.

(** The loop that received a response keeps its assistant message, right
    after the messages it started with, however it ends. *)
Lemma while_loop_first_response : forall fuel iteration s exit iteration' s' m r,
  while_loop (S fuel) iteration s = (exit, iteration', s') ->
  iteration < max_iterations ->
  chat_completions_create (messages s) (remote s) = (inr m, r) ->
  exists more,
    messages s' = (messages s ++ assistant_entry m :: more)%list.
Proof.
  intros fuel iteration s exit iteration' s' m r H Hlt Hcreate.
  rewrite while_loop_unfold in H.
  destruct (Nat.ltb_spec iteration max_iterations) as [_|Hge]; [|lia].
  rewrite Hcreate in H. cbv zeta in H.
  destruct (no_tool_calls m) eqn:Hno.
  - inversion H; subst. exists [].
    destruct (printed_answer_messages (ChatCompletionMessage.content m)
                (append (assistant_entry m) (send (Inference (messages s)) r s)))
      as [-> _].
    reflexivity.
  - destruct (execute_tool_calls (batch m)
                (print (ExecutingLine (iteration + 1))
                   (append (assistant_entry m) (send (Inference (messages s)) r s))))
      as [[e|] s2] eqn:Hexec;
      apply execute_tool_calls_effect in Hexec; simpl in Hexec;
      destruct Hexec as [answered [results [sent_b [Hm2 _]]]].
    + inversion H; subst. exists (tool_messages answered results).
      rewrite Hm2, <- app_assoc. reflexivity.
    + assert (Hbase : messages s2 = (messages s2 ++ [])%list)
        by (rewrite app_nil_r; reflexivity).
      destruct (while_loop_effect _ _ _ _ _ _ _ _ H Hbase no_round)
        as [appended [sent [Ha _]]].
      exists (tool_messages answered results ++ appended)%list.
      rewrite Ha, Hm2, <- !app_assoc. reflexivity.
Qed.


(** C8. The [except] clause of a turn, run on messages that end with [m]:
    it takes [m] off when [m] is a user message and nothing otherwise; the
    messages before [m] stay as they were. *)
Theorem except_clause_pops_only_a_trailing_user_message :
  forall e rm l m p q,
    except_clause e (mk_session rm (l ++ [m]) p q)
    = (Aborted e,
       mk_session rm
         (if role_eqb (Message.role m) user then l else (l ++ [m])%list)
         (p ++ [ErrorLine e]) q).
Proof.
  intros e rm l m p q. unfold except_clause. simpl.
  rewrite pop_last_user_snoc. reflexivity.
Qed.

(** C2, as the code has it.  A turn is aborted from the state [s1] in
    which the exception left the [try] block, and the messages of [s1] are
    those before the turn, the user message, and what the turn appended
    after it.  The messages of the earlier turns are unchanged in every
    case.  When nothing was appended the user message is taken off and the
    messages are those before the turn; this is the case exactly when the
    first inference of the turn raises.  Otherwise nothing is taken off:
    the messages after the abort are those of [s1], with the user message,
    the first response's assistant message right after it, and every
    message appended later in the turn. *)
Theorem aborted_turn_keeps_what_followed_the_user_message :
  forall user_input s e s',
    user_turn user_input s = (Aborted e, s') ->
    exists s1 appended,
      try_body (append (user_entry user_input) s) = (Raised e, s1) /\
      messages s1 = (messages s ++ user_entry user_input :: appended)%list /\
      Forall from_the_turn appended /\
      messages s' = match appended with
                    | [] => messages s
                    | _ :: _ => messages s1
                    end /\
      (appended = [] <->
       exists r,
         chat_completions_create (messages s ++ [user_entry user_input]) (remote s)
         = (inl e, r)) /\
      (forall m r,
         chat_completions_create (messages s ++ [user_entry user_input]) (remote s)
         = (inr m, r) ->
         exists more,
           appended = assistant_entry m :: more /\
           messages s'
           = (messages s ++ user_entry user_input :: assistant_entry m :: more)%list).
Proof.
  intros user_input s e s' H. unfold user_turn in H.
  destruct (try_body (append (user_entry user_input) s)) as [exit s1] eqn:Htry.
  destruct exit as [| |e1|]; try discriminate.
  destruct (try_body_effect _ _ _ _ Htry eq_refl)
    as [iteration' [appended [sent [Hm [Hft _]]]]].
  simpl in Hm.
  assert (Hpop : messages s' = match appended with
                               | [] => messages s
                               | _ :: _ => messages s1
                               end /\ e1 = e).
  { unfold except_clause in H. simpl in H. rewrite Hm in H.
    destruct appended as [|a appended'].
    - rewrite app_nil_r, pop_last_user_snoc in H. simpl in H.
      inversion H; subst. split; reflexivity.
    - rewrite (pop_last_user_from_the_turn _ _ _ Hft) in H.
      inversion H; subst. simpl. rewrite Hm. split; reflexivity. }
  destruct Hpop as [Hs' ->].
  assert (Hm1 : messages s1 = (messages s ++ user_entry user_input :: appended)%list)
    by (rewrite Hm, <- app_assoc; reflexivity).
  (* the first pass of the loop *)
  assert (Hfirst :
            (forall e0 r,
               chat_completions_create (messages s ++ [user_entry user_input])
                 (remote s) = (inl e0, r) ->
               appended = [] /\ e0 = e)
            /\ (forall m r,
                  chat_completions_create (messages s ++ [user_entry user_input])
                    (remote s) = (inr m, r) ->
                  exists more, appended = assistant_entry m :: more)).
  { unfold try_body in Htry.
    destruct (while_loop max_iterations 0 (append (user_entry user_input) s))
      as [[exit0 iteration0] s0] eqn:Hloop.
    assert (Hs0 : exit0 = Raised e /\ s0 = s1).
    { destruct exit0; try (inversion Htry; subst; split; reflexivity);
        destruct (max_iterations <=? iteration0); discriminate. }
    destruct Hs0 as [-> ->]. split.
    - intros e0 r Hcreate. rewrite while_loop_unfold in Hloop. simpl in Hloop.
      rewrite Hcreate in Hloop. inversion Hloop; subst. simpl in Hm.
      split; [|reflexivity].
      rewrite <- (app_nil_r (messages s ++ [user_entry user_input])) in Hm at 1.
      apply app_inv_head in Hm. symmetry. exact Hm.
    - intros m r Hcreate.
      destruct (while_loop_first_response _ _ _ _ _ _ m r Hloop) as [more Hmore];
        [unfold max_iterations; lia | exact Hcreate |].
      simpl in Hmore. rewrite Hm in Hmore. apply app_inv_head in Hmore.
      exists more. exact Hmore. }
  destruct Hfirst as [Hraise Hanswer].
  exists s1, appended.
  split; [reflexivity|]. split; [exact Hm1|]. split; [exact Hft|].
  split; [exact Hs'|]. split.
  - split.
    + intros ->.
      destruct (chat_completions_create (messages s ++ [user_entry user_input])
                  (remote s)) as [[e0|m] r] eqn:Hcreate.
      * destruct (Hraise _ _ eq_refl) as [_ ->]. exists r. reflexivity.
      * destruct (Hanswer _ _ eq_refl) as [more Hmore]. discriminate.
    + intros [r Hcreate]. apply (Hraise _ _ Hcreate).
  - intros m r Hcreate. destruct (Hanswer _ _ Hcreate) as [more ->].
    exists more. split; [reflexivity|]. rewrite Hs', Hm1. reflexivity.
Qed.

(** C3. A turn always ends, as answered, exhausted or aborted; it sends at
    most [max_iterations = 10] inferences; and when the loop is left
    because the ceiling is reached, each of the ten responses having asked
    for tool calls that were all answered, exactly ten inferences were sent
    and the last line printed is the maximum-iterations warning. *)
Theorem turn_stops_at_the_iteration_ceiling :
  forall user_input s outcome s',
    user_turn user_input s = (outcome, s') ->
    outcome <> Unfinished /\
    (forall e, outcome <> Escaped e) /\
    exists sent,
      requests s' = (requests s ++ sent)%list /\
      inferences sent <= 10 /\
      (outcome = Exhausted ->
         inferences sent = 10 /\
         (exists p, printed s' = (p ++ [MaximumIterationsLine])%list) /\
         exists rounds,
           answered_rounds rounds /\
           messages s' = (messages s ++ user_entry user_input :: rounds)%list).
Proof.
  intros user_input s outcome s' H. unfold user_turn in H.
  destruct (try_body (append (user_entry user_input) s)) as [exit s1] eqn:Htry.
  destruct (try_body_effect _ _ _ _ Htry eq_refl)
    as [iteration' [appended [sent [Hm [Hft [Hq [_ [Hcount [Hle [Hnf [Hcf Hbr]]]]]]]]]]].
  simpl in Hm, Hq.
  destruct exit.
  - inversion H; subst. split; [discriminate|]. split; [discriminate|].
    exists sent. split; [exact Hq|]. split; [count|]. discriminate.
  - inversion H; subst. split; [discriminate|]. split; [discriminate|].
    exists sent. split; [exact Hq|]. split; [count|]. intros _.
    destruct (Hcf eq_refl) as [Hten [Hrounds Hp]].
    split; [count|]. split; [exact Hp|].
    exists appended. split; [exact Hrounds|].
    rewrite Hm, <- app_assoc. reflexivity.
  - unfold except_clause in H. simpl in H. rewrite Hm in H.
    assert (Hpop : exists l, pop_last_user
              ((messages s ++ [user_entry user_input]) ++ appended) = inr l).
    { destruct appended as [|a appended'].
      - rewrite app_nil_r, pop_last_user_snoc. eexists. reflexivity.
      - destruct (@exists_last _ (a :: appended')) as [front [m ->]];
          [discriminate|].
        rewrite app_assoc, pop_last_user_snoc. eexists. reflexivity. }
    destruct Hpop as [l Hpop]. rewrite Hpop in H.
    inversion H; subst. split; [discriminate|]. split; [discriminate|].
    exists sent. split; [exact Hq|]. split; [count|]. discriminate.
  - contradiction.
Qed.

(** The test after the loop is on the count alone: a turn that is
    answered at its tenth inference prints the maximum-iterations warning
    after the answer. *)
Theorem answer_at_the_tenth_inference_is_followed_by_the_warning :
  forall user_input s s',
    user_turn user_input s = (Answered, s') ->
    exists sent,
      requests s' = (requests s ++ sent)%list /\
      (inferences sent = 10 ->
       exists p, printed s' = (p ++ [MaximumIterationsLine])%list).
Proof.
  intros user_input s s' H. unfold user_turn in H.
  destruct (try_body (append (user_entry user_input) s)) as [exit s1] eqn:Htry.
  destruct (try_body_effect _ _ _ _ Htry eq_refl)
    as [iteration' [appended [sent [Hm [Hft [Hq [_ [Hcount [Hle [Hnf [Hcf Hbr]]]]]]]]]]].
  simpl in Hq.
  destruct exit; try discriminate.
  - inversion H; subst. exists sent. split; [exact Hq|].
    intros Hten. apply Hbr; [reflexivity | count].
  - unfold except_clause in H.
    destruct (pop_last_user (messages (print (ErrorLine e) s1))); discriminate.
Qed.

End ClientProperties.

(** * Properties of the tool server *)

Section ServerProperties.
Context {RT : Runtime}.

Lemma invalid_errors : forall (A : Type) (r : Validated A),
  errors_of r <> [] -> r = Invalid (errors_of r).
Proof. intros A [x|es] H; [contradiction H|]; reflexivity. Qed.

(** A model that does not validate makes the [try] block raise at once,
    with the state untouched. *)
Lemma construct_invalid : forall (A B : Type) title (validate : Dict -> Validated A)
    arguments es (k : A -> M B) handler w,
  validate arguments = Invalid es ->
  try_except (bind (construct title validate arguments) k) handler w
  = handler (ValidationError title es) w.
Proof.
  intros A B title validate arguments es k handler w H.
  unfold try_except, bind, construct. rewrite H. reflexivity.
Qed.

Lemma error_response_is_error : forall error_type error_message w,
  is_error (fst (error_response error_type error_message w)) = true
  /\ files (snd (error_response error_type error_message w)) = files w.
Proof. intros. split; reflexivity. Qed.

(** [call_tool] runs the handler registered under the name. *)
Lemma call_tool_registered : forall name handler,
  In (name, handler) TOOL_HANDLERS -> call_tool name = handler.
Proof.
  intros name handler H. simpl in H.
  repeat (destruct H as [H|H]; [inversion H; subst; reflexivity|]).
  contradiction.
Qed.

(** Tells which of the six names [name] is, or that it is none of them. *)
Ltac name_cases name :=
  let E := fresh "E" in
  destruct (String.eqb name "calculate") eqn:E;
  [apply String.eqb_eq in E; subst name|
  clear E; destruct (String.eqb name "get_weather") eqn:E;
  [apply String.eqb_eq in E; subst name|
  clear E; destruct (String.eqb name "save_note") eqn:E;
  [apply String.eqb_eq in E; subst name|
  clear E; destruct (String.eqb name "convert_temperature") eqn:E;
  [apply String.eqb_eq in E; subst name|
  clear E; destruct (String.eqb name "read_file") eqn:E;
  [apply String.eqb_eq in E; subst name|
  clear E; destruct (String.eqb name "get_time") eqn:E;
  [apply String.eqb_eq in E; subst name|]]]]]].

(** C6. A name that is not a key of the table of handlers, whatever the
    table holds: [call_tool] returns the [ErrorOutput] of type
    [UnknownToolError] with the message "Unknown tool: <name>", as a value;
    the files are as they were. *)
Theorem unknown_tool_is_reported :
  forall (handlers : list (string * Handler)) name arguments w,
    lookup name handlers = None ->
    call_tool_in handlers name arguments w
    = ([mk_text "text"
          (model_dump_json (OError (ErrorOutput.mk false "UnknownToolError"
                     (Plain ("Unknown tool: " ++ name)) (clock (ticks w)))))],
       mk_world (files w) (S (ticks w)))
    /\ is_error (fst (call_tool_in handlers name arguments w)) = true.
Proof.
  intros handlers name arguments w H. unfold call_tool_in. rewrite H.
  split; reflexivity.
Qed.

(** C10. [get_time] without a ['format'] key: the input validates with
    [format = "iso"], and the output carries the time just read from the
    clock, its [isoformat()] as [formatted], and [format_type = "iso"]. *)
Theorem get_time_defaults_to_iso :
  forall arguments w,
    dict_get "format" arguments = None ->
    TimeInput_validate arguments = Valid (TimeInput.mk "iso")
    /\ get_time arguments w
       = ([mk_text "text"
             (model_dump_json
                (OTime (TimeOutput.mk (clock (ticks w)) (isoformat (clock (ticks w)))
                       "iso" "UTC")))],
          mk_world (files w) (S (ticks w)))
    /\ call_tool "get_time" arguments w = get_time arguments w.
Proof.
  intros arguments w H.
  assert (Hv : TimeInput_validate arguments = Valid (TimeInput.mk "iso")).
  { unfold TimeInput_validate, with_default. rewrite H. reflexivity. }
  split; [exact Hv|]. split; [|reflexivity].
  unfold get_time, get_time_try, try_except, bind, construct.
  rewrite Hv. reflexivity.
Qed.

(** Takes the next [write_text] of the goal apart. *)
Ltac next_write :=
  match goal with
  | |- context [write_text ?fs ?name ?data] =>
      let fs' := fresh "fs" in
      let e := fresh "e" in
      destruct (write_text fs name data) as [fs' [e|]]; simpl
  end.

(** [save_note] on a note that validates: its file operations are the
    opening of [note_filename] and the writes of [note_chunks] to it; it
    reports the first of them that raises, and succeeds when none does. *)
Lemma save_note_effect : forall arguments i w,
  NoteInput_validate arguments = Valid i ->
  files (snd (save_note arguments w))
  = fst (written_to (note_filename i) (note_chunks i (clock (ticks w))) (files w))
  /\ is_error (fst (save_note arguments w))
     = match snd (written_to (note_filename i)
                    (note_chunks i (clock (ticks w))) (files w)) with
       | Some _ => true
       | None => false
       end
  /\ forall e,
       snd (written_to (note_filename i) (note_chunks i (clock (ticks w))) (files w))
       = Some e ->
       exists t,
         fst (save_note arguments w)
         = [mk_text "text" (model_dump_json
                              (OError (ErrorOutput.mk false (exc_type e) (exc_str e) t)))].
Proof.
  intros arguments i w H.
  unfold save_note, save_note_try, try_except, bind, construct. rewrite H.
  unfold ret, fs_open_w, fs_write, written_to, note_chunks, datetime_now,
    except_Exception, error_response, truthy.
  simpl.
  destruct (open_w (files w) (note_filename i)) as [e0|fs0]; simpl.
  - split; [reflexivity|]. split; [reflexivity|].
    intros e He. inversion He; subst. eexists. reflexivity.
  - destruct (NoteInput.tags i) as [[|t ts]|]; simpl;
      repeat next_write;
      (split; [reflexivity|]; split; [reflexivity|];
       intros e' He; inversion He; subst; eexists; reflexivity).
Qed.

(** *** Characters of the strings the validators build *)

Lemma chars_app : forall s1 s2, chars (s1 ++ s2) = (chars s1 ++ chars s2)%list.
Proof.
  induction s1 as [|c s1 IH]; intros s2; simpl; [reflexivity|].
  unfold chars in *. simpl. rewrite IH. reflexivity.
Qed.

Lemma chars_of_chars : forall l, chars (of_chars l) = l.
Proof. exact list_ascii_of_string_of_list_ascii. Qed.

Lemma of_chars_chars : forall s, of_chars (chars s) = s.
Proof. exact string_of_list_ascii_of_string. Qed.

Lemma drop_while_Forall : forall (P : ascii -> Prop) p l,
  Forall P l -> Forall P (drop_while p l).
Proof.
  intros P p l H. induction H as [|c l Hc Hl IH]; simpl; [constructor|].
  destruct (p c); [exact IH | constructor; assumption].
Qed.

Lemma strip_Forall : forall (P : ascii -> Prop) s,
  Forall P (chars s) -> Forall P (chars (strip s)).
Proof.
  intros P s H. unfold strip, rstrip_chars, lstrip_chars.
  rewrite chars_of_chars.
  apply Forall_rev, drop_while_Forall, Forall_rev, drop_while_Forall. exact H.
Qed.

Lemma all_whitespace_strips_to_nothing : forall s,
  forallb py_isspace (chars s) = true -> strip s = "".
Proof.
  intros s H. unfold strip, lstrip_chars.
  assert (Hdrop : drop_while py_isspace (chars s) = []).
  { induction (chars s) as [|c l IH]; simpl in *; [reflexivity|].
    apply andb_true_iff in H. destruct H as [Hc Hl]. rewrite Hc. apply IH, Hl. }
  rewrite Hdrop. reflexivity.
Qed.

Lemma sanitize_title_safe : forall v t,
  sanitize_title v = Valid t ->
  Forall (fun c => char_in c safe_chars = true) (chars t).
Proof.
  intros v t H. unfold sanitize_title in H.
  destruct (String.eqb (strip (str_filter (fun c => char_in c safe_chars) v)) "");
    [discriminate|].
  inversion H; subst. apply strip_Forall.
  unfold str_filter. rewrite chars_of_chars.
  apply Forall_forall. intros c Hin. apply filter_In in Hin. apply Hin.
Qed.

(** The title of a validated note went through [sanitize_title]. *)
Lemma NoteInput_title_sanitized : forall arguments i,
  NoteInput_validate arguments = Valid i ->
  exists v, sanitize_title v = Valid (NoteInput.title i).
Proof.
  intros arguments i H. unfold NoteInput_validate in H.
  destruct (required "title" arguments _) as [t|es] eqn:Ht; [|discriminate].
  destruct (required "content" arguments _) as [c|es]; [|discriminate].
  destruct (with_default "tags" None arguments _) as [g|es]; [|discriminate].
  inversion H; subst. simpl.
  unfold required in Ht. destruct (dict_get "title" arguments) as [v|]; [|discriminate].
  unfold and_then in Ht.
  destruct (str_type [Key "title"] v) as [s0|]; [|discriminate].
  destruct (min_length "title" 1 s0) as [s1|]; [|discriminate].
  destruct (max_length "title" 100 s1) as [s2|]; [|discriminate].
  exists s2. exact Ht.
Qed.

Lemma safe_char_to_filename_char : forall c,
  char_in c safe_chars = true ->
  filename_char (if Ascii.eqb c " " then "_"%char else c) = true.
Proof.
  intros [[] [] [] [] [] [] [] []]; vm_compute; intros H;
    first [reflexivity | discriminate H].
Qed.

Lemma filename_char_not_slash : forall c,
  filename_char c = true -> Ascii.eqb "/" c = false.
Proof.
  intros [[] [] [] [] [] [] [] []]; vm_compute; intros H;
    first [reflexivity | discriminate H].
Qed.

Lemma split_chars_no_separator : forall sep l,
  existsb (Ascii.eqb sep) l = false -> split_chars sep l = [l].
Proof.
  intros sep. induction l as [|c l IH]; simpl; intros H; [reflexivity|].
  apply orb_false_iff in H. destruct H as [Hc Hl].
  rewrite Ascii.eqb_sym, Hc, (IH Hl). reflexivity.
Qed.

(** C9. The file of a note that validates: its name is ["note_"], the
    sanitized title with [' '] turned into ['_'], and [".txt"]; the part in
    between holds only ASCII letters, digits, ['-'] and ['_']; the name has
    no ['/'] and is one path component, itself (so neither ['.'] nor
    ['..']); and the file operations of [save_note] are the opening of
    that name and the writes to it. *)
Theorem note_filename_is_a_plain_name :
  forall arguments input_data,
    NoteInput_validate arguments = Valid input_data ->
    note_filename input_data
    = "note_" ++ replace_char " " "_" (NoteInput.title input_data) ++ ".txt"
    /\ forallb filename_char
         (chars (replace_char " " "_" (NoteInput.title input_data))) = true
    /\ char_in "/" (note_filename input_data) = false
    /\ path_parts (note_filename input_data) = [note_filename input_data]
    /\ forall w,
         files (snd (save_note arguments w))
         = fst (written_to (note_filename input_data)
                  (note_chunks input_data (clock (ticks w))) (files w)).
Proof.
  intros arguments i H.
  destruct (NoteInput_title_sanitized _ _ H) as [v Hv].
  apply sanitize_title_safe in Hv.
  assert (Hstem : forallb filename_char
                    (chars (replace_char " " "_" (NoteInput.title i))) = true).
  { unfold replace_char. rewrite chars_of_chars. apply forallb_forall.
    intros c Hin. apply in_map_iff in Hin. destruct Hin as [c0 [<- Hc0]].
    apply safe_char_to_filename_char.
    rewrite Forall_forall in Hv. apply Hv. exact Hc0. }
  assert (Hslash : char_in "/" (note_filename i) = false).
  { unfold char_in, note_filename. rewrite !chars_app, !existsb_app.
    apply orb_false_iff. split; [reflexivity|].
    apply orb_false_iff. split; [|reflexivity].
    destruct (existsb (Ascii.eqb "/")
                (chars (replace_char " " "_" (NoteInput.title i)))) eqn:E;
      [|reflexivity].
    apply existsb_exists in E. destruct E as [c [Hin Hc]].
    rewrite forallb_forall in Hstem.
    rewrite (filename_char_not_slash _ (Hstem c Hin)) in Hc. discriminate. }
  split; [reflexivity|]. split; [exact Hstem|]. split; [exact Hslash|].
  split.
  - unfold path_parts. unfold char_in in Hslash.
    rewrite (split_chars_no_separator _ _ Hslash). simpl map.
    rewrite of_chars_chars. reflexivity.
  - intros w. apply (save_note_effect arguments i w H).
Qed.

(** C7, as the code has it.  An exception [e] raised in the [try] block
    of a handler does not leave the handler: the result is an
    [ErrorOutput] whose [error_type] is the class name of [e] and whose
    [error_message] is [str(e)], except in [read_file] for a
    [FileNotFoundError], whose message is replaced by
    "File '<filename>' not found". *)
Theorem raised_exception_becomes_an_error_output :
  forall name body arguments w e w',
    tool_try name = Some body ->
    body arguments w = (inl e, w') ->
    call_tool name arguments w
    = (if String.eqb name "read_file" && String.eqb (exc_type e) "FileNotFoundError"
       then error_response "FileNotFoundError"
              (Plain ("File '" ++ fstring_arg (dict_get "filename" arguments)
                      ++ "' not found"))
       else error_response (exc_type e) (exc_str e)) w'
    /\ is_error (fst (call_tool name arguments w)) = true.
Proof.
  intros name body arguments w e w' Hbody Hraise.
  unfold tool_try in Hbody. simpl in Hbody.
  name_cases name; simpl in Hbody; try discriminate;
    inversion Hbody; subst body.
  - rewrite (call_tool_registered "calculate" calculate) by (simpl; tauto).
    unfold calculate, try_except. rewrite Hraise. split; reflexivity.
  - rewrite (call_tool_registered "get_weather" get_weather) by (simpl; tauto).
    unfold get_weather, try_except. rewrite Hraise. split; reflexivity.
  - rewrite (call_tool_registered "save_note" save_note) by (simpl; tauto).
    unfold save_note, try_except. rewrite Hraise. split; reflexivity.
  - rewrite (call_tool_registered "convert_temperature" convert_temperature)
      by (simpl; tauto).
    unfold convert_temperature, try_except. rewrite Hraise. split; reflexivity.
  - rewrite (call_tool_registered "read_file" read_file) by (simpl; tauto).
    unfold read_file, try_except, read_file_except. rewrite Hraise. simpl.
    destruct (String.eqb (exc_type e) "FileNotFoundError"); split; reflexivity.
  - rewrite (call_tool_registered "get_time" get_time) by (simpl; tauto).
    unfold get_time, try_except. rewrite Hraise. split; reflexivity.
Qed.

(** The message of [read_file] for a missing file names the validated
    file name. *)
Lemma not_found_message_names_the_file : forall arguments i,
  FileReadInput_validate arguments = Valid i ->
  fstring_arg (dict_get "filename" arguments) = FileReadInput.filename i.
Proof.
  intros arguments i H. unfold FileReadInput_validate, required in H.
  destruct (dict_get "filename" arguments) as [v|]; [|discriminate].
  destruct v; simpl in H; try discriminate.
  unfold and_then in H.
  destruct (min_length "filename" 1 s) as [s1|] eqn:Hmin; [|discriminate].
  unfold min_length in Hmin. destruct (String.length s <? 1); [discriminate|].
  inversion Hmin; subst s1.
  unfold validate_filename in H.
  destruct (String.eqb (path_name s) "" || negb (String.eqb (path_name s) s)) eqn:E;
    [discriminate|].
  inversion H; subst. simpl.
  apply orb_false_iff in E. destruct E as [_ E].
  apply negb_false_iff, String.eqb_eq in E. symmetry. exact E.
Qed.

(** A validated calculation names one of the four operations, and does
    not divide by zero. *)
Lemma CalculateInput_valid : forall arguments i,
  CalculateInput_validate arguments = Valid i ->
  In (CalculateInput.operation i) ["add"; "subtract"; "multiply"; "divide"]
  /\ (CalculateInput.operation i = "divide" ->
      (CalculateInput.b i =? 0)%float = false).
Proof.
  intros arguments i H. unfold CalculateInput_validate in H.
  destruct (required "operation" arguments _) as [o|] eqn:Ho; [|discriminate].
  destruct (required "a" arguments _) as [x|]; [|discriminate].
  destruct (required "b" arguments _) as [y|] eqn:Hb; [|discriminate].
  inversion H; subst. simpl. split.
  - unfold required in Ho. destruct (dict_get "operation" arguments) as [v|];
      [|discriminate].
    unfold and_then in Ho. destruct (str_type [Key "operation"] v) as [s0|];
      [|discriminate].
    unfold pattern in Ho.
    destruct (existsb (String.eqb s0) ["add"; "subtract"; "multiply"; "divide"]) eqn:E;
      [|discriminate].
    inversion Ho; subst. apply existsb_exists in E. destruct E as [alt [Hin Heq]].
    apply String.eqb_eq in Heq. subst. exact Hin.
  - intros Hdiv. unfold required in Hb.
    destruct (dict_get "b" arguments) as [v|]; [|discriminate].
    unfold and_then in Hb. destruct (float_field "b" v) as [f|]; [|discriminate].
    unfold validate_division in Hb. simpl in Hb.
    rewrite Hdiv in Hb. simpl in Hb.
    destruct (f =? 0)%float eqn:E; [discriminate|].
    inversion Hb; subst. exact E.
Qed.

(** The [try] block of [calculate] on a validated input does not raise:
    it returns the output built from the input, some [result] and the
    clock. *)
Lemma calculate_try_valid : forall arguments i,
  CalculateInput_validate arguments = Valid i ->
  exists result,
    forall w,
      calculate_try arguments w
      = (inr [mk_text "text"
                (model_dump_json (OCalculate (CalculateOutput.mk
                   (CalculateInput.operation i) (CalculateInput.a i)
                   (CalculateInput.b i) result
                   (float_str (CalculateInput.a i) ++ " "
                    ++ CalculateInput.operation i ++ " "
                    ++ float_str (CalculateInput.b i) ++ " = " ++ float_str result)
                   (clock (ticks w)))))],
         mk_world (files w) (S (ticks w))).
Proof.
  intros arguments i H.
  destruct (CalculateInput_valid _ _ H) as [Hop Hdiv].
  unfold calculate_try, bind, construct. rewrite H.
  destruct i as [o x y]. simpl in *.
  destruct Hop as [<-|[<-|[<-|[<-|[]]]]].
  - exists (x + y)%float. intros w. reflexivity.
  - exists (x - y)%float. intros w. reflexivity.
  - exists (x * y)%float. intros w. reflexivity.
  - exists (x / y)%float. intros w. unfold ret, operations_item. simpl.
    rewrite (Hdiv eq_refl). reflexivity.
Qed.


(** *** The violations the validators are there for *)

(** Takes the validation of every field of the goal apart. *)
Ltac each_field :=
  repeat match goal with
         | |- context [match dict_get ?k ?d with _ => _ end] =>
             destruct (dict_get k d); simpl
         | |- context [match ?r with Valid _ => _ | Invalid _ => _ end] =>
             destruct r; simpl
         end.


(** Dividing by a [b] that reads as zero is a violation of
    [CalculateInput], reported at [b]. *)
Lemma division_by_zero_is_a_violation :
  forall arguments vb fb,
    dict_get "operation" arguments = Some (JStr "divide") ->
    dict_get "b" arguments = Some vb ->
    float_field "b" vb = Valid fb ->
    (fb =? 0)%float = true ->
    exists errors,
      schema_errors "calculate" arguments = Some ("CalculateInput", errors)
      /\ In (value_error "b" "Cannot divide by zero") errors.
Proof.
  intros arguments vb fb Hop Hb Hf Hz. eexists. split; [reflexivity|].
  unfold CalculateInput_validate, required. rewrite Hop, Hb. simpl.
  rewrite Hf. simpl. unfold validate_division. simpl. rewrite Hz.
  destruct (match dict_get "a" arguments with
            | Some v => float_field "a" v
            | None => Invalid [missing "a"]
            end); simpl.
  - left. reflexivity.
  - apply in_or_app. right. left. reflexivity.
Qed.

(** A temperature below [-459.67] is a violation of [TemperatureInput],
    reported by the validator's message; an [int] that no float can hold
    is not read as a temperature, however far below zero it is, and is
    reported as no valid number. *)
Lemma below_absolute_zero_is_a_violation :
  forall arguments v,
    dict_get "temperature_fahrenheit" arguments = Some v ->
    (forall f,
       float_field "temperature_fahrenheit" v = Valid f ->
       (f <? absolute_zero_fahrenheit)%float = true ->
       schema_errors "convert_temperature" arguments
       = Some ("TemperatureInput",
               [value_error "temperature_fahrenheit"
                  "Temperature cannot be below absolute zero (-459.67°F)"]))
    /\ (forall z,
          v = JInt z ->
          float_of_Z z = None ->
          schema_errors "convert_temperature" arguments
          = Some ("TemperatureInput", [float_type "temperature_fahrenheit"])).
Proof.
  intros arguments v Hv. unfold schema_errors. simpl.
  unfold TemperatureInput_validate, required. rewrite Hv. simpl. split.
  - intros f Hf Hlt. rewrite Hf. simpl. unfold validate_temperature.
    rewrite Hlt. reflexivity.
  - intros z -> Hz. simpl. rewrite Hz. reflexivity.
Qed.

Lemma split_chars_parts : forall sep l,
  Forall (fun part => existsb (Ascii.eqb sep) part = false) (split_chars sep l).
Proof.
  intros sep. induction l as [|c l IH]; simpl.
  - constructor; [reflexivity | constructor].
  - destruct (Ascii.eqb c sep) eqn:E.
    + constructor; [reflexivity | exact IH].
    + destruct (split_chars sep l) as [|part parts].
      * constructor; [|constructor]. simpl. rewrite Ascii.eqb_sym, E. reflexivity.
      * inversion IH; subst. constructor; [|assumption].
        simpl. rewrite Ascii.eqb_sym, E. assumption.
Qed.

Lemma last_In_or_default : forall (A : Type) (l : list A) d,
  last l d = d \/ In (last l d) l.
Proof.
  intros A. induction l as [|x l IH]; intros d; [left; reflexivity|].
  destruct l as [|y l']; [right; left; reflexivity|].
  destruct (IH d) as [H|H].
  - left. exact H.
  - right. right. exact H.
Qed.

(** [Path(v).name] never holds a ['/']. *)
Lemma path_name_no_separator : forall v, char_in "/" (path_name v) = false.
Proof.
  intros v. unfold path_name.
  pose proof (last_In_or_default string (path_parts v) "") as H.
  remember (last (path_parts v) "") as nm eqn:Hnm. clear Hnm.
  destruct H as [-> | Hin]; [reflexivity|].
  unfold path_parts in Hin. apply filter_In in Hin. destruct Hin as [Hin _].
  apply in_map_iff in Hin. destruct Hin as [part [<- Hpart]].
  unfold char_in. rewrite chars_of_chars.
  pose proof (split_chars_parts "/" (chars v)) as Hall.
  rewrite Forall_forall in Hall. exact (Hall part Hpart).
Qed.

(** A file name with a ['/'] in it is a violation of [FileReadInput]. *)
Lemma path_separator_is_a_violation :
  forall arguments filename,
    dict_get "filename" arguments = Some (JStr filename) ->
    char_in "/" filename = true ->
    schema_errors "read_file" arguments
    = Some ("FileReadInput",
            [value_error "filename" "Invalid filename - path traversal not allowed"]).
Proof.
  intros arguments filename Hget Hslash. unfold schema_errors. simpl.
  unfold FileReadInput_validate, required. rewrite Hget. simpl.
  assert (Hlen : (String.length filename <? 1) = false).
  { destruct filename; [discriminate Hslash | reflexivity]. }
  unfold min_length. rewrite Hlen. simpl. unfold validate_filename.
  assert (Hne : String.eqb (path_name filename) filename = false).
  { apply String.eqb_neq. intros Heq.
    pose proof (path_name_no_separator filename) as Hno.
    rewrite Heq, Hslash in Hno. discriminate. }
  rewrite Hne. simpl. rewrite orb_true_r. reflexivity.
Qed.

(** A required field that is absent is a violation, reported at the
    field as [missing]. *)
Lemma missing_field_is_a_violation :
  forall name arguments k,
    In k (required_fields name) ->
    dict_get k arguments = None ->
    exists title errors,
      schema_errors name arguments = Some (title, errors)
      /\ In (missing k) errors.
Proof.
  intros name arguments k Hk Hget. unfold required_fields in Hk.
  unfold schema_errors.
  name_cases name; simpl in Hk; try contradiction;
    do 2 eexists; (split; [reflexivity|]);
    repeat (destruct Hk as [<-|Hk]; [|]); try contradiction.
  all: unfold CalculateInput_validate, WeatherInput_validate, NoteInput_validate,
         TemperatureInput_validate, FileReadInput_validate, required, with_default;
       rewrite Hget; simpl; each_field;
       repeat (first [left; reflexivity | apply in_or_app; right | right]).
Qed.

(** *** The declared constraints, and what breaks them *)

Lemma not_in_alternatives : forall s alternatives,
  ~ In s alternatives -> existsb (String.eqb s) alternatives = false.
Proof.
  intros s alternatives H.
  destruct (existsb (String.eqb s) alternatives) eqn:E; [|reflexivity].
  exfalso. apply H. apply existsb_exists in E. destruct E as [alt [Hin Heq]].
  apply String.eqb_eq in Heq. subst. exact Hin.
Qed.

Lemma no_number_is_no_float : forall k v,
  (v = JNull \/ (exists l, v = JList l) \/ (exists d, v = JObj d)
   \/ (exists z, v = JInt z /\ float_of_Z z = None)) ->
  float_field k v = Invalid [float_type k].
Proof.
  intros k v [->|[[l ->]|[[d ->]|[z [-> Hz]]]]]; simpl; try reflexivity.
  rewrite Hz. reflexivity.
Qed.

Lemma no_string_is_no_str : forall loc v,
  (forall s, v <> JStr s) -> str_type loc v = Invalid [string_type loc].
Proof.
  intros loc v H. destruct v; try reflexivity. exfalso. apply (H s). reflexivity.
Qed.

(** An item of a list that is no string is reported at its index. *)
Lemma str_items_reports_item : forall k l i0 i v,
  nth_error l i = Some v ->
  (forall s, v <> JStr s) ->
  In (string_type [Key k; Index (i0 + i)]) (errors_of (str_items k i0 l)).
Proof.
  intros k. induction l as [|v0 l IH]; intros i0 i v Hnth Hv.
  - destruct i; discriminate.
  - destruct i as [|i]; simpl in Hnth.
    + inversion Hnth; subst v0. rewrite Nat.add_0_r.
      cbn [str_items]. rewrite (no_string_is_no_str _ _ Hv).
      destruct (str_items k (S i0) l); simpl; left; reflexivity.
    + specialize (IH (S i0) i v Hnth Hv).
      replace (i0 + S i) with (S i0 + i) by lia.
      cbn [str_items].
      destruct (str_items k (S i0) l) as [ss|es]; [contradiction IH|].
      simpl in IH.
      destruct (str_type [Key k; Index i0] v0); simpl;
        [exact IH | apply in_or_app; right; exact IH].
Qed.

(** A title whose characters are all unsafe or whitespace is sanitized
    to nothing. *)
Lemma unsafe_title_sanitizes_to_nothing : forall title,
  forallb (fun c => negb (char_in c safe_chars) || py_isspace c) (chars title) = true ->
  strip (str_filter (fun c => char_in c safe_chars) title) = "".
Proof.
  intros title H. apply all_whitespace_strips_to_nothing.
  unfold str_filter. rewrite chars_of_chars.
  induction (chars title) as [|c l IH]; [reflexivity|].
  cbn [forallb] in H. apply andb_true_iff in H. destruct H as [Hc Hl].
  cbn [filter]. destruct (char_in c safe_chars) eqn:E.
  - cbn [forallb]. simpl in Hc. rewrite Hc. apply IH, Hl.
  - apply IH, Hl.
Qed.

(** Finds the error of the goal in the report. *)
Ltac in_report :=
  repeat (first [left; reflexivity | apply in_or_app; right | right]).

Ltac unfold_models :=
  unfold CalculateInput_validate, WeatherInput_validate, NoteInput_validate,
    TemperatureInput_validate, FileReadInput_validate, TimeInput_validate,
    required, with_default.

(** Every violation of a declared constraint is in the report of the
    tool's input model. *)
Lemma violation_is_reported : forall name arguments err,
  violation name arguments err ->
  exists title errors,
    schema_errors name arguments = Some (title, errors) /\ In err errors.
Proof.
  intros name arguments err H. destruct H.
  - (* a missing field *)
    unfold required_fields in H. unfold schema_errors.
    name_cases name; simpl in H; try contradiction;
      do 2 eexists; (split; [reflexivity|]);
      repeat (destruct H as [<-|H]; [|]); try contradiction.
    all: unfold_models; rewrite H0; simpl; each_field; in_report.
  - (* no number *)
    apply (no_number_is_no_float k) in H1.
    simpl in H. repeat (destruct H as [H|H]; [|]); try contradiction;
      inversion H; subst name k; do 2 eexists; (split; [reflexivity|]);
      unfold_models; rewrite H0; simpl; rewrite H1; simpl; each_field; in_report.
  - (* no numeric string *)
    simpl in H. repeat (destruct H as [H|H]; [|]); try contradiction;
      inversion H; subst name k; do 2 eexists; (split; [reflexivity|]);
      unfold_models; rewrite H0; simpl; rewrite H1; simpl; each_field; in_report.
  - (* no string *)
    simpl in H. repeat (destruct H as [H|H]; [|]); try contradiction;
      inversion H; subst name k; do 2 eexists; (split; [reflexivity|]);
      unfold_models; rewrite H0; simpl;
      rewrite (no_string_is_no_str _ _ H1); simpl; each_field; in_report.
  - (* an unknown operation *)
    do 2 eexists. split; [reflexivity|].
    unfold_models. rewrite H. simpl. unfold pattern.
    rewrite (not_in_alternatives _ _ H0). simpl. each_field; in_report.
  - (* a zero divisor *)
    do 2 eexists. split; [reflexivity|].
    unfold_models. rewrite H, H0. simpl. rewrite H1. simpl.
    unfold validate_division. simpl. rewrite H2. each_field; in_report.
  - (* an empty city *)
    do 2 eexists. split; [reflexivity|].
    unfold_models. rewrite H. simpl. left. reflexivity.
  - (* a long city *)
    do 2 eexists. split; [reflexivity|].
    unfold_models. rewrite H. simpl. unfold min_length, max_length.
    destruct (Nat.ltb_spec (String.length city) 1); [lia|]. simpl.
    destruct (Nat.ltb_spec 100 (String.length city)); [|lia]. left. reflexivity.
  - (* an empty title *)
    do 2 eexists. split; [reflexivity|].
    unfold_models. rewrite H. simpl. each_field; in_report.
  - (* a long title *)
    do 2 eexists. split; [reflexivity|].
    unfold_models. rewrite H. simpl. unfold min_length, max_length.
    destruct (Nat.ltb_spec (String.length title) 1); [lia|]. simpl.
    destruct (Nat.ltb_spec 100 (String.length title)); [|lia]. simpl.
    each_field; in_report.
  - (* a title without a safe character *)
    do 2 eexists. split; [reflexivity|].
    unfold_models. rewrite H. simpl. unfold min_length, max_length.
    destruct (Nat.ltb_spec (String.length title) 1); [lia|]. simpl.
    destruct (Nat.ltb_spec 100 (String.length title)); [lia|]. simpl.
    unfold sanitize_title. rewrite (unsafe_title_sanitizes_to_nothing _ H1). simpl.
    each_field; in_report.
  - (* an empty content *)
    do 2 eexists. split; [reflexivity|].
    unfold_models. rewrite H. simpl. each_field; in_report.
  - (* tags that are no list *)
    do 2 eexists. split; [reflexivity|].
    unfold_models. rewrite H. simpl.
    assert (Ht : optional_str_list "tags" v = Invalid [list_type "tags"]).
    { destruct v; try reflexivity; exfalso;
        [apply H0; reflexivity | apply (H1 l); reflexivity]. }
    rewrite Ht. each_field; in_report.
  - (* a tag that is no string *)
    do 2 eexists. split; [reflexivity|].
    unfold_models. rewrite H. simpl.
    pose proof (str_items_reports_item "tags" l 0 i v H0 H1) as Hin.
    simpl in Hin. unfold and_then.
    destruct (str_items "tags" 0 l) as [ss|es]; [contradiction Hin|].
    simpl in Hin. each_field; simpl;
      repeat (first [exact Hin | apply in_or_app; right | right]).
  - (* below absolute zero *)
    do 2 eexists. split; [reflexivity|].
    unfold_models. rewrite H. simpl. rewrite H0. simpl.
    unfold validate_temperature. rewrite H1. left. reflexivity.
  - (* an empty file name *)
    do 2 eexists. split; [reflexivity|].
    unfold_models. rewrite H. simpl. left. reflexivity.
  - (* a path in the file name *)
    do 2 eexists. split; [reflexivity|].
    unfold_models. rewrite H. simpl.
    assert (Hlen : (String.length filename <? 1) = false).
    { destruct filename; [discriminate H0 | reflexivity]. }
    unfold min_length. rewrite Hlen. simpl. unfold validate_filename.
    assert (Hne : String.eqb (path_name filename) filename = false).
    { apply String.eqb_neq. intros Heq.
      pose proof (path_name_no_separator filename) as Hno.
      rewrite Heq, H0 in Hno. discriminate. }
    rewrite Hne. simpl. rewrite orb_true_r. left. reflexivity.
  - (* an unknown format *)
    do 2 eexists. split; [reflexivity|].
    unfold_models. rewrite H. simpl. unfold pattern.
    rewrite (not_in_alternatives _ _ H0). left. reflexivity.
Qed.

(** What the handlers do with a non-empty report. *)
Lemma invalid_arguments_effect : forall name arguments title errors w,
  schema_errors name arguments = Some (title, errors) ->
  errors <> [] ->
  call_tool name arguments w
  = error_response "ValidationError" (ValidationReport title errors) w.
Proof.
  intros name arguments title errors w Hschema Hne.
  unfold schema_errors in Hschema.
  name_cases name; simpl in Hschema; try discriminate;
    inversion Hschema; subst title errors;
    apply invalid_errors in Hne.
  - rewrite (call_tool_registered "calculate" calculate) by (simpl; tauto).
    unfold calculate, calculate_try. erewrite construct_invalid by exact Hne. reflexivity.
  - rewrite (call_tool_registered "get_weather" get_weather) by (simpl; tauto).
    unfold get_weather, get_weather_try. erewrite construct_invalid by exact Hne. reflexivity.
  - rewrite (call_tool_registered "save_note" save_note) by (simpl; tauto).
    unfold save_note, save_note_try. erewrite construct_invalid by exact Hne. reflexivity.
  - rewrite (call_tool_registered "convert_temperature" convert_temperature)
      by (simpl; tauto).
    unfold convert_temperature, convert_temperature_try.
    erewrite construct_invalid by exact Hne. reflexivity.
  - rewrite (call_tool_registered "read_file" read_file) by (simpl; tauto).
    unfold read_file, read_file_try. erewrite construct_invalid by exact Hne.
    reflexivity.
  - rewrite (call_tool_registered "get_time" get_time) by (simpl; tauto).
    unfold get_time, get_time_try. erewrite construct_invalid by exact Hne. reflexivity.
Qed.

(** C4. A payload that breaks a constraint the tool's input model
    declares (a required field that is missing, a value of the wrong type,
    a string that is no number, an operation or a format that is not
    listed, a zero divisor, a city, title, content or file name of a
    length out of bounds, a title without a safe character, tags that are
    no list of strings, a temperature below -459.67, a file name with a
    path in it): the tool returns the [ErrorOutput] of the
    [ValidationError] whose report names that constraint by field and
    message, and the files are as they were.  And whatever makes the
    input model report an error: the tool returns the [ErrorOutput] of
    the [ValidationError] with the whole report; nothing of the handler
    after the validation runs, the clock being read once for the
    timestamp of the error, and the files are as they were. *)
Theorem invalid_arguments_are_reported_and_nothing_runs :
  forall name arguments w,
    (forall err,
       violation name arguments err ->
       exists title errors,
         In err errors
         /\ call_tool name arguments w
            = error_response "ValidationError" (ValidationReport title errors) w
         /\ is_error (fst (call_tool name arguments w)) = true
         /\ files (snd (call_tool name arguments w)) = files w)
    /\ (forall title errors,
          schema_errors name arguments = Some (title, errors) ->
          errors <> [] ->
          call_tool name arguments w
          = error_response "ValidationError" (ValidationReport title errors) w
          /\ is_error (fst (call_tool name arguments w)) = true
          /\ files (snd (call_tool name arguments w)) = files w).
Proof.
  intros name arguments w.
  assert (Hreport : forall title errors,
            schema_errors name arguments = Some (title, errors) ->
            errors <> [] ->
            call_tool name arguments w
            = error_response "ValidationError" (ValidationReport title errors) w
            /\ is_error (fst (call_tool name arguments w)) = true
            /\ files (snd (call_tool name arguments w)) = files w).
  { intros title errors Hschema Hne.
    rewrite (invalid_arguments_effect _ _ _ _ w Hschema Hne).
    split; [reflexivity|]. apply error_response_is_error. }
  split; [|exact Hreport].
  intros err Hv.
  destruct (violation_is_reported _ _ _ Hv) as [title [errors [Hschema Hin]]].
  exists title, errors. split; [exact Hin|].
  apply Hreport; [exact Hschema|].
  intros ->. exact Hin.
Qed.

End ServerProperties.

(** * The statements on concrete inputs *)


(** The turn of that batch: the two results are in the messages in the
    order of the calls, before the final answer. *)
Example two_calls_turn :
  fst (user_turn "divide, then save a note" (fresh_session two_calls_then_answer 0))
  = Answered
  /\ map Message.role
       (messages (snd (user_turn "divide, then save a note"
                         (fresh_session two_calls_then_answer 0))))
     = [system; user; assistant; tool; tool; assistant]
  /\ map Message.tool_call_id
       (messages (snd (user_turn "divide, then save a note"
                         (fresh_session two_calls_then_answer 0))))
     = [None; None; None; Some "call_1"; Some "call_2"; None].
Proof. repeat split; reflexivity. Qed.


(** C2 as stated fails: the second inference of the turn raises, the turn
    is aborted, and the user message, the assistant message and the tool
    message of the turn are still there. *)
Lemma abort_after_a_tool_round_keeps_the_turn :
  fst (user_turn "divide" (fresh_session one_call_then_failure 0))
  = Aborted (mk_exception "APIConnectionError" (Plain "Connection error."))
  /\ messages (fresh_session one_call_then_failure 0) = [sample_system_entry]
  /\ messages (snd (user_turn "divide" (fresh_session one_call_then_failure 0)))
     = [sample_system_entry;
        user_entry "divide";
        assistant_entry (ChatCompletionMessage.mk None (Some [divide_call]));
        tool_message divide_call "result of calculate"]
  /\ messages (snd (user_turn "divide" (fresh_session one_call_then_failure 0)))
     <> messages (fresh_session one_call_then_failure 0).
Proof. repeat split; try reflexivity. discriminate. Qed.

(** C2 as amended, on a turn whose second inference fails, after a tool
    round, and on a turn whose first inference fails. *)
Lemma aborted_turn_keeps_what_followed_the_user_message_witness :
  (exists s1 appended,
     try_body (append (user_entry "divide") (fresh_session one_call_then_failure 0))
     = (Raised (mk_exception "APIConnectionError" (Plain "Connection error.")), s1) /\
     messages s1
     = (messages (fresh_session one_call_then_failure 0)
        ++ user_entry "divide" :: appended)%list /\
     Forall from_the_turn appended /\
     messages (snd (user_turn "divide" (fresh_session one_call_then_failure 0)))
     = match appended with
       | [] => messages (fresh_session one_call_then_failure 0)
       | _ :: _ => messages s1
       end /\
     (appended = [] <->
      exists r,
        chat_completions_create
          (messages (fresh_session one_call_then_failure 0) ++ [user_entry "divide"])
          (remote (fresh_session one_call_then_failure 0))
        = (inl (mk_exception "APIConnectionError" (Plain "Connection error.")), r)) /\
     (forall m r,
        chat_completions_create
          (messages (fresh_session one_call_then_failure 0) ++ [user_entry "divide"])
          (remote (fresh_session one_call_then_failure 0))
        = (inr m, r) ->
        exists more,
          appended = assistant_entry m :: more /\
          messages (snd (user_turn "divide" (fresh_session one_call_then_failure 0)))
          = (messages (fresh_session one_call_then_failure 0)
             ++ user_entry "divide" :: assistant_entry m :: more)%list))
  /\
  (exists s1 appended,
     try_body (append (user_entry "hello") (fresh_session unreachable 0))
     = (Raised (mk_exception "APIConnectionError" (Plain "Connection error.")), s1) /\
     messages s1
     = (messages (fresh_session unreachable 0)
        ++ user_entry "hello" :: appended)%list /\
     Forall from_the_turn appended /\
     messages (snd (user_turn "hello" (fresh_session unreachable 0)))
     = match appended with
       | [] => messages (fresh_session unreachable 0)
       | _ :: _ => messages s1
       end /\
     (appended = [] <->
      exists r,
        chat_completions_create
          (messages (fresh_session unreachable 0) ++ [user_entry "hello"])
          (remote (fresh_session unreachable 0))
        = (inl (mk_exception "APIConnectionError" (Plain "Connection error.")), r)) /\
     (forall m r,
        chat_completions_create
          (messages (fresh_session unreachable 0) ++ [user_entry "hello"])
          (remote (fresh_session unreachable 0))
        = (inr m, r) ->
        exists more,
          appended = assistant_entry m :: more /\
          messages (snd (user_turn "hello" (fresh_session unreachable 0)))
          = (messages (fresh_session unreachable 0)
             ++ user_entry "hello" :: assistant_entry m :: more)%list)).
Proof.
  split.
  - exact (@aborted_turn_keeps_what_followed_the_user_message one_call_then_failure
             "divide" (fresh_session one_call_then_failure 0)
             (mk_exception "APIConnectionError" (Plain "Connection error."))
             (snd (user_turn "divide" (fresh_session one_call_then_failure 0)))
             eq_refl).
  - exact (@aborted_turn_keeps_what_followed_the_user_message unreachable
             "hello" (fresh_session unreachable 0)
             (mk_exception "APIConnectionError" (Plain "Connection error."))
             (snd (user_turn "hello" (fresh_session unreachable 0)))
             eq_refl).
Defined.

(** C3 on a model that asks for a tool call at every inference. *)
Lemma turn_stops_at_the_iteration_ceiling_witness :
  Exhausted <> Unfinished /\
  (forall e, Exhausted <> Escaped e) /\
  exists sent,
    requests (snd (user_turn "go on" (fresh_session (insistent divide_call) 0)))
    = (requests (fresh_session (insistent divide_call) 0) ++ sent)%list /\
    inferences sent <= 10 /\
    (Exhausted = Exhausted ->
       inferences sent = 10 /\
       (exists p,
          printed (snd (user_turn "go on" (fresh_session (insistent divide_call) 0)))
          = (p ++ [MaximumIterationsLine])%list) /\
       exists rounds,
         answered_rounds rounds /\
         messages (snd (user_turn "go on" (fresh_session (insistent divide_call) 0)))
         = (messages (fresh_session (insistent divide_call) 0)
            ++ user_entry "go on" :: rounds)%list).
Proof.
  apply (@turn_stops_at_the_iteration_ceiling (insistent divide_call)
           "go on" (fresh_session (insistent divide_call) 0) Exhausted
           (snd (user_turn "go on" (fresh_session (insistent divide_call) 0)))).
  vm_compute. reflexivity.
Defined.

(** C4 on a division by zero, as a violation and as a report, and on a
    note whose title is a path. *)
Lemma invalid_arguments_are_reported_and_nothing_runs_witness :
  (exists title errors,
     In (value_error "b" "Cannot divide by zero") errors
     /\ @call_tool sample_runtime "calculate"
          [("operation", JStr "divide"); ("a", JInt 10); ("b", JInt 0)]
          (sample_world [])
        = @error_response sample_runtime "ValidationError"
            (ValidationReport title errors) (sample_world [])
     /\ is_error (fst (@call_tool sample_runtime "calculate"
                         [("operation", JStr "divide"); ("a", JInt 10); ("b", JInt 0)]
                         (sample_world []))) = true
     /\ files (snd (@call_tool sample_runtime "calculate"
                      [("operation", JStr "divide"); ("a", JInt 10); ("b", JInt 0)]
                      (sample_world []))) = files (sample_world []))
  /\
  (@call_tool sample_runtime "calculate"
     [("operation", JStr "divide"); ("a", JInt 10); ("b", JInt 0)] (sample_world [])
   = @error_response sample_runtime "ValidationError"
       (ValidationReport "CalculateInput"
          [value_error "b" "Cannot divide by zero"]) (sample_world [])
   /\ is_error (fst (@call_tool sample_runtime "calculate"
                       [("operation", JStr "divide"); ("a", JInt 10); ("b", JInt 0)]
                       (sample_world []))) = true
   /\ files (snd (@call_tool sample_runtime "calculate"
                    [("operation", JStr "divide"); ("a", JInt 10); ("b", JInt 0)]
                    (sample_world []))) = files (sample_world []))
  /\
  (exists title errors,
     In (value_error "title"
           "Title must contain at least one alphanumeric character") errors
     /\ @call_tool sample_runtime "save_note"
          [("title", JStr "../.."); ("content", JStr "y")] (sample_world [])
        = @error_response sample_runtime "ValidationError"
            (ValidationReport title errors) (sample_world [])
     /\ is_error (fst (@call_tool sample_runtime "save_note"
                         [("title", JStr "../.."); ("content", JStr "y")]
                         (sample_world []))) = true
     /\ files (snd (@call_tool sample_runtime "save_note"
                      [("title", JStr "../.."); ("content", JStr "y")]
                      (sample_world []))) = files (sample_world [])).
Proof.
  split; [|split].
  - apply (proj1 (@invalid_arguments_are_reported_and_nothing_runs sample_runtime
                    "calculate"
                    [("operation", JStr "divide"); ("a", JInt 10); ("b", JInt 0)]
                    (sample_world []))).
    apply (@divisor_is_zero sample_runtime _ (JInt 0) 0%float); reflexivity.
  - apply (proj2 (@invalid_arguments_are_reported_and_nothing_runs sample_runtime
                    "calculate"
                    [("operation", JStr "divide"); ("a", JInt 10); ("b", JInt 0)]
                    (sample_world []))).
    + reflexivity.
    + discriminate.
  - apply (proj1 (@invalid_arguments_are_reported_and_nothing_runs sample_runtime
                    "save_note" [("title", JStr "../.."); ("content", JStr "y")]
                    (sample_world []))).
    apply (@title_has_no_safe_character sample_runtime _ "../..").
    + reflexivity.
    + simpl. lia.
    + reflexivity.
Defined.

(** An [int] that no float can hold is no valid number: [10^400] as an
    operand is reported as [float_type], where [10^300] is taken. *)
Example calculate_rejects_an_int_beyond_the_floats :
  @call_tool sample_runtime "calculate"
    [("operation", JStr "add"); ("a", JInt (10 ^ 400)); ("b", JInt 1)]
    (sample_world [])
  = @error_response sample_runtime "ValidationError"
      (ValidationReport "CalculateInput" [float_type "a"]) (sample_world [])
  /\ is_error (fst (@call_tool sample_runtime "calculate"
                      [("operation", JStr "add"); ("a", JInt (10 ^ 300)); ("b", JInt 1)]
                      (sample_world []))) = false
  /\ @schema_errors sample_runtime "convert_temperature"
       [("temperature_fahrenheit", JInt (- 10 ^ 400))]
     = Some ("TemperatureInput", [float_type "temperature_fahrenheit"]).
Proof. vm_compute. repeat split; reflexivity. Qed.

(** A note whose title has no safe character is rejected, and no file is
    written. *)
Example save_note_rejects_a_title_without_safe_characters :
  snd (@save_note sample_runtime
         [("title", JStr "../.."); ("content", JStr "y")] (sample_world []))
  = @mk_world sample_runtime [] 1
  /\ is_error (fst (@save_note sample_runtime
                      [("title", JStr "../.."); ("content", JStr "y")]
                      (sample_world []))) = true.
Proof. split; reflexivity. Qed.



(** What [calculate] prints for [add], 2 and 3: the operands and the
    result are floats, and print as such. *)
Example calculate_add_2_3 :
  fst (@calculate sample_runtime
         [("operation", JStr "add"); ("a", JInt 2); ("b", JInt 3)] (sample_world []))
  = [mk_text "text"
       (model_dump_json (OCalculate (CalculateOutput.mk "add" 2 3 5 "2.0 add 3.0 = 5.0"
                      (sample_clock 0))))].
Proof. reflexivity. Qed.

(** C6 on a name that the table does not have. *)
Lemma unknown_tool_is_reported_witness :
  @call_tool_in sample_runtime TOOL_HANDLERS "launch_rocket" [] (sample_world [])
  = ([mk_text "text"
        (model_dump_json (OError (ErrorOutput.mk false "UnknownToolError"
                   (Plain ("Unknown tool: " ++ "launch_rocket"))
                   (@clock sample_runtime (ticks (sample_world []))))))],
     @mk_world sample_runtime (files (sample_world [])) (S (ticks (sample_world []))))
  /\ is_error (fst (@call_tool_in sample_runtime TOOL_HANDLERS "launch_rocket" []
                      (sample_world []))) = true.
Proof.
  apply (@unknown_tool_is_reported sample_runtime). reflexivity.
Defined.

(** C7 as stated fails: [open] raises [FileNotFoundError] with the
    message of the operating system, and [read_file] reports another
    message. *)
Lemma read_file_rewrites_the_message_of_a_missing_file :
  @read_file_try sample_runtime [("filename", JStr "x.txt")] (sample_world [])
  = (inl (mk_exception "FileNotFoundError"
            (Plain "[Errno 2] No such file or directory: 'x.txt'")),
     sample_world [])
  /\ fst (@call_tool sample_runtime "read_file" [("filename", JStr "x.txt")]
            (sample_world []))
     = [mk_text "text"
          (model_dump_json (OError (ErrorOutput.mk false "FileNotFoundError"
                     (Plain "File 'x.txt' not found") (sample_clock 0))))]
  /\ Plain "File 'x.txt' not found"
     <> Plain "[Errno 2] No such file or directory: 'x.txt'".
Proof. repeat split; try reflexivity. discriminate. Qed.

(** C7 as amended, on the same call. *)
Lemma raised_exception_becomes_an_error_output_witness :
  @call_tool sample_runtime "read_file" [("filename", JStr "x.txt")] (sample_world [])
  = (if String.eqb "read_file" "read_file"
        && String.eqb "FileNotFoundError" "FileNotFoundError"
     then @error_response sample_runtime "FileNotFoundError"
            (Plain ("File '"
                    ++ @fstring_arg sample_runtime
                         (dict_get "filename" [("filename", JStr "x.txt")])
                    ++ "' not found"))
     else @error_response sample_runtime "FileNotFoundError"
            (Plain "[Errno 2] No such file or directory: 'x.txt'"))
      (sample_world [])
  /\ is_error (fst (@call_tool sample_runtime "read_file"
                      [("filename", JStr "x.txt")] (sample_world []))) = true.
Proof.
  apply (@raised_exception_becomes_an_error_output sample_runtime "read_file"
           (@read_file_try sample_runtime) [("filename", JStr "x.txt")]
           (sample_world [])
           (mk_exception "FileNotFoundError"
              (Plain "[Errno 2] No such file or directory: 'x.txt'"))
           (sample_world [])).
  - reflexivity.
  - reflexivity.
Defined.

(** C9 on a title with a path in it. *)
Lemma note_filename_is_a_plain_name_witness :
  note_filename (NoteInput.mk "etcpasswd x" "y" None)
  = "note_" ++ replace_char " " "_" "etcpasswd x" ++ ".txt"
  /\ forallb filename_char (chars (replace_char " " "_" "etcpasswd x")) = true
  /\ char_in "/" (note_filename (NoteInput.mk "etcpasswd x" "y" None)) = false
  /\ path_parts (note_filename (NoteInput.mk "etcpasswd x" "y" None))
     = [note_filename (NoteInput.mk "etcpasswd x" "y" None)]
  /\ forall w,
       files (snd (@save_note sample_runtime
                     [("title", JStr " ../etc/passwd x "); ("content", JStr "y")] w))
       = fst (@written_to sample_runtime
                (note_filename (NoteInput.mk "etcpasswd x" "y" None))
                (note_chunks (NoteInput.mk "etcpasswd x" "y" None)
                   (@clock sample_runtime (ticks w)))
                (files w)).
Proof.
  apply (@note_filename_is_a_plain_name sample_runtime
           [("title", JStr " ../etc/passwd x "); ("content", JStr "y")]
           (NoteInput.mk "etcpasswd x" "y" None)).
  reflexivity.
Defined.

(** C10 on the empty arguments. *)
Lemma get_time_defaults_to_iso_witness :
  TimeInput_validate [] = Valid (TimeInput.mk "iso")
  /\ @get_time sample_runtime [] (sample_world [])
     = ([mk_text "text"
           (model_dump_json
              (OTime (TimeOutput.mk (@clock sample_runtime (ticks (sample_world [])))
                     (isoformat (@clock sample_runtime (ticks (sample_world []))))
                     "iso" "UTC")))],
        @mk_world sample_runtime (files (sample_world [])) (S (ticks (sample_world []))))
  /\ @call_tool sample_runtime "get_time" [] (sample_world [])
     = @get_time sample_runtime [] (sample_world []).
Proof.
  apply (@get_time_defaults_to_iso sample_runtime). reflexivity.
Defined.

(** The ISO rendering of the sample clock's first reading. *)
Example get_time_iso_text :
  fst (@get_time sample_runtime [] (sample_world []))
  = [mk_text "text"
       (model_dump_json
          (OTime (TimeOutput.mk (sample_clock 0) "2025-01-01T12:00:00" "iso" "UTC")))].
Proof. reflexivity. Qed.

(** Division by zero, as the model or a user would ask for it. *)
Lemma division_by_zero_is_a_violation_witness :
  exists errors,
    @schema_errors sample_runtime "calculate"
      [("operation", JStr "divide"); ("a", JInt 10); ("b", JInt 0)]
    = Some ("CalculateInput", errors)
    /\ In (value_error "b" "Cannot divide by zero") errors.
Proof.
  apply (@division_by_zero_is_a_violation sample_runtime
           [("operation", JStr "divide"); ("a", JInt 10); ("b", JInt 0)]
           (JInt 0) 0%float); reflexivity.
Defined.

(** 500 degrees below zero, and [10^400] degrees below zero. *)
Lemma below_absolute_zero_is_a_violation_witness :
  @schema_errors sample_runtime "convert_temperature"
    [("temperature_fahrenheit", JInt (-500))]
  = Some ("TemperatureInput",
          [value_error "temperature_fahrenheit"
             "Temperature cannot be below absolute zero (-459.67°F)"])
  /\ @schema_errors sample_runtime "convert_temperature"
       [("temperature_fahrenheit", JInt (- 10 ^ 400))]
     = Some ("TemperatureInput", [float_type "temperature_fahrenheit"]).
Proof.
  split.
  - apply (proj1 (@below_absolute_zero_is_a_violation sample_runtime
                    [("temperature_fahrenheit", JInt (-500))] (JInt (-500))
                    eq_refl) (-500)%float);
      reflexivity.
  - apply (proj2 (@below_absolute_zero_is_a_violation sample_runtime
                    [("temperature_fahrenheit", JInt (- 10 ^ 400))]
                    (JInt (- 10 ^ 400)) eq_refl) (- 10 ^ 400)%Z).
    + reflexivity.
    + vm_compute. reflexivity.
Defined.

(** A path out of the working directory. *)
Lemma path_separator_is_a_violation_witness :
  @schema_errors sample_runtime "read_file" [("filename", JStr "../etc/passwd")]
  = Some ("FileReadInput",
          [value_error "filename" "Invalid filename - path traversal not allowed"]).
Proof.
  apply (@path_separator_is_a_violation sample_runtime
           [("filename", JStr "../etc/passwd")] "../etc/passwd"); reflexivity.
Defined.

(** [calculate] without its operands. *)
Lemma missing_field_is_a_violation_witness :
  exists title errors,
    @schema_errors sample_runtime "calculate" [("operation", JStr "add")]
    = Some (title, errors)
    /\ In (missing "a") errors.
Proof.
  apply (@missing_field_is_a_violation sample_runtime "calculate"
           [("operation", JStr "add")] "a").
  - simpl. tauto.
  - reflexivity.
Defined.

(** [Path("..").name] is [".."] and [Path(".").name] is empty: the name
    of the parent directory passes [validate_filename], that of the
    directory itself does not. *)
Example validate_filename_accepts_the_parent_directory :
  validate_filename ".." = Valid ".." /\ validate_filename "." <> Valid ".".
Proof. split; [reflexivity | discriminate]. Qed.

(** The answer that comes at the tenth inference. *)
Lemma answer_at_the_tenth_inference_is_followed_by_the_warning_witness :
  exists sent,
    requests (snd (user_turn "go on" (fresh_session answer_at_the_tenth 0)))
    = (requests (fresh_session answer_at_the_tenth 0) ++ sent)%list /\
    (inferences sent = 10 ->
     exists p,
       printed (snd (user_turn "go on" (fresh_session answer_at_the_tenth 0)))
       = (p ++ [MaximumIterationsLine])%list).
Proof.
  apply (@answer_at_the_tenth_inference_is_followed_by_the_warning
           answer_at_the_tenth "go on" (fresh_session answer_at_the_tenth 0)).
  vm_compute. reflexivity.
Defined.

Example answer_at_the_tenth_inference :
  fst (user_turn "go on" (fresh_session answer_at_the_tenth 0)) = Answered
  /\ inferences (requests (snd (user_turn "go on"
                                  (fresh_session answer_at_the_tenth 0)))) = 10
  /\ last (printed (snd (user_turn "go on" (fresh_session answer_at_the_tenth 0))))
          (ErrorLine (mk_exception "" (Plain "")))
     = MaximumIterationsLine.
Proof. vm_compute. repeat split; reflexivity. Qed.

(** * Further properties of the tool server *)

(** Tells which of the six tools [name] is, or that it is none of them. *)
Ltac which_tool name :=
  let E := fresh "E" in
  destruct (String.eqb name "calculate") eqn:E;
  [apply String.eqb_eq in E; subst name|
  clear E; destruct (String.eqb name "get_weather") eqn:E;
  [apply String.eqb_eq in E; subst name|
  clear E; destruct (String.eqb name "save_note") eqn:E;
  [apply String.eqb_eq in E; subst name|
  clear E; destruct (String.eqb name "convert_temperature") eqn:E;
  [apply String.eqb_eq in E; subst name|
  clear E; destruct (String.eqb name "read_file") eqn:E;
  [apply String.eqb_eq in E; subst name|
  clear E; destruct (String.eqb name "get_time") eqn:E;
  [apply String.eqb_eq in E; subst name|]]]]]].

Section ValidationProperties.
Context {RT : Runtime}.

(** A result that, when it rejects, names at least one error. *)
Definition reports {A : Type} (r : Validated A) : Prop := r <> Invalid [].

Lemma and_then_reports : forall (A B : Type) (r : Validated A) (k : A -> Validated B),
  reports r -> (forall x, reports (k x)) -> reports (and_then r k).
Proof.
  intros A B [x|es] k Hr Hk; simpl; [apply Hk|].
  intros Heq. apply Hr. inversion Heq. reflexivity.
Qed.

Lemma required_reports : forall (A : Type) k arguments (validate : Json -> Validated A),
  (forall v, reports (validate v)) -> reports (required k arguments validate).
Proof.
  intros A k arguments validate H. unfold required.
  destruct (dict_get k arguments); [apply H | discriminate].
Qed.

Lemma with_default_reports : forall (A : Type) k (d : A) arguments validate,
  (forall v, reports (validate v)) -> reports (with_default k d arguments validate).
Proof.
  intros A k d arguments validate H. unfold with_default.
  destruct (dict_get k arguments); [apply H | discriminate].
Qed.

Lemma str_type_reports : forall loc v, reports (str_type loc v).
Proof. intros loc []; discriminate. Qed.

Lemma min_length_reports : forall k n s, reports (min_length k n s).
Proof. intros k n s. unfold min_length. destruct (_ <? _); discriminate. Qed.

Lemma max_length_reports : forall k n s, reports (max_length k n s).
Proof. intros k n s. unfold max_length. destruct (_ <? _); discriminate. Qed.

Lemma pattern_reports : forall k alternatives s, reports (pattern k alternatives s).
Proof. intros k alternatives s. unfold pattern. destruct (existsb _ _); discriminate. Qed.

Lemma float_field_reports : forall k v, reports (float_field k v).
Proof.
  intros k [| |z| |s| |]; simpl; try discriminate.
  - destruct (float_of_Z z); discriminate.
  - destruct (str_as_float s); discriminate.
Qed.

Lemma str_items_reports : forall k l i, reports (str_items k i l).
Proof.
  intros k. induction l as [|v l IH]; intros i; simpl; [discriminate|].
  specialize (IH (S i)). unfold reports in *.
  destruct v; destruct (str_items k (S i) l) as [ss|[|e es]]; simpl;
    try discriminate; try (exfalso; apply IH; reflexivity).
Qed.

Lemma optional_str_list_reports : forall k v, reports (optional_str_list k v).
Proof.
  intros k []; simpl; try discriminate.
  apply and_then_reports; [apply str_items_reports | discriminate].
Qed.

(** The errors of a model are those of its fields, one after the other:
    none only when every field validates. *)
Lemma three_fields_report : forall (A B C D : Type) (f : A -> B -> C -> D)
    (r1 : Validated A) (r2 : Validated B) (r3 : Validated C),
  reports r1 -> reports r2 -> reports r3 ->
  reports (match r1, r2, r3 with
           | Valid x, Valid y, Valid z => Valid (f x y z)
           | _, _, _ => Invalid (errors_of r1 ++ errors_of r2 ++ errors_of r3)
           end).
Proof.
  unfold reports.
  intros A B C D f [x|[|e1 es1]] [y|[|e2 es2]] [z|[|e3 es3]] H1 H2 H3; simpl;
    try discriminate;
    exfalso; solve [apply H1; reflexivity | apply H2; reflexivity | apply H3; reflexivity].
Qed.

Lemma one_field_reports : forall (A D : Type) (f : A -> D) (r : Validated A),
  reports r ->
  reports (match r with Valid x => Valid (f x) | Invalid es => Invalid es end).
Proof.
  intros A D f [x|es] H; [discriminate|].
  intros Heq. apply H. inversion Heq. reflexivity.
Qed.

Lemma CalculateInput_reports : forall arguments,
  reports (CalculateInput_validate arguments).
Proof.
  intros arguments. unfold CalculateInput_validate.
  apply three_fields_report.
  - apply required_reports. intros v.
    apply and_then_reports; [apply str_type_reports | intros; apply pattern_reports].
  - apply required_reports. apply float_field_reports.
  - apply required_reports. intros v.
    apply and_then_reports; [apply float_field_reports|].
    intros x. unfold validate_division. destruct (_ && _); discriminate.
Qed.

Lemma WeatherInput_reports : forall arguments,
  reports (WeatherInput_validate arguments).
Proof.
  intros arguments. unfold WeatherInput_validate.
  apply one_field_reports. apply required_reports. intros v.
  repeat apply and_then_reports; intros;
    first [apply str_type_reports | apply min_length_reports
          | apply max_length_reports | discriminate].
Qed.

Lemma NoteInput_reports : forall arguments,
  reports (NoteInput_validate arguments).
Proof.
  intros arguments. unfold NoteInput_validate.
  apply three_fields_report.
  - apply required_reports. intros v.
    repeat apply and_then_reports; intros;
      first [apply str_type_reports | apply min_length_reports
            | apply max_length_reports | idtac].
    unfold sanitize_title. destruct (String.eqb _ _); discriminate.
  - apply required_reports. intros v.
    apply and_then_reports; [apply str_type_reports | intros; apply min_length_reports].
  - apply with_default_reports. apply optional_str_list_reports.
Qed.

Lemma TemperatureInput_reports : forall arguments,
  reports (TemperatureInput_validate arguments).
Proof.
  intros arguments. unfold TemperatureInput_validate.
  apply one_field_reports. apply required_reports. intros v.
  apply and_then_reports; [apply float_field_reports|].
  intros x. unfold validate_temperature. destruct (_ <? _)%float; discriminate.
Qed.

Lemma FileReadInput_reports : forall arguments,
  reports (FileReadInput_validate arguments).
Proof.
  intros arguments. unfold FileReadInput_validate.
  apply one_field_reports. apply required_reports. intros v.
  repeat apply and_then_reports; intros;
    first [apply str_type_reports | apply min_length_reports | idtac].
  unfold validate_filename. destruct (_ || _); discriminate.
Qed.

Lemma TimeInput_reports : forall arguments,
  reports (TimeInput_validate arguments).
Proof.
  intros arguments. unfold TimeInput_validate.
  apply one_field_reports. apply with_default_reports. intros v.
  apply and_then_reports; [apply str_type_reports | intros; apply pattern_reports].
Qed.

Lemma valid_as_reports : forall (A : Type) (tag : A -> ToolInput) (r : Validated A),
  reports r ->
  (errors_of r = [] <-> exists input, valid_as tag r = Some input).
Proof.
  intros A tag [x|es] H; simpl; split.
  - intros _. exists (tag x). reflexivity.
  - reflexivity.
  - intros ->. exfalso. apply H. reflexivity.
  - intros [input Hin]. discriminate.
Qed.

(** Whatever the arguments, the input model of a tool either yields an
    input or names at least one error: a rejection is never silent. *)
Theorem arguments_validate_or_name_an_error :
  forall name arguments title errors,
    schema_errors name arguments = Some (title, errors) ->
    (errors = [] <-> exists input, validated name arguments = Some input).
Proof.
  intros name arguments title errors H.
  unfold schema_errors in H. unfold validated.
  which_tool name; try discriminate; inversion H; subst title errors;
    apply valid_as_reports.
  - apply CalculateInput_reports.
  - apply WeatherInput_reports.
  - apply NoteInput_reports.
  - apply TemperatureInput_reports.
  - apply FileReadInput_reports.
  - apply TimeInput_reports.
Qed.

End ValidationProperties.

Section HandlerProperties.
Context {RT : Runtime}.

Lemma plain_name_validates : forall v,
  char_in "/" v = false -> v <> "" -> v <> "." ->
  validate_filename v = Valid v.
Proof.
  intros v Hslash Hne Hdot. unfold validate_filename.
  assert (Hname : path_name v = v).
  { unfold path_name, path_parts. unfold char_in in Hslash.
    rewrite (split_chars_no_separator _ _ Hslash). simpl map.
    rewrite of_chars_chars. simpl.
    apply String.eqb_neq in Hne. apply String.eqb_neq in Hdot.
    rewrite Hne, Hdot. reflexivity. }
  rewrite Hname, String.eqb_refl.
  apply String.eqb_neq in Hne. rewrite Hne. reflexivity.
Qed.

(** [validate_filename] accepts exactly the names that have no ['/'] and
    are neither empty nor ["."], and returns them as they are. *)
Theorem validate_filename_accepts_exactly_plain_names :
  forall v r,
    validate_filename v = Valid r
    <-> (r = v /\ char_in "/" v = false /\ v <> "" /\ v <> ".").
Proof.
  intros v r. unfold validate_filename. split.
  - destruct (String.eqb (path_name v) "" || negb (String.eqb (path_name v) v)) eqn:E;
      [discriminate|].
    intros H. inversion H; subst r.
    apply orb_false_iff in E. destruct E as [Hne Heq].
    apply negb_false_iff, String.eqb_eq in Heq.
    apply String.eqb_neq in Hne.
    split; [exact Heq|]. split; [rewrite <- Heq; apply path_name_no_separator|].
    split.
    + intros ->. apply Hne. reflexivity.
    + intros ->. apply Hne. reflexivity.
  - intros [-> [Hslash [Hne Hdot]]].
    fold (validate_filename v). apply plain_name_validates; assumption.
Qed.

(** [calculate] answers with an error only when its input does not
    validate: the division by zero and the lookup in [operations] that the
    [try] block could raise are ruled out by the validation. *)
Theorem calculate_fails_only_on_validation :
  forall arguments w o,
    fst (call_tool "calculate" arguments w) = [mk_text "text" (model_dump_json
                                                                 (OError o))] ->
    ErrorOutput.error_type o = "ValidationError"
    /\ exists errors,
         errors <> []
         /\ ErrorOutput.error_message o = ValidationReport "CalculateInput" errors.
Proof.
  intros arguments w o H.
  rewrite (call_tool_registered "calculate" calculate) in H by (simpl; tauto).
  destruct (CalculateInput_validate arguments) as [i|es] eqn:Hv.
  - destruct (calculate_try_valid _ _ Hv) as [result Htry].
    unfold calculate, try_except in H. rewrite Htry in H. discriminate.
  - unfold calculate, calculate_try in H.
    erewrite construct_invalid in H by exact Hv.
    destruct o as [success error_type error_message timestamp].
    simpl in H. injection H as Hs Ht Hm Hts. subst. simpl. split; [reflexivity|].
    exists es. split; [|reflexivity].
    intros ->. apply (CalculateInput_reports arguments). exact Hv.
Qed.

(** On an input that validates, [calculate] returns the JSON text of an
    output with the operands as they were read and, as [result], their
    sum, difference, product or quotient according to [operation];
    [formatted] prints the three floats; and the text prints the result as
    a number when it is finite, and as [null] when the operation overflowed
    or gave no number. *)
Theorem calculate_applies_the_operation :
  forall arguments i w,
    CalculateInput_validate arguments = Valid i ->
    exists o,
      fst (call_tool "calculate" arguments w)
      = [mk_text "text" (model_dump_json (OCalculate o))]
      /\ CalculateOutput.operation o = CalculateInput.operation i
      /\ CalculateOutput.operand_a o = CalculateInput.a i
      /\ CalculateOutput.operand_b o = CalculateInput.b i
      /\ (CalculateInput.operation i = "add" ->
          CalculateOutput.result o = (CalculateInput.a i + CalculateInput.b i)%float)
      /\ (CalculateInput.operation i = "subtract" ->
          CalculateOutput.result o = (CalculateInput.a i - CalculateInput.b i)%float)
      /\ (CalculateInput.operation i = "multiply" ->
          CalculateOutput.result o = (CalculateInput.a i * CalculateInput.b i)%float)
      /\ (CalculateInput.operation i = "divide" ->
          CalculateOutput.result o = (CalculateInput.a i / CalculateInput.b i)%float)
      /\ CalculateOutput.formatted o
         = float_str (CalculateInput.a i) ++ " " ++ CalculateInput.operation i ++ " "
           ++ float_str (CalculateInput.b i) ++ " = "
           ++ float_str (CalculateOutput.result o)
      /\ lookup "result" (model_dump_json (OCalculate o))
         = Some (if is_finite (CalculateOutput.result o)
                 then PNumber (CalculateOutput.result o)
                 else PNull).
Proof.
  intros arguments i w Hv.
  rewrite (call_tool_registered "calculate" calculate) by (simpl; tauto).
  destruct (CalculateInput_valid _ _ Hv) as [Hop Hdiv].
  unfold calculate, calculate_try, try_except, bind, construct. rewrite Hv.
  destruct i as [op x y]. simpl in *.
  destruct Hop as [<-|[<-|[<-|[<-|[]]]]]; simpl.
  4: unfold operations_item; simpl; rewrite (Hdiv eq_refl); simpl.
  all: eexists (CalculateOutput.mk _ _ _ _ _ _); split; [reflexivity|]; simpl;
       repeat split; intros; try reflexivity; discriminate.
Qed.

(** Takes the next test of the goal apart. *)
Ltac next_case :=
  match goal with
  | |- context [match ?x with _ => _ end] =>
      match x with
      | context [match _ with _ => _ end] => fail 1
      | _ => destruct x eqn:?; simpl
      end
  end.

Ltac run_handler :=
  unfold calculate, calculate_try, get_weather, get_weather_try,
    convert_temperature, convert_temperature_try, read_file, read_file_try,
    read_file_except, get_time, get_time_try, save_note, save_note_try,
    try_except, bind, construct, ret, raise, datetime_now, fs_read, fs_open_w,
    fs_write, operations_item, except_Exception, error_response;
  simpl; repeat next_case.

Local Opaque model_dump_json.

(** Every call returns exactly one content item, of type ["text"]. *)
Theorem call_tool_returns_one_text_item :
  forall name arguments w,
    exists o : OutputModel,
      fst (call_tool name arguments w) = [mk_text "text" (model_dump_json o)].
Proof.
  intros name arguments w.
  unfold call_tool, call_tool_in, TOOL_HANDLERS, lookup.
  run_handler; eexists; reflexivity.
Qed.

(** No tool but [save_note] changes the files. *)
Theorem only_save_note_touches_the_files :
  forall name arguments w,
    name <> "save_note" ->
    files (snd (call_tool name arguments w)) = files w.
Proof.
  intros name arguments w Hname.
  apply String.eqb_neq in Hname.
  unfold call_tool, call_tool_in, TOOL_HANDLERS, lookup.
  rewrite Hname. run_handler; reflexivity.
Qed.

Local Transparent model_dump_json.

(** *** Lengths and whitespace of the strings the validators return *)

Lemma string_length_chars : forall s, String.length s = List.length (chars s).
Proof. induction s as [|c s IH]; simpl; [reflexivity | unfold chars in *; simpl; congruence]. Qed.

Lemma string_length_of_chars : forall l, String.length (of_chars l) = List.length l.
Proof. intros l. rewrite string_length_chars, chars_of_chars. reflexivity. Qed.

Lemma string_length_app : forall s1 s2,
  String.length (s1 ++ s2) = String.length s1 + String.length s2.
Proof. intros s1 s2. rewrite !string_length_chars, chars_app, length_app. reflexivity. Qed.

Lemma drop_while_length : forall p l, List.length (drop_while p l) <= List.length l.
Proof.
  intros p. induction l as [|c l IH]; simpl; [lia|].
  destruct (p c); simpl; lia.
Qed.

Lemma strip_length : forall s, String.length (strip s) <= String.length s.
Proof.
  intros s. unfold strip, rstrip_chars, lstrip_chars.
  rewrite string_length_of_chars, length_rev, string_length_chars.
  pose proof (drop_while_length py_isspace (rev (drop_while py_isspace (chars s)))) as H1.
  pose proof (drop_while_length py_isspace (chars s)) as H2.
  rewrite length_rev in H1. lia.
Qed.

Lemma str_filter_length : forall p s, String.length (str_filter p s) <= String.length s.
Proof.
  intros p s. unfold str_filter.
  rewrite string_length_of_chars, string_length_chars. apply filter_length_le.
Qed.

Lemma replace_char_length : forall old new s,
  String.length (replace_char old new s) = String.length s.
Proof.
  intros old new s. unfold replace_char.
  rewrite string_length_of_chars, length_map, string_length_chars. reflexivity.
Qed.

(** What is left of a list by [drop_while] does not start with a
    character that it drops. *)
Lemma drop_while_head : forall p l,
  match drop_while p l with
  | [] => True
  | c :: _ => p c = false
  end.
Proof.
  intros p. induction l as [|c l IH]; simpl; [exact I|].
  destruct (p c) eqn:E; [exact IH | exact E].
Qed.

Lemma drop_while_fixed : forall p l,
  match l with [] => True | c :: _ => p c = false end ->
  drop_while p l = l.
Proof. intros p [|c l] H; simpl; [reflexivity | rewrite H; reflexivity]. Qed.

Lemma drop_while_idempotent : forall p l,
  drop_while p (drop_while p l) = drop_while p l.
Proof. intros p l. apply drop_while_fixed, drop_while_head. Qed.

Lemma drop_while_snoc : forall p l c,
  p c = false -> drop_while p (l ++ [c]) = (drop_while p l ++ [c])%list.
Proof.
  intros p l c Hc. induction l as [|x l IH]; simpl.
  - rewrite Hc. reflexivity.
  - destruct (p x); [exact IH | reflexivity].
Qed.

Lemma rstrip_keeps_the_head : forall l,
  match l with [] => True | c :: _ => py_isspace c = false end ->
  match rstrip_chars l with [] => True | c :: _ => py_isspace c = false end.
Proof.
  intros [|c l] H; [exact I|]. unfold rstrip_chars. simpl rev.
  rewrite (drop_while_snoc _ _ _ H), rev_unit. exact H.
Qed.

Lemma strip_chars_idempotent : forall l,
  rstrip_chars (lstrip_chars (rstrip_chars (lstrip_chars l)))
  = rstrip_chars (lstrip_chars l).
Proof.
  intros l. unfold lstrip_chars at 1.
  rewrite (drop_while_fixed py_isspace (rstrip_chars (lstrip_chars l)))
    by (apply rstrip_keeps_the_head, drop_while_head).
  unfold rstrip_chars at 1 2. rewrite rev_involutive, drop_while_idempotent.
  reflexivity.
Qed.

(** [s.strip().strip() == s.strip()] *)
Lemma strip_idempotent : forall s, strip (strip s) = strip s.
Proof.
  intros s. unfold strip. rewrite chars_of_chars, strip_chars_idempotent.
  reflexivity.
Qed.

Lemma Forall_forallb_true : forall (p : ascii -> bool) l,
  Forall (fun c => p c = true) l -> forallb p l = true.
Proof. intros p l H. apply forallb_forall. rewrite Forall_forall in H. exact H. Qed.

(** A title that [sanitize_title] returned is left as it is by
    [sanitize_title]: the title a [NoteOutput] reports names the same
    file when it is used again. *)
Theorem sanitize_title_is_idempotent :
  forall v t, sanitize_title v = Valid t -> sanitize_title t = Valid t.
Proof.
  intros v t H. pose proof (sanitize_title_safe _ _ H) as Hsafe.
  unfold sanitize_title in H.
  destruct (String.eqb (strip (str_filter (fun c => char_in c safe_chars) v)) "") eqn:E;
    [discriminate|].
  injection H as Ht. unfold sanitize_title.
  assert (Hfilter : str_filter (fun c => char_in c safe_chars) t = t).
  { unfold str_filter. rewrite forallb_filter_id;
      [apply of_chars_chars | apply Forall_forallb_true; exact Hsafe]. }
  rewrite Hfilter.
  assert (Hstrip : strip t = t) by (rewrite <- Ht; apply strip_idempotent).
  rewrite Hstrip, <- Ht, E. reflexivity.
Qed.

(** The title of a validated note is what [sanitize_title] made of a
    string of at most 100 characters. *)
Lemma NoteInput_title_source : forall arguments i,
  NoteInput_validate arguments = Valid i ->
  exists v,
    dict_get "title" arguments = Some (JStr v)
    /\ String.length v <= 100
    /\ sanitize_title v = Valid (NoteInput.title i).
Proof.
  intros arguments i H. unfold NoteInput_validate in H.
  destruct (required "title" arguments _) as [t|es] eqn:Ht; [|discriminate].
  destruct (required "content" arguments _) as [c|es]; [|discriminate].
  destruct (with_default "tags" None arguments _) as [g|es]; [|discriminate].
  inversion H; subst. simpl.
  unfold required in Ht. destruct (dict_get "title" arguments) as [v|]; [|discriminate].
  destruct v; simpl in Ht; try discriminate.
  unfold and_then in Ht.
  destruct (min_length "title" 1 s) as [s1|] eqn:Hmin; [|discriminate].
  unfold min_length in Hmin. destruct (String.length s <? 1); [discriminate|].
  inversion Hmin; subst s1.
  destruct (max_length "title" 100 s) as [s2|] eqn:Hmax; [|discriminate].
  unfold max_length in Hmax. destruct (Nat.ltb_spec 100 (String.length s));
    [discriminate|].
  inversion Hmax; subst s2.
  exists s. repeat split; assumption.
Qed.

(** The name of a note's file is 9 characters longer than the sanitized
    title, which has between 1 and 100 characters: between 10 and 109
    characters in all. *)
Theorem note_filename_length_is_bounded :
  forall arguments i,
    NoteInput_validate arguments = Valid i ->
    1 <= String.length (NoteInput.title i) <= 100
    /\ String.length (note_filename i) = String.length (NoteInput.title i) + 9
    /\ 10 <= String.length (note_filename i) <= 109.
Proof.
  intros arguments i H.
  destruct (NoteInput_title_source _ _ H) as [v [_ [Hlen Hs]]].
  assert (Htitle : 1 <= String.length (NoteInput.title i) <= 100).
  { unfold sanitize_title in Hs.
    destruct (String.eqb (strip (str_filter (fun c => char_in c safe_chars) v)) "") eqn:E;
      [discriminate|].
    injection Hs as Ht. split.
    - apply String.eqb_neq in E. rewrite Ht in E.
      destruct (NoteInput.title i); [contradiction E; reflexivity | simpl; lia].
    - pose proof (strip_length (str_filter (fun c => char_in c safe_chars) v)) as H1.
      pose proof (str_filter_length (fun c => char_in c safe_chars) v) as H2.
      rewrite Ht in H1. lia. }
  assert (Hname : String.length (note_filename i) = String.length (NoteInput.title i) + 9).
  { unfold note_filename. rewrite !string_length_app, replace_char_length. simpl. lia. }
  split; [exact Htitle|]. split; [exact Hname|]. lia.
Qed.





(** [get_weather] on a city of 1 to 100 characters: the city reported is
    the argument without the whitespace around it, and is empty for a
    city of whitespace only, the length being checked before the strip;
    the weather reported is the same for every city. *)
Theorem get_weather_reports_the_stripped_city :
  forall arguments city w,
    dict_get "city" arguments = Some (JStr city) ->
    1 <= String.length city <= 100 ->
    exists o,
      fst (call_tool "get_weather" arguments w) = [mk_text "text" (model_dump_json
                                                                     (OWeather o))]
      /\ WeatherOutput.city o = strip city
      /\ strip (WeatherOutput.city o) = WeatherOutput.city o
      /\ (forallb py_isspace (chars city) = true -> WeatherOutput.city o = "")
      /\ WeatherOutput.temperature o = "72°F"
      /\ WeatherOutput.temperature_celsius o = Some 0x1.6333333333333p+4%float
      /\ WeatherOutput.condition o = "Sunny"
      /\ WeatherOutput.humidity o = "45%"
      /\ WeatherOutput.wind o = "10 mph".
Proof.
  intros arguments city w Hget [Hmin Hmax].
  rewrite (call_tool_registered "get_weather" get_weather) by (simpl; tauto).
  assert (Hv : WeatherInput_validate arguments = Valid (WeatherInput.mk (strip city))).
  { unfold WeatherInput_validate, required. rewrite Hget. simpl.
    unfold min_length, max_length.
    destruct (Nat.ltb_spec (String.length city) 1); [lia|]. simpl.
    destruct (Nat.ltb_spec 100 (String.length city)); [lia|]. reflexivity. }
  unfold get_weather, get_weather_try, try_except, bind, construct. rewrite Hv.
  eexists. split; [reflexivity|]. simpl.
  split; [reflexivity|]. split; [apply strip_idempotent|].
  split; [apply all_whitespace_strips_to_nothing|].
  repeat split.
Qed.

(** [get_time] with a string as ['format']: for ["iso"], ["human"] and
    ["unix"] the output echoes the format and renders the time just read
    in it; for any other string the result is the validation error of the
    pattern. *)
Theorem get_time_renders_the_three_formats :
  forall arguments format w,
    dict_get "format" arguments = Some (JStr format) ->
    (In format ["iso"; "human"; "unix"] ->
     exists formatted,
       call_tool "get_time" arguments w
       = ([mk_text "text"
             (model_dump_json
                (OTime (TimeOutput.mk (clock (ticks w)) formatted format "UTC")))],
          mk_world (files w) (S (ticks w)))
       /\ (format = "iso" -> formatted = isoformat (clock (ticks w)))
       /\ (format = "human" -> formatted = strftime_human (clock (ticks w)))
       /\ (format = "unix" -> formatted = str_of_Z (posix_seconds (clock (ticks w)))))
    /\ (~ In format ["iso"; "human"; "unix"] ->
        call_tool "get_time" arguments w
        = error_response "ValidationError"
            (ValidationReport "TimeInput"
               [string_pattern_mismatch "format" "^(iso|human|unix)$"]) w).
Proof.
  intros arguments format w Hget.
  rewrite (call_tool_registered "get_time" get_time) by (simpl; tauto).
  unfold get_time, get_time_try, try_except, bind, construct.
  unfold TimeInput_validate, with_default. rewrite Hget. simpl. unfold pattern.
  split.
  - intros [<-|[<-|[<-|[]]]]; simpl; eexists; (split; [reflexivity|]);
      repeat split; intros; try reflexivity; discriminate.
  - intros Hnot.
    assert (E : existsb (String.eqb format) ["iso"; "human"; "unix"] = false).
    { destruct (existsb (String.eqb format) ["iso"; "human"; "unix"]) eqn:E;
        [|reflexivity].
      exfalso. apply Hnot. apply existsb_exists in E. destruct E as [alt [Hin Heq]].
      apply String.eqb_eq in Heq. subst. exact Hin. }
    rewrite E. reflexivity.
Qed.

(** The tools [list_tools] advertises are the keys of [TOOL_HANDLERS], in
    the same order and without a repeat, and they are what [health_check]
    lists; and each advertised tool validates its arguments against the
    model whose schema it advertises. *)
Theorem advertised_tools_are_the_registered_handlers :
  map Tool.name list_tools = map fst TOOL_HANDLERS
  /\ health_check_tools = map Tool.name list_tools
  /\ NoDup (map Tool.name list_tools)
  /\ forall t arguments,
       In t list_tools ->
       (exists handler, lookup (Tool.name t) TOOL_HANDLERS = Some handler)
       /\ exists errors,
            schema_errors (Tool.name t) arguments = Some (Tool.inputSchema t, errors).
Proof.
  split; [reflexivity|]. split; [reflexivity|]. split.
  - simpl. repeat constructor; simpl; intuition discriminate.
  - intros t arguments Hin. simpl in Hin.
    repeat (destruct Hin as [<-|Hin]; [split; eexists; reflexivity|]).
    contradiction.
Qed.

End HandlerProperties.

(** * Further properties of the client loop *)

Section SessionProperties.
Context {EP : Endpoints}.

Ltac count_up :=
  intros; unfold inferences, max_iterations in *; simpl in *; lia.

(** The [except] clause after a turn's messages: the user message goes
    only when nothing follows it. *)
Lemma except_clause_after : forall e s base user_input appended,
  messages s = ((base ++ [user_entry user_input]) ++ appended)%list ->
  Forall from_the_turn appended ->
  exists s',
    except_clause e s = (Aborted e, s')
    /\ requests s' = requests s
    /\ messages s' = match appended with
                     | [] => base
                     | _ :: _ => (base ++ user_entry user_input :: appended)%list
                     end.
Proof.
  intros e s base user_input appended Hm Hft.
  unfold except_clause. simpl. rewrite Hm.
  destruct appended as [|a appended'].
  - rewrite app_nil_r, pop_last_user_snoc. simpl.
    eexists. split; [reflexivity|]. split; reflexivity.
  - destruct (@exists_last _ (a :: appended')) as [front [m Hsplit]]; [discriminate|].
    rewrite Hsplit in *. rewrite app_assoc, pop_last_user_snoc.
    apply Forall_app in Hft. destruct Hft as [_ Hlast].
    inversion Hlast as [|? ? Hm' _]; subst.
    rewrite (from_the_turn_not_user _ Hm').
    eexists. split; [reflexivity|]. split; [reflexivity|].
    simpl. rewrite <- !app_assoc. reflexivity.
Qed.

(** A turn, whatever its outcome: it ends as answered, exhausted or
    aborted, sends at most [max_iterations] inferences, and leaves the
    earlier messages in place. *)
Lemma user_turn_effect : forall user_input s outcome s',
  user_turn user_input s = (outcome, s') ->
  outcome <> Unfinished /\ (forall e, outcome <> Escaped e) /\
  exists suffix sent,
    messages s' = (messages s ++ suffix)%list /\
    requests s' = (requests s ++ sent)%list /\
    inferences sent <= max_iterations.
Proof.
  intros user_input s outcome s' H. unfold user_turn in H.
  destruct (try_body (append (user_entry user_input) s)) as [exit s1] eqn:Htry.
  destruct (try_body_effect _ _ _ _ Htry eq_refl)
    as [iteration' [appended [sent [Hm [Hft [Hq [_ [Hcount [Hle [Hnf _]]]]]]]]]].
  simpl in Hm, Hq.
  destruct exit; try contradiction.
  - inversion H; subst. split; [discriminate|]. split; [discriminate|].
    exists (user_entry user_input :: appended), sent.
    rewrite Hm, <- app_assoc. repeat split; try assumption; count_up.
  - inversion H; subst. split; [discriminate|]. split; [discriminate|].
    exists (user_entry user_input :: appended), sent.
    rewrite Hm, <- app_assoc. repeat split; try assumption; count_up.
  - destruct (except_clause_after e s1 (messages s) user_input appended Hm Hft)
      as [s2 [Hex [Hq2 Hm2]]].
    rewrite Hex in H. inversion H; subst.
    split; [discriminate|]. split; [discriminate|].
    exists (match appended with
            | [] => []
            | _ :: _ => user_entry user_input :: appended
            end), sent.
    split.
    + rewrite Hm2. destruct appended; [rewrite app_nil_r|]; reflexivity.
    + rewrite Hq2. split; [exact Hq | count_up].
Qed.

(** What the loop leaves behind a [break]: complete rounds, then the
    assistant message that asked for no tool; its text, when it has one,
    is printed. *)
Lemma while_loop_break : forall fuel iteration s iteration' s' base rounds,
  while_loop fuel iteration s = (Break, iteration', s') ->
  messages s = (base ++ rounds)%list ->
  answered_rounds rounds ->
  exists rounds' m,
    answered_rounds rounds' /\
    no_tool_calls m = true /\
    messages s' = (base ++ rounds' ++ [assistant_entry m])%list /\
    forall c, ChatCompletionMessage.content m = Some c -> c <> "" ->
              exists p, printed s' = (p ++ [AssistantLine c])%list.
Proof.
  induction fuel as [|fuel IH]; intros iteration s iteration' s' base rounds H Hm Hr;
    rewrite while_loop_unfold in H;
    destruct (iteration <? max_iterations); try discriminate.
  destruct (chat_completions_create (messages s) (remote s))
    as [[e|assistant_message] r] eqn:Hcreate; [discriminate|].
  cbv zeta in H.
  destruct (no_tool_calls assistant_message) eqn:Hno.
  - inversion H; subst. exists rounds, assistant_message.
    split; [exact Hr|]. split; [exact Hno|].
    destruct (printed_answer_messages
                (ChatCompletionMessage.content assistant_message)
                (append (assistant_entry assistant_message)
                   (send (Inference (messages s)) r s))) as [-> _].
    simpl. rewrite Hm, <- app_assoc. split; [reflexivity|].
    intros c Hc Hne. rewrite Hc.
    apply String.eqb_neq in Hne. rewrite Hne. simpl. eexists. reflexivity.
  - destruct (execute_tool_calls (batch assistant_message)
                (print (ExecutingLine (iteration + 1))
                   (append (assistant_entry assistant_message)
                      (send (Inference (messages s)) r s))))
      as [[e|] s2] eqn:Hexec; [discriminate|].
    apply execute_tool_calls_effect in Hexec. simpl in Hexec.
    destruct Hexec as [answered [results [sent_b [Hm2 [Hlen [_ [_ [-> _]]]]]]]].
    apply (IH _ _ _ _ base
             (rounds ++ assistant_entry assistant_message
                :: tool_messages (batch assistant_message) results)%list H).
    + rewrite Hm2, Hm, <- !app_assoc. reflexivity.
    + apply one_more_round; assumption.
Qed.

(** A turn that is answered leaves a complete conversation: after the
    user message come rounds in which every tool call asked for has its
    tool message, and last the assistant message that asked for no tool;
    the text of that message, when it has one, is printed. *)
Theorem answered_turn_leaves_a_complete_conversation :
  forall user_input s s',
    user_turn user_input s = (Answered, s') ->
    exists rounds m,
      answered_rounds rounds /\
      no_tool_calls m = true /\
      messages s'
      = (messages s ++ user_entry user_input :: rounds ++ [assistant_entry m])%list /\
      forall c, ChatCompletionMessage.content m = Some c -> c <> "" ->
                In (AssistantLine c) (printed s').
Proof.
  intros user_input s s' H. unfold user_turn, try_body in H.
  destruct (while_loop max_iterations 0 (append (user_entry user_input) s))
    as [[exit iteration'] s1] eqn:Hloop.
  destruct exit; try discriminate.
  - assert (Hbase : messages (append (user_entry user_input) s)
                    = ((messages s ++ [user_entry user_input]) ++ [])%list)
      by (simpl; rewrite app_nil_r; reflexivity).
    destruct (while_loop_break _ _ _ _ _ _ _ Hloop Hbase no_round)
      as [rounds [m [Hr [Hno [Hm Hp]]]]].
    exists rounds, m. split; [exact Hr|]. split; [exact Hno|].
    destruct (max_iterations <=? iteration'); inversion H; subst; simpl.
    + split; [rewrite Hm, <- app_assoc; reflexivity|].
      intros c Hc Hne. destruct (Hp c Hc Hne) as [p ->].
      apply in_or_app. left. apply in_or_app. right. left. reflexivity.
    + split; [rewrite Hm, <- app_assoc; reflexivity|].
      intros c Hc Hne. destruct (Hp c Hc Hne) as [p ->].
      apply in_or_app. right. left. reflexivity.
  - unfold except_clause in H.
    destruct (pop_last_user (messages (print (ErrorLine e) s1))); discriminate.
Qed.

(** *** The chat loop *)

Lemma chat_loop_line : forall line rest s,
  chat_loop (Some line :: rest) s
  = if existsb (String.eqb (lower (strip line))) quit_words then (Goodbye, s)
    else if String.eqb (strip line) "" then chat_loop rest s
    else match user_turn (strip line) s with
         | (Escaped e, s1) => (UnexpectedError e, s1)
         | (Unfinished, s1) => (Stuck, s1)
         | (_, s1) => chat_loop rest s1
         end.
Proof. reflexivity. Qed.

(** A line that strips to nothing is passed over: leaving the blank lines
    out of what is typed changes neither how the session ends nor its
    state. *)
Theorem blank_lines_are_passed_over :
  forall inputs s,
    chat_loop inputs s = chat_loop (filter (fun i => negb (blank i)) inputs) s.
Proof.
  induction inputs as [|[line|] rest IH]; intros s; [reflexivity| |reflexivity].
  cbn [filter]. unfold blank at 1.
  destruct (String.eqb (strip line) "") eqn:E; cbn [negb].
  - rewrite chat_loop_line, E. apply String.eqb_eq in E. rewrite E.
    assert (Hq : existsb (String.eqb (lower "")) quit_words = false) by reflexivity.
    rewrite Hq. apply IH.
  - rewrite !chat_loop_line, E.
    destruct (existsb (String.eqb (lower (strip line))) quit_words); [reflexivity|].
    destruct (user_turn (strip line) s) as [[| |e|e|] s1]; try reflexivity; apply IH.
Qed.

(** Once a quit word is read, in any letter case and with any whitespace
    around it, the loop is over: what is typed after it is not read. *)
Theorem nothing_is_read_after_a_quit_word :
  forall before line after s,
    In (lower (strip line)) quit_words ->
    chat_loop (before ++ Some line :: after) s
    = chat_loop (before ++ [Some line]) s
    /\ fst (chat_loop (before ++ Some line :: after) s) <> AwaitingInput.
Proof.
  intros before line after s Hq.
  assert (Hquit : existsb (String.eqb (lower (strip line))) quit_words = true).
  { apply existsb_exists. exists (lower (strip line)).
    split; [exact Hq | apply String.eqb_refl]. }
  revert s. induction before as [|[l|] before IH]; intros s.
  - cbn [app]. rewrite !chat_loop_line, Hquit. split; [reflexivity | discriminate].
  - cbn [app]. rewrite !chat_loop_line.
    destruct (existsb (String.eqb (lower (strip l))) quit_words);
      [split; [reflexivity | discriminate]|].
    destruct (String.eqb (strip l) ""); [apply IH|].
    destruct (user_turn (strip l) s) as [[| |e|e|] s1];
      try apply IH; split; try reflexivity; discriminate.
  - split; [reflexivity | discriminate].
Qed.

(** Over a whole session: the loop ends by a quit word, by the end of the
    input, or waits for more input, never by an error of its own; the
    messages the session started with stay at the head of the
    conversation; and at most ten inferences are sent per line typed. *)
Theorem session_keeps_its_history_and_its_bound :
  forall inputs s ending s',
    chat_loop inputs s = (ending, s') ->
    ending <> Stuck /\ (forall e, ending <> UnexpectedError e) /\
    exists suffix sent,
      messages s' = (messages s ++ suffix)%list /\
      requests s' = (requests s ++ sent)%list /\
      inferences sent <= 10 * List.length inputs.
Proof.
  induction inputs as [|[line|] rest IH]; intros s ending s' H.
  - inversion H; subst. split; [discriminate|]. split; [discriminate|].
    exists [], []. rewrite !app_nil_r. repeat split. count_up.
  - rewrite chat_loop_line in H.
    destruct (existsb (String.eqb (lower (strip line))) quit_words).
    { inversion H; subst. split; [discriminate|]. split; [discriminate|].
      exists [], []. rewrite !app_nil_r. repeat split. count_up. }
    destruct (String.eqb (strip line) "").
    { destruct (IH _ _ _ H) as [H1 [H2 [suffix [sent [Hm [Hq Hn]]]]]].
      split; [exact H1|]. split; [exact H2|].
      exists suffix, sent. repeat split; try assumption. simpl List.length. lia. }
    destruct (user_turn (strip line) s) as [outcome s1] eqn:Hturn.
    destruct (user_turn_effect _ _ _ _ Hturn)
      as [Hnu [Hne [suffix1 [sent1 [Hm1 [Hq1 Hn1]]]]]].
    assert (Hrest : chat_loop rest s1 = (ending, s')).
    { destruct outcome; try exact H.
      - exfalso. apply (Hne e). reflexivity.
      - exfalso. apply Hnu. reflexivity. }
    destruct (IH _ _ _ Hrest) as [H1 [H2 [suffix [sent [Hm [Hq Hn]]]]]].
    split; [exact H1|]. split; [exact H2|].
    exists (suffix1 ++ suffix)%list, (sent1 ++ sent)%list.
    rewrite Hm, Hm1, Hq, Hq1, <- !app_assoc.
    split; [reflexivity|]. split; [reflexivity|].
    rewrite inferences_app. unfold max_iterations in Hn1. simpl List.length. lia.
  - inversion H; subst. split; [discriminate|]. split; [discriminate|].
    exists [], []. rewrite !app_nil_r. repeat split. count_up.
Qed.

End SessionProperties.

(** * The further statements on concrete inputs *)







Lemma arguments_validate_or_name_an_error_witness :
  [value_error "b" "Cannot divide by zero"] = []
  <-> exists input,
        @validated sample_runtime "calculate"
          [("operation", JStr "divide"); ("a", JInt 10); ("b", JInt 0)]
        = Some input.
Proof.
  apply (@arguments_validate_or_name_an_error sample_runtime "calculate"
           [("operation", JStr "divide"); ("a", JInt 10); ("b", JInt 0)]
           "CalculateInput").
  reflexivity.
Defined.

Lemma calculate_fails_only_on_validation_witness :
  ErrorOutput.error_type
    (ErrorOutput.mk false "ValidationError"
       (ValidationReport "CalculateInput" [missing "a"; missing "b"])
       (sample_clock 0))
  = "ValidationError"
  /\ exists errors,
       errors <> []
       /\ ErrorOutput.error_message
            (ErrorOutput.mk false "ValidationError"
               (ValidationReport "CalculateInput" [missing "a"; missing "b"])
               (sample_clock 0))
          = ValidationReport "CalculateInput" errors.
Proof.
  apply (@calculate_fails_only_on_validation sample_runtime
           [("operation", JStr "add")] (sample_world [])).
  reflexivity.
Defined.

Lemma calculate_applies_the_operation_witness :
  exists o,
    fst (@call_tool sample_runtime "calculate"
           [("operation", JStr "divide"); ("a", JInt 7); ("b", JFloat 2)]
           (sample_world []))
    = [mk_text "text" (model_dump_json (OCalculate o))]
    /\ CalculateOutput.operation o = "divide"
    /\ CalculateOutput.operand_a o = 7%float
    /\ CalculateOutput.operand_b o = 2%float
    /\ ("divide" = "add" -> CalculateOutput.result o = (7 + 2)%float)
    /\ ("divide" = "subtract" -> CalculateOutput.result o = (7 - 2)%float)
    /\ ("divide" = "multiply" -> CalculateOutput.result o = (7 * 2)%float)
    /\ ("divide" = "divide" -> CalculateOutput.result o = (7 / 2)%float)
    /\ CalculateOutput.formatted o
       = @float_str sample_runtime 7 ++ " " ++ "divide" ++ " "
         ++ @float_str sample_runtime 2 ++ " = "
         ++ @float_str sample_runtime (CalculateOutput.result o)
    /\ lookup "result" (model_dump_json (OCalculate o))
       = Some (if is_finite (CalculateOutput.result o)
               then PNumber (CalculateOutput.result o)
               else PNull).
Proof.
  apply (@calculate_applies_the_operation sample_runtime
           [("operation", JStr "divide"); ("a", JInt 7); ("b", JFloat 2)]
           (CalculateInput.mk "divide" 7 2) (sample_world [])).
  reflexivity.
Defined.

Lemma only_save_note_touches_the_files_witness :
  files (snd (@call_tool sample_runtime "read_file" [("filename", JStr "notes.txt")]
                (sample_world [("notes.txt", "hello")])))
  = files (sample_world [("notes.txt", "hello")]).
Proof.
  apply (@only_save_note_touches_the_files sample_runtime "read_file").
  discriminate.
Defined.

Lemma sanitize_title_is_idempotent_witness :
  sanitize_title "Shopping list" = Valid "Shopping list".
Proof.
  apply (sanitize_title_is_idempotent " Shopping list! " "Shopping list").
  reflexivity.
Defined.

Lemma note_filename_length_is_bounded_witness :
  1 <= String.length (NoteInput.title sample_note_input) <= 100
  /\ String.length (note_filename sample_note_input)
     = String.length (NoteInput.title sample_note_input) + 9
  /\ 10 <= String.length (note_filename sample_note_input) <= 109.
Proof.
  apply (@note_filename_length_is_bounded sample_note sample_note_input).
  reflexivity.
Defined.


(** A note whose content ends its lines with a carriage return and a
    line feed is read back with line feeds only. *)
Example saved_note_with_carriage_returns :
  fst (@call_tool sample_runtime "read_file" [("filename", JStr "note_log.txt")]
         (snd (@call_tool sample_runtime "save_note"
                 [("title", JStr "log");
                  ("content",
                   JStr ("one" ++ String (ascii_of_nat 13) newline ++ "two"))]
                 (sample_world []))))
  = [mk_text "text"
       (model_dump_json (OFileRead (FileReadOutput.mk "note_log.txt"
          ("Title: log" ++ newline ++ "Created: 2025-01-01T12:00:00" ++ newline
           ++ newline ++ "one" ++ newline ++ "two")
          48 1 true)))].
Proof. reflexivity. Qed.

(** The note that was saved, as [read_file] returns it. *)
Example saved_note_content :
  String.concat "" (note_chunks sample_note_input (sample_clock 0))
  = "Title: Shopping list" ++ newline ++ "Created: 2025-01-01T12:00:00" ++ newline
    ++ "Tags: home, food" ++ newline ++ newline ++ "milk"
  /\ note_filename sample_note_input = "note_Shopping_list.txt".
Proof. split; reflexivity. Qed.

Lemma get_weather_reports_the_stripped_city_witness :
  exists o,
    fst (@call_tool sample_runtime "get_weather" [("city", JStr "   ")] (sample_world []))
    = [mk_text "text" (model_dump_json (OWeather o))]
    /\ WeatherOutput.city o = strip "   "
    /\ strip (WeatherOutput.city o) = WeatherOutput.city o
    /\ (forallb py_isspace (chars "   ") = true -> WeatherOutput.city o = "")
    /\ WeatherOutput.temperature o = "72°F"
    /\ WeatherOutput.temperature_celsius o = Some 0x1.6333333333333p+4%float
    /\ WeatherOutput.condition o = "Sunny"
    /\ WeatherOutput.humidity o = "45%"
    /\ WeatherOutput.wind o = "10 mph".
Proof.
  apply (@get_weather_reports_the_stripped_city sample_runtime
           [("city", JStr "   ")] "   " (sample_world [])).
  - reflexivity.
  - simpl. lia.
Defined.

Lemma get_time_renders_the_three_formats_witness :
  (In "human" ["iso"; "human"; "unix"] ->
   exists formatted,
     @call_tool sample_runtime "get_time" [("format", JStr "human")] (sample_world [])
     = ([mk_text "text"
           (model_dump_json
              (OTime (TimeOutput.mk (@clock sample_runtime (ticks (sample_world [])))
                     formatted "human" "UTC")))],
        @mk_world sample_runtime (files (sample_world [])) (S (ticks (sample_world []))))
     /\ ("human" = "iso" ->
         formatted = isoformat (@clock sample_runtime (ticks (sample_world []))))
     /\ ("human" = "human" ->
         formatted = strftime_human (@clock sample_runtime (ticks (sample_world []))))
     /\ ("human" = "unix" ->
         formatted
         = str_of_Z (@posix_seconds sample_runtime
                       (@clock sample_runtime (ticks (sample_world []))))))
  /\ (~ In "human" ["iso"; "human"; "unix"] ->
      @call_tool sample_runtime "get_time" [("format", JStr "human")] (sample_world [])
      = @error_response sample_runtime "ValidationError"
          (ValidationReport "TimeInput"
             [string_pattern_mismatch "format" "^(iso|human|unix)$"])
          (sample_world [])).
Proof.
  apply (@get_time_renders_the_three_formats sample_runtime
           [("format", JStr "human")] "human" (sample_world [])).
  reflexivity.
Defined.

(** The human rendering of the sample clock's first reading. *)
Example get_time_human_text :
  fst (@get_time sample_runtime [("format", JStr "human")] (sample_world []))
  = [mk_text "text"
       (model_dump_json
          (OTime (TimeOutput.mk (sample_clock 0) "January 01, 2025 at 12:00:00 PM"
                 "human" "UTC")))].
Proof. reflexivity. Qed.

Lemma answered_turn_leaves_a_complete_conversation_witness :
  exists rounds m,
    answered_rounds rounds /\
    no_tool_calls m = true /\
    messages (snd (user_turn "divide, then save a note"
                     (fresh_session two_calls_then_answer 0)))
    = (messages (fresh_session two_calls_then_answer 0)
       ++ user_entry "divide, then save a note" :: rounds ++ [assistant_entry m])%list /\
    forall c, ChatCompletionMessage.content m = Some c -> c <> "" ->
              In (AssistantLine c)
                 (printed (snd (user_turn "divide, then save a note"
                                  (fresh_session two_calls_then_answer 0)))).
Proof.
  apply (@answered_turn_leaves_a_complete_conversation two_calls_then_answer
           "divide, then save a note" (fresh_session two_calls_then_answer 0)).
  vm_compute. reflexivity.
Defined.

Lemma nothing_is_read_after_a_quit_word_witness :
  chat_loop ([Some "divide, then save a note"] ++ Some "  QUIT " :: [Some "more"])
    (fresh_session two_calls_then_answer 0)
  = chat_loop ([Some "divide, then save a note"] ++ [Some "  QUIT "])
      (fresh_session two_calls_then_answer 0)
  /\ fst (chat_loop
            ([Some "divide, then save a note"] ++ Some "  QUIT " :: [Some "more"])
            (fresh_session two_calls_then_answer 0))
     <> AwaitingInput.
Proof.
  apply (@nothing_is_read_after_a_quit_word two_calls_then_answer).
  simpl. tauto.
Defined.

Lemma session_keeps_its_history_and_its_bound_witness :
  Goodbye <> Stuck /\ (forall e, Goodbye <> UnexpectedError e) /\
  exists suffix sent,
    messages (snd (chat_loop [Some "divide, then save a note"; Some ""; Some "Exit"]
                     (fresh_session two_calls_then_answer 0)))
    = (messages (fresh_session two_calls_then_answer 0) ++ suffix)%list /\
    requests (snd (chat_loop [Some "divide, then save a note"; Some ""; Some "Exit"]
                     (fresh_session two_calls_then_answer 0)))
    = (requests (fresh_session two_calls_then_answer 0) ++ sent)%list /\
    inferences sent
    <= 10 * List.length [Some "divide, then save a note"; Some ""; Some "Exit"].
Proof.
  apply (@session_keeps_its_history_and_its_bound two_calls_then_answer
           [Some "divide, then save a note"; Some ""; Some "Exit"]
           (fresh_session two_calls_then_answer 0) Goodbye).
  vm_compute. reflexivity.
Defined.

Section TemperatureProperties.
Context {RT : Runtime}.

(** [convert_temperature] converts every temperature that is not below
    [-459.67], the bound itself included: the output echoes the reading,
    its [celsius] is [(f - 32) * 5 / 9] rounded to two places, and
    [formatted] prints both.  What is returned is the JSON text of that
    output, in which a reading or a result that is infinite or NaN is
    printed as [null]. *)
Theorem convert_temperature_converts_from_absolute_zero_up :
  forall arguments v f w,
    dict_get "temperature_fahrenheit" arguments = Some v ->
    float_field "temperature_fahrenheit" v = Valid f ->
    (f <? absolute_zero_fahrenheit)%float = false ->
    exists o,
      call_tool "convert_temperature" arguments w
      = ([mk_text "text" (model_dump_json (OTemperature o))],
         mk_world (files w) (S (ticks w)))
      /\ o = TemperatureOutput.mk f
               (round2 ((f - 32) * 5 / 9)%float)
               (float_str f ++ "°F = " ++ format_2f ((f - 32) * 5 / 9)%float ++ "°C")
               (clock (ticks w))
      /\ lookup "fahrenheit" (model_dump_json (OTemperature o))
         = Some (if is_finite f then PNumber f else PNull)
      /\ lookup "celsius" (model_dump_json (OTemperature o))
         = Some (if is_finite (round2 ((f - 32) * 5 / 9)%float)
                 then PNumber (round2 ((f - 32) * 5 / 9)%float)
                 else PNull).
Proof.
  intros arguments v f w Hget Hf Hlt.
  rewrite (call_tool_registered "convert_temperature" convert_temperature)
    by (simpl; tauto).
  unfold convert_temperature, convert_temperature_try, try_except, bind, construct.
  unfold TemperatureInput_validate, required. rewrite Hget. simpl.
  rewrite Hf. simpl. unfold validate_temperature. rewrite Hlt.
  eexists (TemperatureOutput.mk _ _ _ _).
  split; [reflexivity|]. split; [reflexivity|]. split; reflexivity.
Qed.

End TemperatureProperties.

(** At the bound itself. *)
Lemma convert_temperature_converts_from_absolute_zero_up_witness :
  exists o,
    @call_tool sample_runtime "convert_temperature"
      [("temperature_fahrenheit", JFloat absolute_zero_fahrenheit)] (sample_world [])
    = ([mk_text "text" (model_dump_json (OTemperature o))],
       @mk_world sample_runtime (files (sample_world [])) (S (ticks (sample_world []))))
    /\ o = TemperatureOutput.mk absolute_zero_fahrenheit
             (@round2 sample_runtime ((absolute_zero_fahrenheit - 32) * 5 / 9)%float)
             (@float_str sample_runtime absolute_zero_fahrenheit ++ "°F = "
              ++ @format_2f sample_runtime
                   ((absolute_zero_fahrenheit - 32) * 5 / 9)%float
              ++ "°C")
             (@clock sample_runtime (ticks (sample_world [])))
    /\ lookup "fahrenheit" (model_dump_json (OTemperature o))
       = Some (if is_finite absolute_zero_fahrenheit
               then PNumber absolute_zero_fahrenheit
               else PNull)
    /\ lookup "celsius" (model_dump_json (OTemperature o))
       = Some (if is_finite
                    (@round2 sample_runtime
                       ((absolute_zero_fahrenheit - 32) * 5 / 9)%float)
               then PNumber
                      (@round2 sample_runtime
                         ((absolute_zero_fahrenheit - 32) * 5 / 9)%float)
               else PNull).
Proof.
  apply (@convert_temperature_converts_from_absolute_zero_up sample_runtime
           [("temperature_fahrenheit", JFloat absolute_zero_fahrenheit)]
           (JFloat absolute_zero_fahrenheit) absolute_zero_fahrenheit (sample_world []));
    reflexivity.
Defined.

(** A reading that is not a number is not below the bound either, and is
    converted; the text prints it, and its conversion, as [null]. *)
Example convert_temperature_takes_nan :
  is_error (fst (@call_tool sample_runtime "convert_temperature"
                   [("temperature_fahrenheit", JFloat nan)] (sample_world [])))
  = false
  /\ map (fun c => (lookup "fahrenheit" (text c), lookup "celsius" (text c)))
       (fst (@call_tool sample_runtime "convert_temperature"
               [("temperature_fahrenheit", JFloat nan)] (sample_world [])))
     = [(Some PNull, Some PNull)].
Proof. split; reflexivity. Qed.

(** A product beyond the floats is infinite, and printed as [null]. *)
Example calculate_prints_an_overflow_as_null :
  map (fun c => (lookup "operand_a" (text c), lookup "result" (text c)))
    (fst (@call_tool sample_runtime "calculate"
            [("operation", JStr "multiply"); ("a", JInt (10 ^ 300));
             ("b", JInt (10 ^ 300))]
            (sample_world [])))
  = [(Some (PNumber 0x1.7e43c8800759cp+996), Some PNull)].
Proof. vm_compute. reflexivity. Qed.
